(** * Taiwan humidity timelapse: the per-frame interpolation core

    A shallow embedding of [scripts/update_humidity.py]: the land mask
    ([load_land_mask], [get_land_mask]) and the station-to-grid interpolation
    ([interpolate_humidity]) with its clipping, masking, statistics and
    rounding.

    Python floats and numpy's float64 cells are IEEE 754 binary64 numbers,
    modelled by Rocq's primitive floats.  The two scattered-data interpolators
    of scipy ([griddata] with [method='cubic'] and [method='linear']) and the
    summation order of [np.mean] are parameters of the development.

    Around this core the development follows the two scripts further: the
    run over the weather files ([download_and_interpolate_humidity]), the
    temperature script that writes the reference file
    ([download_temperature_data], [generate_timelapse_json] of
    [scripts/update_data.py]), the listings of the bucket ([list_dates],
    [list_files_by_date]) and the environment file ([load_env_file]).  The
    bucket, [strptime], [python-dotenv] and the clock are parameters. *)

From Stdlib Require Import ZArith List Bool String Ascii Lia Floats.
From Stdlib Require Import Sorting Permutation OrderedTypeEx.
Import ListNotations.

Set Implicit Arguments.
Set Warnings "-register-all".
Local Open Scope string_scope.

(** ** Python floats *)

Module PyFloat.

Local Open Scope float_scope.

(** [float(i)] for a list index or a count. *)
Definition float_of_nat (n : nat) : float :=
  of_uint63 (Uint63.of_Z (Z.of_nat n)).

(** The literals of the source that binary64 cannot hold exactly, as the
    doubles Python reads them as. *)
Definition f0_1 : float := 0x1.999999999999ap-4.   (* 0.1 *)
Definition f99_9 : float := 0x1.8f9999999999ap+6.  (* 99.9 *)
Definition f100 : float := 100.
Definition fm900 : float := -900.

(** *** [round(x, 1)]

    CPython rounds the exact value of the double to one decimal, ties to
    even ([_Py_dg_dtoa] in mode 3), and reads the decimal back as the nearest
    double ([_Py_dg_strtod]).  Infinities, NaN and zeros round to
    themselves. *)

(** The exact value [m * 2^e], in tenths, rounded to an integer, ties to
    even. *)
Definition tenths (m : positive) (e : Z) : Z :=
  let num := (Z.pos m * 10)%Z in
  if (0 <=? e)%Z then (num * 2 ^ e)%Z
  else
    let den := (2 ^ (- e))%Z in
    let q := (num / den)%Z in
    let r := (num mod den)%Z in
    match (2 * r ?= den)%Z with
    | Lt => q
    | Gt => (q + 1)%Z
    | Eq => if Z.even q then q else (q + 1)%Z
    end.

(** The double nearest to [n / 10], with sign [s]. *)
Definition nearest_tenth (s : bool) (n : Z) : float :=
  match n with
  | Zpos p => SF2Prim (SF64div (S754_finite s p 0) (S754_finite false 10 0))
  | _ => if s then neg_zero else zero
  end.

Definition round1 (x : float) : float :=
  match Prim2SF x with
  | S754_finite s m e => nearest_tenth s (tenths m e)
  | _ => x
  end.

(** *** numpy on float64 cells *)

(** [np.clip(x, lo, hi)] on one cell, for bounds that are not NaN: numpy's
    loop is [if (x < lo) x = lo; if (x > hi) x = hi;].  A NaN cell fails both
    comparisons and stays NaN.  (Older releases compute [min(max(x, lo), hi)]
    with NaN handed through, which differs in the sign of a zero cell
    only.) *)
Definition np_clip (x lo hi : float) : float :=
  let x := if x <? lo then lo else x in
  if hi <? x then hi else x.

(** [np.min] and [np.max] of a one-dimensional array without NaN.  numpy
    raises [ValueError] on an empty array; the source guards both calls with
    [len(inner_values) > 0]. *)
Definition np_min (l : list float) : float :=
  match l with
  | [] => nan
  | x :: r => fold_left (fun acc v => if v <? acc then v else acc) r x
  end.

Definition np_max (l : list float) : float :=
  match l with
  | [] => nan
  | x :: r => fold_left (fun acc v => if acc <? v then v else acc) r x
  end.

(** A cell lies in the closed range of a percentage. *)
Definition in_0_100 (x : float) : bool :=
  (0 <=? x) && (x <=? f100).

End PyFloat.

Import PyFloat.

(** ** Python values, exceptions and effects *)

(** The exceptions the modelled code can meet.  [except Exception] catches
    every one of them. *)
Inductive exn : Type :=
| KeyError
| IndexError
| TypeError
| ValueError
| OSError
| JSONDecodeError
| QhullError
| OtherError (msg : string).

Inductive result (A : Type) : Type :=
| Ok (a : A)
| Raise (e : exn).

Arguments Ok {A} a.
Arguments Raise {A} e.

Definition rbind {A B : Type} (r : result A) (k : A -> result B) : result B :=
  match r with
  | Ok a => k a
  | Raise e => Raise e
  end.

Notation "x <-? r ;; k" := (rbind r (fun x => k))
  (at level 61, r at next level, right associativity).

(** A list comprehension whose element expression may raise: elements are
    evaluated in order and the first exception ends the comprehension. *)
Fixpoint rmap {A B : Type} (f : A -> result B) (l : list A) : result (list B) :=
  match l with
  | [] => Ok []
  | a :: l' => b <-? f a ;; bs <-? rmap f l' ;; Ok (b :: bs)
  end.

(** What [json.load] returns. *)
Inductive json : Type :=
| JNull
| JBool (b : bool)
| JInt (z : Z)
| JFloat (x : float)
| JStr (s : string)
| JArr (l : list json)
| JObj (items : list (string * json)).

(** [items] holds the entries of a Python dict, each key once. *)
Fixpoint dict_get (k : string) (items : list (string * json)) : option json :=
  match items with
  | [] => None
  | (k', v) :: rest => if String.eqb k k' then Some v else dict_get k rest
  end.

(** [v[k]] for a string key [k]. *)
Definition getitem_str (v : json) (k : string) : result json :=
  match v with
  | JObj items =>
      match dict_get k items with
      | Some x => Ok x
      | None => Raise KeyError
      end
  | _ => Raise TypeError
  end.

(** [v[0]].  The keys of a decoded JSON object are strings, so [0] is never
    one of them. *)
Definition getitem_0 (v : json) : result json :=
  match v with
  | JArr (x :: _) => Ok x
  | JArr [] => Raise IndexError
  | JStr (String c _) => Ok (JStr (String c EmptyString))
  | JStr EmptyString => Raise IndexError
  | JObj _ => Raise KeyError
  | _ => Raise TypeError
  end.

(** [for x in v]: lists yield their elements, dicts their keys, strings their
    characters; nothing else is iterable. *)
Definition py_iter (v : json) : result (list json) :=
  match v with
  | JArr l => Ok l
  | JObj items => Ok (map (fun kv => JStr (fst kv)) items)
  | JStr s => Ok (map (fun c => JStr (String c EmptyString)) (list_ascii_of_string s))
  | _ => Raise TypeError
  end.

(** A boolean numpy array as its rows.  An array built from no cell at all
    ([np.array([])], [np.array([[], []])]) has dtype float64, not bool. *)
Definition mask : Type := list (list bool).

Definition mask_size0 (m : mask) : bool :=
  forallb (fun row => (List.length row =? 0)%nat) m.

(** [np.array(rows)] for a list of lists of bools: rows of different lengths
    are refused ([ValueError: inhomogeneous shape], numpy 1.24 and later). *)
Definition np_array (rows : list (list bool)) : result mask :=
  match rows with
  | [] => Ok []
  | r :: rs =>
      if forallb (fun r' => (List.length r' =? List.length r)%nat) rs then Ok rows
      else Raise ValueError
  end.

(** The temperature timelapse file on disk: absent, or present with what
    [open] and [json.load] make of it. *)
Inductive file_state : Type :=
| FileMissing
| FilePresent (loaded : result json).

(** Lines printed by the land-mask loader. *)
Inductive output : Type :=
| WarnNotFound
| WarnCouldNotLoad (e : exn).

(** The mutable world of the script: the reference file, the module global
    [LAND_MASK] and the standard output. *)
Record world : Type := mkWorld {
  TEMPERATURE_FILE : file_state;
  LAND_MASK : option mask;
  stdout : list output
}.

Definition M (A : Type) : Type := world -> result A * world.

Definition ret {A : Type} (a : A) : M A := fun w => (Ok a, w).

Definition bind {A B : Type} (m : M A) (k : A -> M B) : M B :=
  fun w =>
    match m w with
    | (Ok a, w') => k a w'
    | (Raise e, w') => (Raise e, w')
    end.

Definition lift {A : Type} (r : result A) : M A := fun w => (r, w).

(** [try: m  except Exception as e: h e] *)
Definition try_except {A : Type} (m : M A) (h : exn -> M A) : M A :=
  fun w =>
    match m w with
    | (Ok a, w') => (Ok a, w')
    | (Raise e, w') => h e w'
    end.

Definition print (o : output) : M unit :=
  fun w => (Ok tt, mkWorld (TEMPERATURE_FILE w) (LAND_MASK w) (stdout w ++ [o])).

Definition read_global : M (option mask) := fun w => (Ok (LAND_MASK w), w).

Definition write_global (m : option mask) : M unit :=
  fun w => (Ok tt, mkWorld (TEMPERATURE_FILE w) m (stdout w)).

Definition file_exists : M bool :=
  fun w =>
    (Ok match TEMPERATURE_FILE w with FileMissing => false | FilePresent _ => true end, w).

(** [with open(TEMPERATURE_FILE) as f: json.load(f)] *)
Definition json_load : M json :=
  fun w =>
    (match TEMPERATURE_FILE w with
     | FileMissing => Raise OSError
     | FilePresent r => r
     end, w).

Notation "x <- m ;; k" := (bind m (fun x => k))
  (at level 61, m at next level, right associativity).
Notation "m ;;; k" := (bind m (fun _ => k))
  (at level 61, right associativity).

(** ** The land mask *)

(** [val is not None and val > -900].  Python compares ints exactly and
    floats as doubles; [True] and [False] are the ints 1 and 0; comparing a
    string, list or dict with an int raises [TypeError]. *)
Definition cell_usable (val : json) : result bool :=
  match val with
  | JNull => Ok false
  | JBool _ => Ok true
  | JInt z => Ok (-900 <? z)%Z
  | JFloat x => Ok (fm900 <? x)%float
  | _ => Raise TypeError
  end.

(** One row of the mask: [[cell_usable(val) for val in row]]. *)
Definition row_mask (row : json) : result (list bool) :=
  vals <-? py_iter row ;; rmap cell_usable vals.

(** The body of the [try] block after [json.load]. *)
Definition mask_of_temp_data (temp_data : json) : result mask :=
  frames <-? getitem_str temp_data "frames" ;;
  frame0 <-? getitem_0 frames ;;
  first_frame <-? getitem_str frame0 "data" ;;
  rows <-? py_iter first_frame ;;
  cells <-? rmap row_mask rows ;;
  np_array cells.

Definition load_land_mask : M (option mask) :=
  present <- file_exists ;;
  if negb present then
    print WarnNotFound ;;; ret None
  else
    try_except
      (temp_data <- json_load ;;
       mask <- lift (mask_of_temp_data temp_data) ;;
       ret (Some mask))
      (fun e => print (WarnCouldNotLoad e) ;;; ret None).

Definition get_land_mask : M (option mask) :=
  cached <- read_global ;;
  match cached with
  | None =>
      loaded <- load_land_mask ;;
      write_global loaded ;;;
      read_global
  | Some _ => read_global
  end.

(** ** The target grid *)

(** One station of a weather file: [s.get(k)] for the three keys read, [None]
    when the key is missing or null. *)
Record station : Type := mkStation {
  humidity : option float;
  latitude : option float;
  longitude : option float
}.

(** The keys of [geo_info] that the interpolation reads. *)
Record geo : Type := mkGeo {
  bottom_left_lon : float;
  bottom_left_lat : float;
  top_right_lon : float;
  top_right_lat : float;
  grid_rows : nat;
  grid_cols : nat
}.

Definition GEO_INFO : geo :=
  mkGeo 120 0x1.5e147ae147ae1p+4      (* 120.0, 21.88 *)
        0x1.e7eb851eb851fp+6 0x1.9733333333333p+4   (* 121.98, 25.45 *)
        120 67.

Definition grid : Type := list (list float).

(** [y[-1] = v] on a one-dimensional array. *)
Definition set_last (y : list float) (v : float) : list float :=
  match y with
  | [] => []
  | _ :: _ => removelast y ++ [v]
  end.

(** [np.linspace(start, stop, num)]: [arange(num) * step + start] with
    [step = (stop - start) / (num - 1)], the last sample then overwritten by
    [stop]. *)
Definition linspace (start stop : float) (num : nat) : list float :=
  let div := (num - 1)%nat in
  let delta := (stop - start)%float in
  let y := map float_of_nat (seq 0 num) in
  let y :=
    if (0 <? div)%nat then
      let step := (delta / float_of_nat div)%float in
      if (step =? 0)%float
      then map (fun v => (v / float_of_nat div * delta)%float) y
      else map (fun v => (v * step)%float) y
    else map (fun v => (v * delta)%float) y in
  let y := map (fun v => (v + start)%float) y in
  if (1 <? num)%nat then set_last y stop else y.

(** [np.meshgrid(lon, lat)]: cell [(r, c)] holds [lon[c]] and [lat[r]]. *)
Definition meshgrid (lon lat : list float) : grid * grid :=
  (map (fun _ => lon) lat, map (fun la => map (fun _ => la) lon) lat).

(** Cell by cell over two arrays of one shape. *)
Fixpoint zip_with {A B C : Type} (f : A -> B -> C) (l : list A) (l' : list B) : list C :=
  match l, l' with
  | a :: t, b :: t' => f a b :: zip_with f t t'
  | _, _ => []
  end.

(** ** Clipping, masking, statistics *)

Definition clip_grid (g : grid) : grid :=
  map (map (fun v => np_clip v 0 f100)) g.

Fixpoint same_shape {A B : Type} (m : list (list A)) (g : list (list B)) : bool :=
  match m, g with
  | [], [] => true
  | rm :: m', rg :: g' => (List.length rm =? List.length rg)%nat && same_shape m' g'
  | _, _ => false
  end.

(** [grid_humidity[~land_mask] = np.nan].  [~] is refused on a float64
    array ([TypeError]); a boolean index of another shape than the indexed
    array is refused ([IndexError]). *)
Definition assign_nan_outside (g : grid) (land_mask : mask) : result grid :=
  if mask_size0 land_mask then Raise TypeError
  else if same_shape land_mask g
       then Ok (zip_with (zip_with (fun (keep : bool) (v : float) => if keep then v else nan)) land_mask g)
       else Raise IndexError.

(** [grid_humidity[~np.isnan(grid_humidity)]], in row-major order. *)
Definition valid_cells (g : grid) : list float :=
  filter (fun v => negb (is_nan v)) (List.concat g).

(** [valid_grid[(valid_grid > 0.1) & (valid_grid < 99.9)]] *)
Definition inner_cells (valid_grid : list float) : list float :=
  filter (fun v => (f0_1 <? v)%float && (v <? f99_9)%float) valid_grid.

Record stats : Type := mkStats {
  s_min : option float;
  s_max : option float;
  s_avg : option float;
  valid_points : nat;
  station_count : nat
}.

(** The second component of the pair returned: the statistics, or
    [{'error': msg}]. *)
Inductive info : Type :=
| Stats (s : stats)
| Error (msg : string).

Definition grid_list : Type := list (list (option float)).

(** The conversion loop at the end: NaN becomes [None], every other cell is
    rounded to one decimal. *)
Definition to_grid_list (g : grid) : grid_list :=
  map (map (fun val => if is_nan val then None else Some (round1 val))) g.

Inductive method : Type := Cubic | Linear.

Section Interpolation.

(** scipy's scattered-data interpolants: [CloughTocher2DInterpolator] for
    [Cubic] and [LinearNDInterpolator] for [Linear].  Building one from the
    station points and values may raise; once built it gives a value, or NaN
    outside the convex hull of the points, at any coordinate. *)
Variable scipy_interpolator :
  method -> list (float * float) -> list float -> result (float -> float -> float).

(** [np.mean] of a one-dimensional float64 array (numpy's pairwise
    summation, divided by the length). *)
Variable np_mean : list float -> float.

(** [griddata(points, values, (grid_lon, grid_lat), method=...)]: build the
    interpolant, evaluate it at every cell of the target grid. *)
Definition griddata (points : list (float * float)) (values : list float)
    (xi : grid * grid) (meth : method) : result grid :=
  ip <-? scipy_interpolator meth points values ;;
  Ok (zip_with (zip_with ip) (fst xi) (snd xi)).

(** [float(v)] of a station field. *)
Definition py_float (v : option float) : result float :=
  match v with
  | Some x => Ok x
  | None => Raise TypeError
  end.

Definition frame_stats (grid_humidity : grid) (n_stations : nat) : stats :=
  let valid_grid := valid_cells grid_humidity in
  let inner_values := inner_cells valid_grid in
  mkStats
    (if (0 <? List.length inner_values)%nat then Some (round1 (np_min inner_values)) else None)
    (if (0 <? List.length inner_values)%nat then Some (round1 (np_max inner_values)) else None)
    (if (0 <? List.length valid_grid)%nat then Some (round1 (np_mean valid_grid)) else None)
    (List.length (filter (fun v => negb (is_nan v)) (List.concat grid_humidity)))
    n_stations.

Definition is_valid_station (s : station) : bool :=
  match humidity s, latitude s, longitude s with
  | Some _, Some _, Some _ => true
  | _, _, _ => false
  end.

Definition interpolate_humidity (stations : list station) (geo_info : geo)
    : M (option grid_list * info) :=
  (* Filter stations with valid humidity data *)
  let valid_stations := filter is_valid_station stations in
  if (List.length valid_stations <? 4)%nat then
    ret (None, Error "Not enough valid stations")
  else
    (* Extract coordinates and values *)
    points <- lift (rmap (fun s => x <-? py_float (longitude s) ;;
                                   y <-? py_float (latitude s) ;;
                                   Ok (x, y)) valid_stations) ;;
    values <- lift (rmap (fun s => py_float (humidity s)) valid_stations) ;;
    (* Create target grid *)
    let lon := linspace (bottom_left_lon geo_info) (top_right_lon geo_info)
                        (grid_cols geo_info) in
    let lat := linspace (bottom_left_lat geo_info) (top_right_lat geo_info)
                        (grid_rows geo_info) in
    let xi := meshgrid lon lat in
    (* Interpolate using cubic method (fallback to linear if fails) *)
    grid_humidity <-
      try_except (lift (griddata points values xi Cubic))
                 (fun _ => lift (griddata points values xi Linear)) ;;
    (* Clip values to valid humidity range (0-100%) *)
    let grid_humidity := clip_grid grid_humidity in
    (* Apply land mask from temperature data *)
    land_mask <- get_land_mask ;;
    grid_humidity <-
      match land_mask with
      | Some m => lift (assign_nan_outside grid_humidity m)
      | None => ret grid_humidity
      end ;;
    (* Calculate statistics; convert to list, replacing NaN with None *)
    ret (Some (to_grid_list grid_humidity),
         Stats (frame_stats grid_humidity (List.length valid_stations))).

End Interpolation.

(** ** Vocabulary of the statements *)

(** The cell at row [r], column [c] of an array given by its rows. *)
Definition cell {A : Type} (g : list (list A)) (r c : nat) : option A :=
  match nth_error g r with
  | Some row => nth_error row c
  | None => None
  end.

(** The longitude and latitude samples of a grid configuration. *)
Definition target_lon (geo_info : geo) : list float :=
  linspace (bottom_left_lon geo_info) (top_right_lon geo_info) (grid_cols geo_info).

Definition target_lat (geo_info : geo) : list float :=
  linspace (bottom_left_lat geo_info) (top_right_lat geo_info) (grid_rows geo_info).

(** The shape of an array given by its rows. *)
Definition has_shape {A : Type} (g : list (list A)) (rows cols : nat) : Prop :=
  List.length g = rows /\ Forall (fun row => List.length row = cols) g.

(** An array without NaN. *)
Definition no_nan (l : list float) : Prop := Forall (fun v => is_nan v = false) l.

(** The step of [linspace]: [(stop - start) / (num - 1)]. *)
Definition linspace_step (start stop : float) (num : nat) : float :=
  ((stop - start) / float_of_nat (num - 1))%float.

(** Sample [i] of [linspace], before the last one is overwritten: evenly
    spaced from [start], in steps of [linspace_step]. *)
Definition linspace_sample (start stop : float) (num i : nat) : float :=
  let step := linspace_step start stop num in
  if (step =? 0)%float
  then (float_of_nat i / float_of_nat (num - 1) * (stop - start) + start)%float
  else (float_of_nat i * step + start)%float.

(** The readings of the stations that pass the validity filter, as
    (longitude, latitude, humidity), in input order. *)
Definition readings (stations : list station) : list (float * float * float) :=
  flat_map (fun s =>
              match humidity s, latitude s, longitude s with
              | Some h, Some la, Some lo => [(lo, la, h)]
              | _, _, _ => []
              end) stations.

Definition points_of (stations : list station) : list (float * float) :=
  map fst (readings stations).

Definition values_of (stations : list station) : list float :=
  map snd (readings stations).

Section InterpolationVocabulary.

Variable scipy_interpolator :
  method -> list (float * float) -> list float -> result (float -> float -> float).

(** The interpolant a frame ends up with: the cubic one, or the linear one
    when building the cubic one raised. *)
Definition interpolant (points : list (float * float)) (values : list float)
    : result (float -> float -> float) :=
  match scipy_interpolator Cubic points values with
  | Ok ip => Ok ip
  | Raise _ => scipy_interpolator Linear points values
  end.

End InterpolationVocabulary.

(** An interpolant evaluated at every cell of the target grid. *)
Definition sample (ip : float -> float -> float) (geo_info : geo) : grid :=
  map (fun la => map (fun lo => ip lo la) (target_lon geo_info)) (target_lat geo_info).

(** A usable mask for a grid configuration: a boolean array of exactly
    [grid_rows] rows of [grid_cols] cells. *)
Definition mask_fits (m : mask) (geo_info : geo) : bool :=
  negb (mask_size0 m)
  && (List.length m =? grid_rows geo_info)%nat
  && forallb (fun row => (List.length row =? grid_cols geo_info)%nat) m.

(** A one-decimal number of the percentage range, as a double: the double
    nearest to [k / 10] for an integer [0 <= k <= 1000]. *)
Definition one_decimal (v : float) : Prop :=
  exists k : Z, (0 <= k <= 1000)%Z /\
    (v = nearest_tenth false k \/ v = nearest_tenth true 0).














(** What loading the reference file [fs] returns and prints. *)
Definition loaded_mask (fs : file_state) : option mask * list output :=
  match fs with
  | FileMissing => (None, [WarnNotFound])
  | FilePresent (Raise e) => (None, [WarnCouldNotLoad e])
  | FilePresent (Ok temp_data) =>
      match mask_of_temp_data temp_data with
      | Ok m => (Some m, [])
      | Raise e => (None, [WarnCouldNotLoad e])
      end
  end.

(** The world after [log] was printed. *)
Definition printed (log : list output) (w : world) : world :=
  mkWorld (TEMPERATURE_FILE w) (LAND_MASK w) (stdout w ++ log).

(** The grid behind a returned frame: the interpolant sampled on the target
    grid, clipped, then masked. *)
Definition masked (g : grid) (land_mask : option mask) : grid :=
  match land_mask with
  | Some m => zip_with (zip_with (fun (keep : bool) (v : float) => if keep then v else nan)) m g
  | None => g
  end.

Definition frame_grid (ip : float -> float -> float) (geo_info : geo)
    (land_mask : option mask) : grid :=
  masked (clip_grid (sample ip geo_info)) land_mask.

(** Every cell of an array of options that is not [None]. *)
Definition count_some {A : Type} (gl : list (list (option A))) : nat :=
  List.length (filter (fun c => match c with Some _ => true | None => false end)
                      (List.concat gl)).

(** The world after the reference file was replaced by [fs]. *)
Definition with_file (fs : file_state) (w : world) : world :=
  mkWorld fs (LAND_MASK w) (stdout w).

(** A run of calls to [get_land_mask], the reference file being [fs] at the
    time of each call, for each [fs] of [files] in turn: what the calls
    return, and the world after the last one. *)
Fixpoint get_each (files : list file_state) (w : world)
    : list (result (option mask)) * world :=
  match files with
  | [] => ([], w)
  | fs :: rest =>
      let '(r, w1) := get_land_mask (with_file fs w) in
      let '(rs, w2) := get_each rest w1 in
      (r :: rs, w2)
  end.

(** ** Vocabulary of the proofs on binary64 *)

Module FloatOrder.

(** A key that orders the numbers as [SFcompare] does, lexicographically. *)
Definition key (x : spec_float) : Z * Z * Z :=
  match x with
  | S754_nan => (0, 0, 0)
  | S754_zero _ => (0, 0, 0)
  | S754_infinity s => (if s then -2 else 2, 0, 0)
  | S754_finite s m e => if s then (-1, - e, - Z.pos m) else (1, e, Z.pos m)
  end%Z.

Definition lex_compare (a b : Z * Z * Z) : comparison :=
  let '(a1, a2, a3) := a in
  let '(b1, b2, b3) := b in
  match (a1 ?= b1)%Z with
  | Eq => match (a2 ?= b2)%Z with
          | Eq => (a3 ?= b3)%Z
          | c => c
          end
  | c => c
  end.

Definition lex_le (a b : Z * Z * Z) : Prop :=
  let '(a1, a2, a3) := a in
  let '(b1, b2, b3) := b in
  (a1 < b1 \/ (a1 = b1 /\ (a2 < b2 \/ (a2 = b2 /\ a3 <= b3))))%Z.

Definition lex_lt (a b : Z * Z * Z) : Prop :=
  let '(a1, a2, a3) := a in
  let '(b1, b2, b3) := b in
  (a1 < b1 \/ (a1 = b1 /\ (a2 < b2 \/ (a2 = b2 /\ a3 < b3))))%Z.

Definition not_nan (x : spec_float) : Prop := x <> S754_nan.

(** A number that is neither NaN nor an infinity. *)
Definition SFfinite (x : spec_float) : Prop :=
  match x with
  | S754_zero _ | S754_finite _ _ _ => True
  | _ => False
  end.

(** The check run on every tenth of the percentage range: the double nearest
    to [k / 10] lies in the range and rounds to itself. *)
Definition tenth_ok (k : nat) : bool :=
  let v := nearest_tenth false (Z.of_nat k) in
  in_0_100 v && PrimFloat.Leibniz.eqb (round1 v) v.

End FloatOrder.

Import FloatOrder.

(** ** Test data *)

Module Demo.

Local Open Scope float_scope.

(** A stand-in for scipy on three stations at (0,0), (1,0), (0,1): the plane
    through their values, for both methods. *)
Definition plane (values : list float) : result (float -> float -> float) :=
  match values with
  | v0 :: v1 :: v2 :: _ =>
      Ok (fun x y => (v0 + (v1 - v0) * x + (v2 - v0) * y)%float)
  | _ => Raise ValueError
  end.

Definition plane_interpolator (meth : method) (points : list (float * float))
    (values : list float) : result (float -> float -> float) :=
  plane values.

(** The same, with a cubic method that always fails. *)
Definition linear_only (meth : method) (points : list (float * float))
    (values : list float) : result (float -> float -> float) :=
  match meth with
  | Cubic => Raise QhullError
  | Linear => plane values
  end.

(** Both methods fail. *)
Definition degenerate (meth : method) (points : list (float * float))
    (values : list float) : result (float -> float -> float) :=
  Raise QhullError.

(** Left-to-right sum over the length. *)
Definition mean (l : list float) : float :=
  (fold_left PrimFloat.add l 0 / float_of_nat (List.length l))%float.

Definition st (h la lo : float) : station := mkStation (Some h) (Some la) (Some lo).

(** Four valid stations and two that the filter drops. *)
Definition stations4 : list station :=
  [ st 40 0 0; mkStation None (Some 0) (Some 0); st 130 0 1;
    st 0x1.4p+4 1 0; mkStation (Some 50) None (Some 1); st 60 1 1 ].   (* 20.0 *)

(** Three valid stations. *)
Definition stations3 : list station :=
  [ st 40 0 0; st 130 0 1; mkStation (Some 50) (Some 1) None; st 20 1 0 ].

Definition unit_square (rows cols : nat) : geo := mkGeo 0 0 1 1 rows cols.

(** [{"frames": [{"data": [[25.5, null], [-999.0, 30]]}]}] *)
Definition reference : json :=
  JObj [("frames",
         JArr [JObj [("time", JStr "t0");
                     ("data", JArr [JArr [JFloat 25.5; JNull];
                                    JArr [JFloat (-999); JInt 30%Z]])]])].

(** [{"frames": [{"data": {}}]}]: an object where the rows should be. *)
Definition reference_no_rows : json :=
  JObj [("frames", JArr [JObj [("data", JObj [])]])].


(** [{"frames": [{"data": [[1.0, 2.0, 3.0]]}]}]: one row of three cells. *)
Definition reference_1x3 : json :=
  JObj [("frames", JArr [JObj [("data", JArr [JArr [JFloat 1; JFloat 2; JFloat 3]])]])].

Definition fresh (fs : file_state) : world := mkWorld fs None [].

(** An interpolant with cells inside the exclusion bands of the statistics:
    0.05 at longitude 0, 99.95 at longitude 1, 50.0 in between. *)
Definition band_interpolator (meth : method) (points : list (float * float))
    (values : list float) : result (float -> float -> float) :=
  Ok (fun x y => if x =? 0 then 0x1.999999999999ap-5             (* 0.05 *)
                 else if x =? 1 then 0x1.8fccccccccccdp+6        (* 99.95 *)
                 else 50).

(** A bounding box whose span overflows binary64: longitudes from -1.7e308 to
    1.7e308. *)
Definition huge_box : geo :=
  mkGeo (-0x1.e42d130773b76p+1023) 0 0x1.e42d130773b76p+1023 1 2 2.

(** A bounding box too narrow to divide: 11 longitudes from 0 to 5 * 2^-1074,
    the fifth subnormal number, so that the step rounds to zero. *)
Definition tiny_box : geo := mkGeo 0 0 0x1.4p-1072 1 2 11.

(** The frame of [stations4] on a 2 by 3 grid of the unit square, without
    reference file. *)
Definition grid_2x3 : grid_list :=
  [[Some 40; Some 85; Some 100]; [Some 20; Some 65; Some 100]].

Definition stats_2x3 : stats :=
  mkStats (Some 20) (Some 85) (Some 0x1.1133333333333p+6) 6 4.   (* avg 68.3 *)

(** The frame of [stations4] on a 2 by 2 grid under the mask of
    [reference]. *)
Definition mask_2x2 : mask := [[true; false]; [false; true]].

Definition grid_masked : grid_list := [[Some 40; None]; [None; Some 100]].

Definition stats_masked : stats := mkStats (Some 40) (Some 40) (Some 70) 2 4.

(** The frame of [band_interpolator]: 0.05 and 99.95 round to 0.1 and
    100.0. *)
Definition grid_bands : grid_list :=
  [[Some 0x1.999999999999ap-4; Some 50; Some 100];
   [Some 0x1.999999999999ap-4; Some 50; Some 100]].

Definition stats_bands : stats := mkStats (Some 50) (Some 50) (Some 50) 6 4.

End Demo.

(** ** Vocabulary of the statistics *)

(** The quotient [num / den] rounded to an integer, ties to even. *)
Definition round_half_even (num den : Z) : Z :=
  let q := (num / den)%Z in
  let r := (num mod den)%Z in
  match (2 * r ?= den)%Z with
  | Lt => q
  | Gt => (q + 1)%Z
  | Eq => if Z.even q then q else (q + 1)%Z
  end.

(** The check run on the tenths from 0.1 to 99.9: each lies between the two
    bounds of the inner cells, and below the next tenth. *)
Definition inner_tenth_ok (k : nat) : bool :=
  let v := nearest_tenth false (Z.of_nat k) in
  (f0_1 <=? v)%float && (v <=? f99_9)%float
  && (v <=? nearest_tenth false (Z.of_nat (S k)))%float.

(** The cells of a mask marked [True]. *)
Definition land_cells (m : mask) : nat :=
  List.length (filter (fun b : bool => b) (List.concat m)).

(** ** The scripts' runs *)

(** A computation of a script over its state [S]: it returns or raises, and
    leaves a state. *)
Definition State (S A : Type) : Type := S -> result A * S.

Definition done {S A : Type} (a : A) : State S A := fun s => (Ok a, s).

Definition and_then {S A B : Type} (m : State S A) (k : A -> State S B) : State S B :=
  fun s =>
    match m s with
    | (Ok a, s') => k a s'
    | (Raise e, s') => (Raise e, s')
    end.

Notation "x <~ m ;; k" := (and_then m (fun x => k))
  (at level 61, m at next level, right associativity).
Notation "m ~;; k" := (and_then m (fun _ => k))
  (at level 61, right associativity).

(** [l[start:]]: a negative [start] counts from the end, and both ends are
    clamped to the list. *)
Definition slice_from {A : Type} (start : Z) (l : list A) : list A :=
  let n := Z.of_nat (List.length l) in
  let s := if (start <? 0)%Z then Z.max 0 (start + n) else Z.min start n in
  skipn (Z.to_nat s) l.

(** [if date:] for an optional string: [None] and [''] are falsy. *)
Definition given (date : option string) : option string :=
  match date with
  | Some "" => None
  | _ => date
  end.

(** One entry of [list_files_by_date]: [{'key': ..., 'time': ..., 'size': ...}]. *)
Record file_info : Type := mkFileInfo {
  file_key : string;
  file_time : string;
  file_size : Z
}.

(** What [get_json] returns when it returns a document: a JSON object
    without the key ['data'] (the empty object, which is falsy, among them),
    or one whose ['data'] is a list of stations, each with a number or
    nothing in the three fields read.  Documents of another form (a ['data']
    that is no list of objects, a field that [float] refuses) and the
    exceptions that [get_json] does not catch are outside this type: the
    statements on the run over the weather files are about buckets without
    them. *)
Inductive weather_json : Type :=
| WithoutData
| WithData (stations : list station).

(** *** The run over the weather files

    The reader of the bucket, as the run sees it.  Each method answers with
    its value and with the error lines it printed: [list_dates] gives the
    sorted dates, [[]] after a [ClientError]; [list_files_by_date] the files
    of one date, sorted by time; [get_json] the document, [None] when the
    key is missing, the request fails or the body is not JSON. *)
Record S3WeatherReader : Type := mkReader {
  list_dates : list string * list string;
  list_files_by_date : string -> list file_info * list string;
  get_json : string -> option weather_json * list string
}.

(** One frame of the timelapse: [{'time': ..., 'stats': ..., 'data': ...}]. *)
Record frame : Type := mkFrame {
  frame_time : string;
  frame_info : info;
  frame_data : grid_list
}.

(** The lines of the console: the messages of the run, the error lines of
    the reader and the warnings of the land mask. *)
Inductive line : Type :=
| ListingDates
| NoWeatherData
| FoundDates (n : nat) (first last : string)
| NoDataInRange
| ProcessingDates (n : nat)
| TotalFiles (n : nat)
| Limiting (max_frames : Z)
| Downloading (total : nat)
| Progress (i total : nat)
| Processed (n : nat)
| S3Error (msg : string)
| Warning (o : output).

(** The process during a run: the reference file on disk, the global
    [LAND_MASK] and the console. *)
Record process : Type := mkProcess {
  reference_file : file_state;
  cached_mask : option mask;
  console : list line
}.

Definition say (l : line) : State process unit :=
  fun p => (Ok tt, mkProcess (reference_file p) (cached_mask p) (console p ++ [l])%list).

(** A method of the reader: its error lines go to the console. *)
Definition ask {A : Type} (answer : A * list string) : State process A :=
  fun p => (Ok (fst answer),
            mkProcess (reference_file p) (cached_mask p)
                      (console p ++ map S3Error (snd answer))%list).

(** A call into the interpolation core: it sees the file and the global, and
    what it prints goes to the console. *)
Definition call {A : Type} (m : M A) : State process A :=
  fun p =>
    let '(r, w) := m (mkWorld (reference_file p) (cached_mask p) []) in
    (r, mkProcess (TEMPERATURE_FILE w) (LAND_MASK w)
                  (console p ++ map Warning (stdout w))%list).

Section Run.

Variable scipy_interpolator :
  method -> list (float * float) -> list float -> result (float -> float -> float).
Variable np_mean : list float -> float.

(** The loop [for i, file_info in enumerate(all_files)], from index [i] on,
    with the frames collected so far. *)
Fixpoint process_files (reader : S3WeatherReader) (total : nat)
    (all_files : list file_info) (i : nat) (frames : list frame) : State process (list frame) :=
  match all_files with
  | [] => done frames
  | file :: rest =>
      (if ((i + 1) mod 10 =? 0)%nat || (i =? 0)%nat
       then say (Progress (i + 1) total) else done tt) ~;;
      data <~ ask (get_json reader (file_key file)) ;;
      frames <~
        match data with
        | Some (WithData stations) =>
            answer <~ call (interpolate_humidity scipy_interpolator np_mean
                              stations GEO_INFO) ;;
            let '(grid_data, stats) := answer in
            match grid_data with
            | Some (row :: rows) =>
                done (frames ++ [mkFrame (file_time file) stats (row :: rows)])%list
            | _ => done frames
            end
        | _ => done frames
        end ;;
      process_files reader total rest (S i) frames
  end.

(** [all_files.extend(reader.list_files_by_date(date))] for each date. *)
Fixpoint collect_files (reader : S3WeatherReader) (all_dates : list string)
    (all_files : list file_info) : State process (list file_info) :=
  match all_dates with
  | [] => done all_files
  | date :: rest =>
      files <~ ask (list_files_by_date reader date) ;;
      collect_files reader rest (all_files ++ files)%list
  end.

Definition download_and_interpolate_humidity (reader : S3WeatherReader)
    (start_date end_date : option string) (max_frames : Z) : State process (list frame) :=
  say ListingDates ~;;
  all_dates <~ ask (list_dates reader) ;;
  match all_dates with
  | [] => say NoWeatherData ~;; done []
  | first :: _ =>
      say (FoundDates (List.length all_dates) first (last all_dates first)) ~;;
      (* Filter date range *)
      let all_dates :=
        match given start_date with
        | Some start_date => filter (fun d => (start_date <=? d)%string) all_dates
        | None => all_dates
        end in
      let all_dates :=
        match given end_date with
        | Some end_date => filter (fun d => (d <=? end_date)%string) all_dates
        | None => all_dates
        end in
      match all_dates with
      | [] => say NoDataInRange ~;; done []
      | _ :: _ =>
          say (ProcessingDates (List.length all_dates)) ~;;
          (* Collect all files *)
          all_files <~ collect_files reader all_dates [] ;;
          say (TotalFiles (List.length all_files)) ~;;
          (* Limit frames *)
          all_files <~
            (if (max_frames <? Z.of_nat (List.length all_files))%Z
             then say (Limiting max_frames) ~;; done (slice_from (- max_frames) all_files)
             else done all_files) ;;
          (* Download and interpolate *)
          let total := List.length all_files in
          say (Downloading total) ~;;
          frames <~ process_files reader total all_files 0 [] ;;
          say (Processed (List.length frames)) ~;;
          done frames
      end
  end.

End Run.

(** *** Vocabulary of the run *)

(** The dates of the range: on or after [start_date], on or before
    [end_date], each bound only if given. *)
Definition in_range (start_date end_date : option string) (d : string) : bool :=
  match given start_date with Some s => (s <=? d)%string | None => true end
  && match given end_date with Some e => (d <=? e)%string | None => true end.

(** The files listed for the dates of the range, in the order of the dates. *)
Definition listed_files (reader : S3WeatherReader) (start_date end_date : option string)
    : list file_info :=
  flat_map (fun d => fst (list_files_by_date reader d))
           (filter (in_range start_date end_date) (fst (list_dates reader))).

(** The stations of a file, if its document has any. *)
Definition stations_of (reader : S3WeatherReader) (f : file_info) : option (list station) :=
  match fst (get_json reader (file_key f)) with
  | Some (WithData stations) => Some stations
  | _ => None
  end.

(** A file that can give a frame: its document lists 4 or more stations that
    pass the filter. *)
Definition usable (reader : S3WeatherReader) (f : file_info) : bool :=
  match stations_of reader f with
  | Some stations => (4 <=? List.length (filter is_valid_station stations))%nat
  | None => false
  end.

(** The mask that a call of [get_land_mask] obtains: the cached one, else
    what the reference file gives. *)
Definition mask_at (p : process) : option mask :=
  match cached_mask p with
  | Some m => Some m
  | None => fst (loaded_mask (reference_file p))
  end.

Definition is_warning (l : line) : bool :=
  match l with Warning _ => true | _ => false end.

(** A cell of a frame lies in the range of a percentage, or is [None]. *)
Definition percent_or_null (c : option float) : Prop :=
  match c with
  | Some v => in_0_100 v = true
  | None => True
  end.

(** What loading the reference file prints, when a call has to load it. *)
Definition warnings_at (p : process) : list output :=
  match cached_mask p with
  | Some _ => []
  | None => snd (loaded_mask (reference_file p))
  end.

(** The files that a run processes: the files listed for the range, cut to
    the limit as the code cuts them. *)
Definition selected_files (reader : S3WeatherReader) (start_date end_date : option string)
    (max_frames : Z) : list file_info :=
  let all_files := listed_files reader start_date end_date in
  if (max_frames <? Z.of_nat (List.length all_files))%Z
  then slice_from (- max_frames) all_files
  else all_files.

Section RunVocabulary.

Variable scipy_interpolator :
  method -> list (float * float) -> list float -> result (float -> float -> float).
Variable np_mean : list float -> float.

(** The frame of one file under the mask [land_mask]: none for a file that
    is not usable, an exception when no interpolant can be built or the mask
    does not fit the grid. *)
Definition frame_of_file (reader : S3WeatherReader) (land_mask : option mask)
    (f : file_info) : result (option frame) :=
  match stations_of reader f with
  | None => Ok None
  | Some stations =>
      if (List.length (filter is_valid_station stations) <? 4)%nat then Ok None
      else
        match interpolant scipy_interpolator (points_of stations) (values_of stations) with
        | Raise e => Raise e
        | Ok ip =>
            let g := frame_grid ip GEO_INFO land_mask in
            let fr := mkFrame (file_time f)
                        (Stats (frame_stats np_mean g
                                  (List.length (filter is_valid_station stations))))
                        (to_grid_list g) in
            match land_mask with
            | Some m =>
                if mask_fits m GEO_INFO then Ok (Some fr)
                else Raise (if mask_size0 m then TypeError else IndexError)
            | None => Ok (Some fr)
            end
        end
  end.

(** The frames of a list of files under one mask, up to the first
    exception. *)
Fixpoint frames_of (reader : S3WeatherReader) (land_mask : option mask)
    (files : list file_info) : result (list frame) :=
  match files with
  | [] => Ok []
  | f :: rest =>
      match frame_of_file reader land_mask f with
      | Raise e => Raise e
      | Ok o =>
          match frames_of reader land_mask rest with
          | Raise e => Raise e
          | Ok l => Ok (match o with Some fr => fr :: l | None => l end)
          end
      end
  end.

End RunVocabulary.

(** [frames] extended by the frames of a result. *)
Definition extend (frames : list frame) (r : result (list frame)) : result (list frame) :=
  match r with
  | Ok l => Ok (frames ++ l)%list
  | Raise e => Raise e
  end.

(** A step that leaves the file and the global alone and prints no
    warning. *)
Definition quiet (p p' : process) : Prop :=
  reference_file p' = reference_file p /\
  cached_mask p' = cached_mask p /\
  filter is_warning (console p') = filter is_warning (console p).

(** The process after a call that went through [get_land_mask]. *)
Definition after_mask (p : process) : process :=
  mkProcess (reference_file p) (mask_at p)
            (console p ++ map Warning (warnings_at p))%list.

(** ** Test data of the run *)

Module DemoRun.

Import Demo.

Definition key_of (date time : string) : string :=
  "weather/" ++ date ++ "/weather_" ++ time ++ ".json".

Definition file_at (date folder hour : string) : file_info :=
  mkFileInfo (key_of folder (hour ++ "00")) (date ++ "T" ++ hour ++ ":00:00+08:00") 2048.

(** Three days with two files each: of the six documents one has only three
    valid stations, one is missing from the bucket and one has no ['data']. *)
Definition documents : list (string * option weather_json) :=
  [ (key_of "2025/01/10" "0000", Some (WithData stations4));
    (key_of "2025/01/10" "0100", Some (WithData stations3));
    (key_of "2025/01/11" "0100", Some (WithData stations4));
    (key_of "2025/01/12" "0000", Some WithoutData);
    (key_of "2025/01/12" "0100", Some (WithData stations4)) ].

Fixpoint lookup (key : string) (docs : list (string * option weather_json))
    : option weather_json * list string :=
  match docs with
  | [] => (None, [])
  | (k, doc) :: rest => if (k =? key)%string then (doc, []) else lookup key rest
  end.

Definition bucket : S3WeatherReader :=
  mkReader
    (["2025-01-10"; "2025-01-11"; "2025-01-12"], [])
    (fun date =>
       if (date =? "2025-01-10")%string
       then ([file_at date "2025/01/10" "00"; file_at date "2025/01/10" "01"], [])
       else if (date =? "2025-01-11")%string
       then ([file_at date "2025/01/11" "00"; file_at date "2025/01/11" "01"], [])
       else if (date =? "2025-01-12")%string
       then ([file_at date "2025/01/12" "00"; file_at date "2025/01/12" "01"], [])
       else ([], []))
    (fun key => lookup key documents).

(** A bucket without any date. *)
Definition empty_bucket : S3WeatherReader :=
  mkReader ([], ["ClientError"]) (fun _ => ([], [])) (fun _ => (None, [])).

(** A process that starts without reference file. *)
Definition start : process := mkProcess FileMissing None [].


(** The run over the last two days, and the run limited to the two latest
    files. *)
Definition run_two_days : result (list frame) * process :=
  download_and_interpolate_humidity plane_interpolator mean bucket
    (Some "2025-01-11") None 720 start.

Definition run_limited : result (list frame) * process :=
  download_and_interpolate_humidity plane_interpolator mean bucket None (Some "") 2 start.

Definition run_unlimited : result (list frame) * process :=
  download_and_interpolate_humidity plane_interpolator mean bucket
    None (Some "2025-01-10") 0 start.

(** A reference dataset on the grid of the script, 120 rows of 67 cells: in
    every row the first cell is null, the second below the floor of -900 and
    the others hold 25.0.  Its mask, and a process that starts with this
    reference file. *)
Definition reference_coast : json :=
  JObj [("frames",
         JArr [JObj [("data",
                      JArr (repeat (JArr (JNull :: JFloat (-999) :: repeat (JFloat 25) 65))
                                   120))]])].

Definition coast : mask := repeat (false :: false :: repeat true 65) 120.

Definition start_coast : process := mkProcess (FilePresent (Ok reference_coast)) None [].

Definition run_coast : result (list frame) * process :=
  download_and_interpolate_humidity plane_interpolator mean bucket
    (Some "2025-01-11") None 720 start_coast.

Definition frames_by (run : result (list frame) * process) : list frame :=
  match fst run with
  | Ok frames => frames
  | Raise _ => []
  end.

Definition returned (run : result (list frame) * process) : bool :=
  match fst run with
  | Ok _ => true
  | Raise _ => false
  end.

End DemoRun.

(** *** The temperature script, which writes the reference file *)

(** [bool(v)] of a decoded JSON value. *)
Definition truthy (v : json) : bool :=
  match v with
  | JNull => false
  | JBool b => b
  | JInt z => negb (z =? 0)%Z
  | JFloat x => negb (x =? 0)%float
  | JStr s => negb (s =? "")%string
  | JArr l => match l with [] => false | _ => true end
  | JObj items => match items with [] => false | _ => true end
  end.

(** The rows of a grid of the reference dataset, as a land mask: the last
    steps of [load_land_mask]. *)
Definition grid_mask (first_frame : json) : result mask :=
  rows <-? py_iter first_frame ;;
  cells <-? rmap row_mask rows ;;
  np_array cells.

Module UpdateData.

(** A Python dict with string keys, in the order of insertion. *)
Definition dict : Type := list (string * json).

(** [d.get(k, default)] *)
Definition get (d : dict) (k : string) (default : json) : json :=
  match dict_get k d with
  | Some v => v
  | None => default
  end.

(** The reader of the temperature files.  Each method answers with its
    value, or with the exception that it lets through, and with the error
    lines it printed.  The methods catch [ClientError], and [get_json]
    [JSONDecodeError] as well; anything else that boto3 or the decoding of
    the body raises comes out of them.  [get_json] gives what [json.loads]
    made of the body, any JSON value, and [None] after one of the errors
    that it catches. *)
Record S3TemperatureReader : Type := mkReader {
  list_dates : result (list string) * list string;
  list_files_by_date : string -> result (list file_info) * list string;
  get_json : string -> result (option json) * list string
}.

Inductive line : Type :=
| ListingDates
| NoTemperatureData
| FoundDates (n : nat) (first last : string)
| NoDataInRange
| ProcessingDates (n : nat)
| TotalFiles (n : nat)
| Limiting (max_frames : Z)
| Downloading (total : nat)
| Progress (i total : nat)
| Downloaded (n : nat)
| SavingTimelapse
| Saved
| S3Error (msg : string).

(** The process of the temperature script: the file at [output_path],
    whether it can be written, and the console. *)
Record process : Type := mkProcess {
  output_file : file_state;
  writable : bool;
  console : list line
}.

Definition say (l : line) : State process unit :=
  fun p => (Ok tt, mkProcess (output_file p) (writable p) (console p ++ [l])%list).

Definition ask {A : Type} (answer : result A * list string) : State process A :=
  fun p => (fst answer,
            mkProcess (output_file p) (writable p)
                      (console p ++ map S3Error (snd answer))%list).

Definition raise_or {A : Type} (r : result A) : State process A := fun p => (r, p).

(** [with open(output_path, 'w') as f: json.dump(v, f)]: [OSError] where the
    file cannot be written; what is written is what [json.load] reads
    back. *)
Definition json_dump (v : json) : State process unit :=
  fun p =>
    if writable p then (Ok tt, mkProcess (FilePresent (Ok v)) true (console p))
    else (Raise OSError, p).

(** The receiver of [data.get(...)]: only a dict has the method, any other
    value raises [AttributeError]. *)
Definition as_dict (data : json) : result dict :=
  match data with
  | JObj items => Ok items
  | _ => Raise (OtherError "AttributeError")
  end.

(** The frame of one document. *)
Definition frame_of (file : file_info) (data : dict) : dict :=
  [("time", JStr (file_time file));
   ("stats", JObj [("min", get data "min_temp" JNull);
                   ("max", get data "max_temp" JNull);
                   ("avg", get data "avg_temp" JNull);
                   ("valid_points", get data "valid_points" (JInt 0))]);
   ("data", get data "data" (JArr []))].

(** The loop [for i, file_info in enumerate(all_files)], from index [i] on,
    with the frames collected so far. *)
Fixpoint download_files (reader : S3TemperatureReader) (total : nat)
    (all_files : list file_info) (i : nat) (frames : list dict)
    : State process (list dict) :=
  match all_files with
  | [] => done frames
  | file :: rest =>
      (if ((i + 1) mod 10 =? 0)%nat || (i =? 0)%nat
       then say (Progress (i + 1) total) else done tt) ~;;
      data <~ ask (get_json reader (file_key file)) ;;
      frames <~
        match data with
        | Some data =>
            if truthy data then
              data <~ raise_or (as_dict data) ;;
              let frame := frame_of file data in
              (* Save geo_info from first frame *)
              frame <~
                (if match frames with [] => true | _ => false end
                    && truthy (get data "geo_info" JNull)
                 then geo_info <~ raise_or (getitem_str (JObj data) "geo_info") ;;
                      done (frame ++ [("geo_info", geo_info)])%list
                 else done frame) ;;
              done (frames ++ [frame])%list
            else done frames
        | None => done frames
        end ;;
      download_files reader total rest (S i) frames
  end.

Fixpoint collect_files (reader : S3TemperatureReader) (all_dates : list string)
    (all_files : list file_info) : State process (list file_info) :=
  match all_dates with
  | [] => done all_files
  | date :: rest =>
      files <~ ask (list_files_by_date reader date) ;;
      collect_files reader rest (all_files ++ files)%list
  end.

Definition download_temperature_data (reader : S3TemperatureReader)
    (start_date end_date : option string) (max_frames : Z) : State process (list dict) :=
  say ListingDates ~;;
  all_dates <~ ask (list_dates reader) ;;
  match all_dates with
  | [] => say NoTemperatureData ~;; done []
  | first :: _ =>
      say (FoundDates (List.length all_dates) first (last all_dates first)) ~;;
      (* Filter date range *)
      let all_dates :=
        match given start_date with
        | Some start_date => filter (fun d => (start_date <=? d)%string) all_dates
        | None => all_dates
        end in
      let all_dates :=
        match given end_date with
        | Some end_date => filter (fun d => (d <=? end_date)%string) all_dates
        | None => all_dates
        end in
      match all_dates with
      | [] => say NoDataInRange ~;; done []
      | _ :: _ =>
          say (ProcessingDates (List.length all_dates)) ~;;
          (* Collect all files *)
          all_files <~ collect_files reader all_dates [] ;;
          say (TotalFiles (List.length all_files)) ~;;
          (* Limit frames *)
          all_files <~
            (if (max_frames <? Z.of_nat (List.length all_files))%Z
             then say (Limiting max_frames) ~;; done (slice_from (- max_frames) all_files)
             else done all_files) ;;
          (* Download data *)
          let total := List.length all_files in
          say (Downloading total) ~;;
          frames <~ download_files reader total all_files 0 [] ;;
          say (Downloaded (List.length frames)) ~;;
          done frames
      end
  end.

(** The bounding box used when no frame brings a [geo_info]. *)
Definition default_geo_info : json :=
  JObj [("bottom_left_lon", JFloat 118);
        ("bottom_left_lat", JFloat 21);
        ("top_right_lon", JFloat 123);
        ("top_right_lat", JFloat 26);
        ("resolution_deg", JFloat 0x1.eb851eb851eb8p-6);    (* 0.03 *)
        ("resolution_km", JFloat 0x1.a666666666666p+1)].    (* 3.3 *)

(** [geo_info] after the loop that stops at the first frame with the key
    ['geo_info']; [None] when no frame has it. *)
Fixpoint first_geo_info (frames : list dict) : json :=
  match frames with
  | [] => JNull
  | frame :: rest =>
      match dict_get "geo_info" frame with
      | Some geo_info => geo_info
      | None => first_geo_info rest
      end
  end.

(** [{'time': frame['time'], 'stats': frame['stats'], 'data': frame['data']}] *)
Definition frame_data (frame : dict) : result json :=
  time <-? getitem_str (JObj frame) "time" ;;
  stats <-? getitem_str (JObj frame) "stats" ;;
  data <-? getitem_str (JObj frame) "data" ;;
  Ok (JObj [("time", time); ("stats", stats); ("data", data)]).

(** [now] is what [datetime.now().isoformat()] gives. *)
Definition generate_timelapse_json (now : string) (frames : list dict)
    : State process dict :=
  match frames with
  | [] => done []
  | first :: _ =>
      (* Get geo_info from first frame with it *)
      let geo_info := first_geo_info frames in
      let geo_info := if truthy geo_info then geo_info else default_geo_info in
      start_time <~ raise_or (getitem_str (JObj first) "time") ;;
      end_time <~ raise_or (getitem_str (JObj (last frames first)) "time") ;;
      let metadata :=
        [("generated_at", JStr now);
         ("start_time", start_time);
         ("end_time", end_time);
         ("total_frames", JInt (Z.of_nat (List.length frames)));
         ("geo_info", geo_info);
         ("source", JStr "Central Weather Administration O-A0038-003");
         ("description", JStr "Taiwan Temperature Grid Timelapse")] in
      (* Process frames (remove geo_info from individual frames) *)
      out <~ raise_or (rmap frame_data frames) ;;
      let timelapse_data := [("metadata", JObj metadata); ("frames", JArr out)] in
      (* Save JSON *)
      say SavingTimelapse ~;;
      json_dump (JObj timelapse_data) ~;;
      say Saved ~;;
      done timelapse_data
  end.

(** **** Vocabulary *)

(** The files listed for the dates of the range, or the first exception
    that a listing raises. *)
Definition listed_files (reader : S3TemperatureReader) (start_date end_date : option string)
    : result (list file_info) :=
  all_dates <-? fst (list_dates reader) ;;
  files <-? rmap (fun d => fst (list_files_by_date reader d))
                 (filter (in_range start_date end_date) all_dates) ;;
  Ok (List.concat files).

Definition selected_files (reader : S3TemperatureReader)
    (start_date end_date : option string) (max_frames : Z) : result (list file_info) :=
  all_files <-? listed_files reader start_date end_date ;;
  Ok (if (max_frames <? Z.of_nat (List.length all_files))%Z
      then slice_from (- max_frames) all_files
      else all_files).

Definition is_object (v : json) : bool :=
  match v with
  | JObj _ => true
  | _ => false
  end.

(** The exception that ends the loop at a file, if any: what [get_json]
    raises, or [AttributeError] for a document that is truthy and not an
    object. *)
Definition failure (reader : S3TemperatureReader) (f : file_info) : option exn :=
  match fst (get_json reader (file_key f)) with
  | Ok (Some v) =>
      if truthy v && negb (is_object v) then Some (OtherError "AttributeError") else None
  | Ok None => None
  | Raise e => Some e
  end.

(** The first failure among the files, in their order. *)
Fixpoint first_failure (reader : S3TemperatureReader) (files : list file_info) : option exn :=
  match files with
  | [] => None
  | f :: rest =>
      match failure reader f with
      | Some e => Some e
      | None => first_failure reader rest
      end
  end.

(** The files that have a document that is an object and not empty, each
    with it. *)
Definition documents (reader : S3TemperatureReader) (files : list file_info)
    : list (file_info * dict) :=
  flat_map (fun f =>
              match fst (get_json reader (file_key f)) with
              | Ok (Some (JObj (entry :: entries))) => [(f, entry :: entries)]
              | _ => []
              end) files.

(** The frames of the documents: the first one takes the [geo_info] of its
    document when that is truthy, the later ones never do. *)
Definition frames_of_documents (docs : list (file_info * dict)) : list dict :=
  match docs with
  | [] => []
  | (f, d) :: rest =>
      (if truthy (get d "geo_info" JNull)
       then (frame_of f d ++ [("geo_info", get d "geo_info" JNull)])%list
       else frame_of f d)
      :: map (fun fd => frame_of (fst fd) (snd fd)) rest
  end.

(** A frame as [download_temperature_data] builds it has the three keys
    read by [generate_timelapse_json]. *)
Definition complete (frame : dict) : Prop :=
  exists time stats data,
    dict_get "time" frame = Some time /\
    dict_get "stats" frame = Some stats /\
    dict_get "data" frame = Some data.

End UpdateData.

(** The temperature process is left with its file. *)
Definition untouched (p p' : UpdateData.process) : Prop :=
  UpdateData.output_file p' = UpdateData.output_file p /\
  UpdateData.writable p' = UpdateData.writable p.

Module DemoTemperature.

Import UpdateData.

(** Two documents: the first has a grid of 2 by 2 cells and no [geo_info],
    the second brings a [geo_info] and no grid. *)
Definition document1 : dict :=
  [("min_temp", JFloat 25.5); ("max_temp", JInt 30); ("valid_points", JInt 2);
   ("data", JArr [JArr [JFloat 25.5; JNull]; JArr [JFloat (-999); JInt 30]])].

Definition document2 : dict :=
  [("geo_info", JObj [("bottom_left_lon", JFloat 120)]); ("avg_temp", JFloat 20)].

Definition file1 : file_info :=
  mkFileInfo "temperature/2025/01/10/temperature_0000.json" "2025-01-10T00:00:00+08:00" 1024.

Definition file2 : file_info :=
  mkFileInfo "temperature/2025/01/10/temperature_0100.json" "2025-01-10T01:00:00+08:00" 512.

Definition file3 : file_info :=
  mkFileInfo "temperature/2025/01/10/temperature_0200.json" "2025-01-10T02:00:00+08:00" 0.

(** The bucket holds the two documents; the third file has none. *)
Definition bucket : S3TemperatureReader :=
  mkReader
    (Ok ["2025-01-10"], [])
    (fun date => if (date =? "2025-01-10")%string then (Ok [file1; file2; file3], [])
                 else (Ok [], []))
    (fun key => if (key =? file_key file1)%string then (Ok (Some (JObj document1)), [])
                else if (key =? file_key file2)%string then (Ok (Some (JObj document2)), [])
                else (Ok None, [])).

(** The same bucket with the array [[1]] as its third document, and with a
    third document whose body is not UTF-8. *)
Definition bucket_with_array : S3TemperatureReader :=
  mkReader
    (list_dates bucket) (list_files_by_date bucket)
    (fun key => if (key =? file_key file3)%string then (Ok (Some (JArr [JInt 1])), [])
                else get_json bucket key).

Definition bucket_not_utf8 : S3TemperatureReader :=
  mkReader
    (list_dates bucket) (list_files_by_date bucket)
    (fun key => if (key =? file_key file3)%string then (Raise ValueError, [])
                else get_json bucket key).

Definition start : process := mkProcess FileMissing true [].

Definition frames : list dict := [frame_of file1 document1; frame_of file2 document2].

(** The frames of a bucket whose first document has no grid. *)
Definition frames_without_grid : list dict :=
  [frame_of file2 document2; frame_of file1 document1].

Definition timelapse_of (frames : list dict) : dict * process :=
  match generate_timelapse_json "2025-01-10T03:00:00" frames start with
  | (Ok timelapse, p) => (timelapse, p)
  | (Raise _, p) => ([], p)
  end.

End DemoTemperature.

(** ** The listings of the bucket *)

(** *** Python strings

    A string is taken as its code points, one character each (code points
    below 256); comparison is by code point. *)

(** [s.startswith(prefix)] *)
Definition startswith (s prefix : string) : bool := String.prefix prefix s.

(** [s[:n]] and [s[n:]] for [n >= 0] *)
Fixpoint take (n : nat) (s : string) : string :=
  match n, s with
  | S n', String c s' => String c (take n' s')
  | _, _ => EmptyString
  end.

Fixpoint drop (n : nat) (s : string) : string :=
  match n, s with
  | S n', String _ s' => drop n' s'
  | _, _ => s
  end.

(** [s.endswith(suffix)] *)
Definition endswith (s suffix : string) : bool :=
  (String.length suffix <=? String.length s)%nat
  && (drop (String.length s - String.length suffix) s =? suffix)%string.

(** [sub in s] *)
Fixpoint contains (sub s : string) : bool :=
  String.prefix sub s
  || match s with
     | EmptyString => false
     | String _ s' => contains sub s'
     end.

(** [s.replace(old, new)] for a non-empty [old]: the occurrences of [old]
    are replaced from left to right, without overlap; [skip] characters of
    an occurrence already replaced remain to be passed over. *)
Fixpoint replace_from (old new : string) (skip : nat) (s : string) : string :=
  match s with
  | EmptyString => EmptyString
  | String c s' =>
      match skip with
      | S k => replace_from old new k s'
      | O =>
          if String.prefix old s
          then new ++ replace_from old new (String.length old - 1) s'
          else String c (replace_from old new 0 s')
      end
  end.

Definition replace (old new s : string) : string := replace_from old new 0 s.

(** [s.split(sep)] for a separator of one character: never the empty
    list. *)
Fixpoint split (sep : ascii) (s : string) : list string :=
  match s with
  | EmptyString => [EmptyString]
  | String c s' =>
      if (c =? sep)%char then EmptyString :: split sep s'
      else match split sep s' with
           | part :: parts => String c part :: parts
           | [] => [String c EmptyString]
           end
  end.

(** [s.rstrip(c)] for one character [c] *)
Fixpoint rstrip (c : ascii) (s : string) : string :=
  match s with
  | EmptyString => EmptyString
  | String a s' =>
      match rstrip c s' with
      | EmptyString => if (a =? c)%char then EmptyString else String a EmptyString
      | r => String a r
      end
  end.

(** [sorted(l, key=key)] for string keys: the stable sort. *)
Fixpoint insert_by {A : Type} (key : A -> string) (x : A) (l : list A) : list A :=
  match l with
  | [] => [x]
  | y :: l' => if (key y <? key x)%string then y :: insert_by key x l' else x :: l
  end.

Definition sorted_by {A : Type} (key : A -> string) (l : list A) : list A :=
  fold_right (insert_by key) [] l.

(** [sorted(set(l))] for strings *)
Definition sorted_set (l : list string) : list string :=
  sorted_by (fun s => s) (nodup string_dec l).

(** *** The bucket *)

(** One entry of [Contents]. *)
Record s3_object : Type := mkObject {
  Key : string;
  Size : Z
}.

(** The bucket as the paginator shows it.  For a prefix, [common_prefixes]
    gives the [CommonPrefixes] of the pages of a listing with delimiter
    ['/'] and [contents] the [Contents] of the pages of a listing without
    delimiter, in the order of the pages, up to the [ClientError] that ends
    the listing if there is one, with its message.  [date_path] is
    [datetime.strptime(date, '%Y-%m-%d').strftime('%Y/%m/%d')], [None] when
    [strptime] raises [ValueError]. *)
Record s3_client : Type := mkClient {
  common_prefixes : string -> list string * option string;
  contents : string -> list s3_object * option string;
  date_path : string -> option string
}.

(** The body of the loop over [Contents]: the entry appended for one object,
    if any.  [stem] is ['weather_'] or ['temperature_']. *)
Definition entry_of (stem date : string) (obj : s3_object) : list file_info :=
  let key := Key obj in
  if endswith key ".json" && negb (contains "latest" key) then
    let filename := last (split "/" key) EmptyString in
    if startswith filename stem then
      let time_str := replace ".json" "" (replace stem "" filename) in
      if (String.length time_str =? 4)%nat then
        let hour := take 2 time_str in
        let minute := drop 2 time_str in
        [mkFileInfo key (date ++ "T" ++ hour ++ ":" ++ minute ++ ":00+08:00") (Size obj)]
      else []
    else []
  else [].

(** [list_files_by_date] of both readers: [folder] is ['weather/'] or
    ['temperature/'].  The files and the error line printed. *)
Definition list_files_by_date_in (folder stem : string) (client : s3_client)
    (date : string) : list file_info * list string :=
  match date_path client date with
  | None => ([], [])
  | Some path =>
      let prefix := folder ++ path ++ "/" in
      let '(objects, error) := contents client prefix in
      let files := flat_map (entry_of stem date) objects in
      (sorted_by file_time files,
       match error with
       | Some e => ["Error listing files for " ++ date ++ ": " ++ e]
       | None => []
       end)
  end.

(** The date of a day prefix: [parts[1]-parts[2]-parts[3]] when the prefix
    has 4 parts or more. *)
Definition date_of_prefix (prefix : string) : list string :=
  let parts := split "/" (rstrip "/" prefix) in
  if (4 <=? List.length parts)%nat
  then [nth 1 parts EmptyString ++ "-" ++ nth 2 parts EmptyString ++ "-"
        ++ nth 3 parts EmptyString]
  else [].

(** A loop over the pages of a listing: the body runs on every item that the
    pages bring, then the [ClientError] of the listing is raised, if any. *)
Fixpoint for_each {A : Type} (body : A -> result (list string)) (items : list A)
    : result (list string) :=
  match items with
  | [] => Ok []
  | a :: rest => found <-? body a ;; more <-? for_each body rest ;; Ok (found ++ more)%list
  end.

Definition paginate (listing : list string * option string)
    (body : string -> result (list string)) : result (list string) :=
  found <-? for_each body (fst listing) ;;
  match snd listing with
  | Some e => Raise (OtherError e)
  | None => Ok found
  end.

(** [list_dates] of both readers: the dates and the error line printed. *)
Definition list_dates_in (folder : string) (client : s3_client)
    : list string * list string :=
  let dates :=
    paginate (common_prefixes client folder) (fun year_prefix =>
      paginate (common_prefixes client year_prefix) (fun month_prefix =>
        paginate (common_prefixes client month_prefix) (fun day_prefix =>
          Ok (date_of_prefix day_prefix)))) in
  match dates with
  | Ok dates => (sorted_set dates, [])
  | Raise (OtherError e) => ([], ["Error listing S3 data: " ++ e])
  | Raise _ => ([], [])
  end.

(** The reader of the weather files over a bucket; [documents] is what
    [get_json] makes of each key. *)
Definition weather_reader (client : s3_client)
    (documents : string -> option weather_json * list string) : S3WeatherReader :=
  mkReader (list_dates_in "weather/" client)
           (list_files_by_date_in "weather/" "weather_" client)
           documents.

Definition temperature_reader (client : s3_client)
    (documents : string -> result (option json) * list string)
    : UpdateData.S3TemperatureReader :=
  UpdateData.mkReader
    (Ok (fst (list_dates_in "temperature/" client)),
     snd (list_dates_in "temperature/" client))
    (fun date =>
       (Ok (fst (list_files_by_date_in "temperature/" "temperature_" client date)),
        snd (list_files_by_date_in "temperature/" "temperature_" client date)))
    documents.

(** A string of decimal digits. *)
Definition is_digit (c : ascii) : bool :=
  (48 <=? nat_of_ascii c)%nat && (nat_of_ascii c <=? 57)%nat.

Fixpoint digits (s : string) : bool :=
  match s with
  | EmptyString => true
  | String c s' => is_digit c && digits s'
  end.

(** The character [c] occurs in [s]. *)
Fixpoint occurs (c : ascii) (s : string) : bool :=
  match s with
  | EmptyString => false
  | String a s' => (a =? c)%char || occurs c s'
  end.

(** The order of a list sorted by [key]. *)
Definition by_key {A : Type} (key : A -> string) (a b : A) : Prop :=
  (key a <=? key b)%string = true.

(** The prefixes that [list_dates] lists: the folder, the years under it and
    the months under the years; and the day prefixes found under the
    months. *)
Definition year_prefixes (folder : string) (client : s3_client) : list string :=
  fst (common_prefixes client folder).

Definition month_prefixes (folder : string) (client : s3_client) : list string :=
  flat_map (fun year => fst (common_prefixes client year)) (year_prefixes folder client).

Definition day_prefixes (folder : string) (client : s3_client) : list string :=
  flat_map (fun month => fst (common_prefixes client month)) (month_prefixes folder client).

Definition listed_prefixes (folder : string) (client : s3_client) : list string :=
  (folder :: year_prefixes folder client ++ month_prefixes folder client)%list.

(** The listing of [prefix] ends without [ClientError]. *)
Definition no_error (client : s3_client) (prefix : string) : bool :=
  match snd (common_prefixes client prefix) with
  | None => true
  | Some _ => false
  end.

(** No listing of [list_dates] ends in a [ClientError]. *)
Definition listing_succeeds (folder : string) (client : s3_client) : bool :=
  forallb (no_error client) (listed_prefixes folder client).

(** *** Test data of the listings *)

Module DemoBucket.

Definition day_objects : list s3_object :=
  [ mkObject "weather/2025/01/10/weather_0930.json" 2048;
    mkObject "weather/2025/01/10/latest.json" 2048;
    mkObject "weather/2025/01/10/weather_0000.json" 1024;
    mkObject "weather/2025/01/10/weather_0930.json.bak" 7;
    mkObject "weather/2025/01/10/weather_12345.json" 9 ].

(** A bucket with two days of January 2025; the listing of the second day
    fails after its first page. *)
Definition client : s3_client :=
  mkClient
    (fun prefix =>
       if (prefix =? "weather/")%string then (["weather/2025/"], None)
       else if (prefix =? "weather/2025/")%string then (["weather/2025/01/"], None)
       else if (prefix =? "weather/2025/01/")%string
       then (["weather/2025/01/11/"; "weather/2025/01/10/"; "weather/2025/01/10/"], None)
       else ([], None))
    (fun prefix =>
       if (prefix =? "weather/2025/01/10/")%string then (day_objects, None)
       else if (prefix =? "weather/2025/01/11/")%string
       then ([mkObject "weather/2025/01/11/weather_0100.json" 4096], Some "SlowDown")
       else ([], None))
    (fun date =>
       if (date =? "2025-01-10")%string then Some "2025/01/10"
       else if (date =? "2025-01-11")%string then Some "2025/01/11"
       else None).

(** The same bucket when the listing of the month fails. *)
Definition failing_client : s3_client :=
  mkClient
    (fun prefix =>
       if (prefix =? "weather/2025/01/")%string
       then (["weather/2025/01/10/"], Some "AccessDenied")
       else common_prefixes client prefix)
    (contents client) (date_path client).

Definition documents (key : string) : option weather_json * list string :=
  if (key =? "weather/2025/01/10/weather_0930.json")%string
  then (Some (WithData Demo.stations4), [])
  else if (key =? "weather/2025/01/10/weather_0000.json")%string
  then (Some (WithData Demo.stations3), [])
  else (None, []).

Definition run : result (list frame) * process :=
  download_and_interpolate_humidity Demo.plane_interpolator Demo.mean
    (weather_reader client documents) None None 720 DemoRun.start.

End DemoBucket.

(** ** The environment file *)

(** [c.isspace()] for a code point below 256. *)
Definition isspace (c : ascii) : bool :=
  let n := nat_of_ascii c in
  ((9 <=? n) && (n <=? 13) || (28 <=? n) && (n <=? 32) || (n =? 133) || (n =? 160))%nat.

(** A quote character, double or single: the characters that
    [strip] is given after the whitespace is gone. *)
Definition isquote (c : ascii) : bool :=
  (c =? "034")%char || (c =? "039")%char.

(** [s.lstrip(chars)], [s.rstrip(chars)] and [s.strip(chars)], the characters
    stripped being those that satisfy [p]. *)
Fixpoint lstrip_if (p : ascii -> bool) (s : string) : string :=
  match s with
  | EmptyString => EmptyString
  | String c s' => if p c then lstrip_if p s' else s
  end.

Fixpoint rstrip_if (p : ascii -> bool) (s : string) : string :=
  match s with
  | EmptyString => EmptyString
  | String a s' =>
      match rstrip_if p s' with
      | EmptyString => if p a then EmptyString else String a EmptyString
      | r => String a r
      end
  end.

Definition strip_if (p : ascii -> bool) (s : string) : string :=
  rstrip_if p (lstrip_if p s).

(** [s.split(sep, 1)] for a separator of one character that occurs in [s]:
    the part before its first occurrence and the part after. *)
Fixpoint split1 (sep : ascii) (s : string) : string * string :=
  match s with
  | EmptyString => (EmptyString, EmptyString)
  | String c s' =>
      if (c =? sep)%char then (EmptyString, s')
      else let '(key, value) := split1 sep s' in (String c key, value)
  end.

(** [os.environ], the latest assignment of a name first. *)
Definition environ : Type := list (string * string).

(** [os.getenv(name)] *)
Fixpoint getenv (name : string) (env : environ) : option string :=
  match env with
  | [] => None
  | (k, v) :: rest => if (k =? name)%string then Some v else getenv name rest
  end.

(** [os.environ[name] = value] (CPython on Linux): a NUL character in the
    name or in the value is refused with [ValueError], an empty name with
    [OSError] by [setenv]; the name holds no ['='] here. *)
Definition setenv (name value : string) : State environ unit :=
  fun env =>
    if occurs Ascii.zero name || occurs Ascii.zero value then (Raise ValueError, env)
    else if (name =? "")%string then (Raise OSError, env)
    else (Ok tt, (name, value) :: env).

(** What one line of the file assigns, if anything. *)
Definition parse_line (line : string) : option (string * string) :=
  let line := strip_if isspace line in
  if negb (line =? "")%string && negb (startswith line "#") && occurs "=" line then
    let '(key, value) := split1 "=" line in
    Some (strip_if isspace key, strip_if isquote (strip_if isspace value))
  else None.

(** The loop over the lines of the file. *)
Fixpoint load_lines (lines : list string) : State environ unit :=
  match lines with
  | [] => done tt
  | line :: rest =>
      match parse_line line with
      | Some (key, value) => setenv key value
      | None => done tt
      end ~;;
      load_lines rest
  end.

(** The configuration returned. *)
Record s3_config : Type := mkConfig {
  S3_BUCKET : option string;
  S3_ACCESS_KEY : option string;
  S3_SECRET_KEY : option string;
  S3_REGION : option string;
  S3_ENDPOINT : option string
}.

Section LoadEnv.

(** Whether [python-dotenv] is installed, and what its [load_dotenv] makes of
    the environment. *)
Variable HAS_DOTENV : bool.
Variable load_dotenv : option (list string) -> environ -> environ.

(** [env_file] is the file at [env_path]: [None] when it does not exist, else
    the lines that iterating over it yields. *)
Definition load_env_file (env_file : option (list string)) : State environ s3_config :=
  (if HAS_DOTENV then fun env => (Ok tt, load_dotenv env_file env)
   else match env_file with
        | Some lines => load_lines lines
        | None => done tt
        end) ~;;
  fun env =>
    (Ok (mkConfig (getenv "S3_BUCKET" env)
                  (getenv "S3_ACCESS_KEY" env)
                  (getenv "S3_SECRET_KEY" env)
                  (match getenv "S3_REGION" env with
                   | Some region => Some region
                   | None => Some "ap-northeast-1"
                   end)
                  (getenv "S3_ENDPOINT" env)), env).

End LoadEnv.

(** A name or value written without any character that the parser treats
    specially: no whitespace, quote, ['='], ['#'] or NUL. *)
Definition plain_char (c : ascii) : bool :=
  negb (isspace c || isquote c || (c =? "=")%char || (c =? "#")%char || (c =? Ascii.zero)%char).

Fixpoint plain (s : string) : bool :=
  match s with
  | EmptyString => true
  | String c s' => plain_char c && plain s'
  end.

(** The names assigned by the lines of a file. *)
Definition assigned (lines : list string) : list string :=
  flat_map (fun line => match parse_line line with
                        | Some (key, _) => [key]
                        | None => []
                        end) lines.

Module DemoEnv.

Definition newline : string := String (ascii_of_nat 10) EmptyString.

Definition lines : list string :=
  [ "# S3 credentials" ++ newline;
    newline;
    "S3_BUCKET=old-bucket" ++ newline;
    "  S3_REGION = 'ap-east-1'  " ++ newline;
    "export" ++ newline;
    "S3_BUCKET=weather-data" ++ newline ].

Definition broken_lines : list string :=
  [ "S3_BUCKET=weather-data" ++ newline; "=oops" ++ newline; "S3_REGION=eu" ++ newline ].

Definition environment : environ := [("S3_BUCKET", "from-ci"); ("HOME", "/root")].

Definition no_dotenv (file : option (list string)) (env : environ) : environ := env.

End DemoEnv.

(** No character of [s] satisfies [p]. *)
Fixpoint free_of (p : ascii -> bool) (s : string) : bool :=
  match s with
  | EmptyString => true
  | String c s' => negb (p c) && free_of p s'
  end.

(** Every character of [s] satisfies [p]. *)
Fixpoint all_of (p : ascii -> bool) (s : string) : bool :=
  match s with
  | EmptyString => true
  | String c s' => p c && all_of p s'
  end.

(** * Proofs *)

(** ** Binary64 order, through its specification *)

Ltac cmp_cases :=
  repeat match goal with
         | |- context [Z.compare ?a ?b] => destruct (Z.compare_spec a b)
         | |- context [Pos.compare_cont Eq ?a ?b] =>
             change (Pos.compare_cont Eq a b) with (Pos.compare a b);
             destruct (Pos.compare_spec a b)
         end;
  cbn; try reflexivity; try lia.

Lemma spec_float_eq_nan (x : spec_float) : x = S754_nan \/ not_nan x.
Proof. unfold not_nan. destruct x; (now left) || (right; discriminate). Qed.

Lemma SFcompare_key (x y : spec_float) :
  not_nan x -> not_nan y -> SFcompare x y = Some (lex_compare (key x) (key y)).
Proof.
  unfold not_nan.
  destruct x as [sx | sx | | sx mx ex], y as [sy | sy | | sy my ey];
    intros Hx Hy; try congruence;
    try (destruct sx); try (destruct sy); try reflexivity;
    cbn -[Z.compare Pos.compare_cont Z.opp]; f_equal; cmp_cases.
Qed.

Lemma lex_compare_le a b :
  match lex_compare a b with Lt | Eq => lex_le a b | Gt => lex_lt b a end.
Proof.
  destruct a as [[a1 a2] a3], b as [[b1 b2] b3]; unfold lex_compare; cmp_cases.
Qed.

Lemma lex_compare_lt a b :
  match lex_compare a b with Lt => lex_lt a b | _ => lex_le b a end.
Proof.
  destruct a as [[a1 a2] a3], b as [[b1 b2] b3]; unfold lex_compare; cmp_cases.
Qed.

Lemma is_nan_spec (x : float) : is_nan x = true <-> Prim2SF x = S754_nan.
Proof.
  unfold is_nan. rewrite FloatAxioms.eqb_spec. 
  destruct (Prim2SF x) as [s | s | | s m e] eqn:E; unfold SFeqb.
  - cbn. split; discriminate.
  - destruct s; cbn; split; discriminate.
  - cbn. split; reflexivity.
  - rewrite SFcompare_key by (unfold not_nan; discriminate).
    pose proof (lex_compare_lt (key (S754_finite s m e)) (key (S754_finite s m e))) as H.
    pose proof (lex_compare_le (key (S754_finite s m e)) (key (S754_finite s m e))) as H'.
    destruct (lex_compare _ _); cbn; split; try discriminate;
      destruct s; cbn in *; lia.
Qed.

Lemma not_nan_spec (x : float) : is_nan x = false <-> not_nan (Prim2SF x).
Proof.
  unfold not_nan. rewrite <- is_nan_spec. destruct (is_nan x); split; congruence.
Qed.


Lemma SFleb_key (x y : spec_float) :
  SFleb x y = true <-> not_nan x /\ not_nan y /\ lex_le (key x) (key y).
Proof.
  unfold SFleb.
  destruct (spec_float_eq_nan x) as [-> | Hx].
  { cbn. unfold not_nan. split; [discriminate | tauto]. }
  destruct (spec_float_eq_nan y) as [-> | Hy].
  { unfold not_nan. destruct x; cbn; split; try discriminate; tauto. }
  rewrite SFcompare_key by assumption.
  pose proof (lex_compare_le (key x) (key y)) as H.
  destruct (lex_compare (key x) (key y)); split; try tauto; try discriminate.
  intros (_ & _ & L). exfalso.
  destruct (key x) as [[a1 a2] a3], (key y) as [[b1 b2] b3]; cbn in *; lia.
Qed.

Lemma SFltb_key (x y : spec_float) :
  SFltb x y = true <-> not_nan x /\ not_nan y /\ lex_lt (key x) (key y).
Proof.
  unfold SFltb.
  destruct (spec_float_eq_nan x) as [-> | Hx].
  { cbn. unfold not_nan. split; [discriminate | tauto]. }
  destruct (spec_float_eq_nan y) as [-> | Hy].
  { unfold not_nan. destruct x; cbn; split; try discriminate; tauto. }
  rewrite SFcompare_key by assumption.
  pose proof (lex_compare_lt (key x) (key y)) as H.
  destruct (lex_compare (key x) (key y)); split; try tauto; try discriminate;
    intros (_ & _ & L); exfalso;
    destruct (key x) as [[a1 a2] a3], (key y) as [[b1 b2] b3]; cbn in *; lia.
Qed.

Lemma leb_key (x y : float) :
  (x <=? y)%float = true <->
  is_nan x = false /\ is_nan y = false /\ lex_le (key (Prim2SF x)) (key (Prim2SF y)).
Proof. rewrite FloatAxioms.leb_spec, !not_nan_spec. apply SFleb_key. Qed.

Lemma ltb_key (x y : float) :
  (x <? y)%float = true <->
  is_nan x = false /\ is_nan y = false /\ lex_lt (key (Prim2SF x)) (key (Prim2SF y)).
Proof. rewrite FloatAxioms.ltb_spec, !not_nan_spec. apply SFltb_key. Qed.

Ltac lex_solve :=
  repeat match goal with
         | |- context [key ?x] => destruct (key x) as [[? ?] ?]
         | H : context [key ?x] |- _ => destruct (key x) as [[? ?] ?]
         end;
  cbn in *; lia.

Lemma ltb_leb (x y : float) : (x <? y)%float = true -> (x <=? y)%float = true.
Proof. rewrite ltb_key, leb_key. intros (? & ? & ?). repeat split; trivial. lex_solve. Qed.

Lemma ltb_false_leb (x y : float) :
  is_nan x = false -> is_nan y = false -> (x <? y)%float = false -> (y <=? x)%float = true.
Proof.
  intros Hx Hy H. apply leb_key. repeat split; trivial.
  destruct (lex_compare (key (Prim2SF y)) (key (Prim2SF x))) eqn:E;
    pose proof (lex_compare_le (key (Prim2SF y)) (key (Prim2SF x))) as L;
    rewrite E in L; trivial.
  exfalso. assert ((x <? y)%float = true); [|congruence].
  apply ltb_key. repeat split; trivial.
Qed.

Lemma ltb_leb_trans (x y z : float) :
  (x <? y)%float = true -> (y <=? z)%float = true -> (x <=? z)%float = true.
Proof.
  rewrite ltb_key, !leb_key. intros (? & ? & ?) (? & ? & ?). repeat split; trivial. lex_solve.
Qed.

Lemma leb_trans (x y z : float) :
  (x <=? y)%float = true -> (y <=? z)%float = true -> (x <=? z)%float = true.
Proof.
  rewrite !leb_key. intros (? & ? & ?) (? & ? & ?). repeat split; trivial. lex_solve.
Qed.

Lemma leb_refl (x : float) : is_nan x = false -> (x <=? x)%float = true.
Proof. intros H. apply leb_key. repeat split; trivial. lex_solve. Qed.

Lemma leb_not_nan (x y : float) :
  (x <=? y)%float = true -> is_nan x = false /\ is_nan y = false.
Proof. rewrite leb_key. tauto. Qed.

(** ** Clipping *)

Lemma ltb_not_nan (x y : float) :
  (x <? y)%float = true -> is_nan x = false /\ is_nan y = false.
Proof. rewrite ltb_key. tauto. Qed.

Lemma np_clip_nan (x : float) : is_nan (np_clip x 0 f100) = is_nan x.
Proof.
  unfold np_clip.
  destruct (x <? 0)%float eqn:H0.
  - apply ltb_not_nan in H0 as [-> _]. reflexivity.
  - destruct (f100 <? x)%float eqn:H1; trivial.
    apply ltb_not_nan in H1 as [_ ->]. reflexivity.
Qed.

Lemma np_clip_range (x : float) :
  is_nan x = false -> in_0_100 (np_clip x 0 f100) = true.
Proof.
  intros Hx. unfold np_clip.
  destruct (x <? 0)%float eqn:H0; [reflexivity|].
  destruct (f100 <? x)%float eqn:H1; [reflexivity|].
  unfold in_0_100.
  rewrite (@ltb_false_leb x 0), (@ltb_false_leb f100 x); trivial.
Qed.

(** ** Rounding to one decimal *)

(** What CPython answers: [round(0.25, 1) = 0.2] and [round(0.75, 1) = 0.8]
    (ties to even), [round(0.35, 1) = 0.3] (the double sits below 0.35),
    [round(99.95, 1) = 100.0], [round(0.05, 1) = 0.1], [round(-0.04, 1) =
    -0.0]. *)
Example round1_as_cpython :
  map round1 [0x1p-2; 0x1.8p-1; 0x1.6666666666666p-2; 0x1.8fccccccccccdp+6;
              0x1.999999999999ap-5; (-0x1.47ae147ae147bp-5)]%float
  = [0x1.999999999999ap-3; 0x1.999999999999ap-1; 0x1.3333333333333p-2; 100;
     0x1.999999999999ap-4; neg_zero]%float.
Proof. reflexivity. Qed.

Lemma digits2_pos_bound (m : positive) : (Z.pos m < 2 ^ Z.pos (digits2_pos m))%Z.
Proof.
  induction m as [m IH | m IH | ]; cbn [digits2_pos];
    rewrite ?Pos2Z.inj_succ, ?Z.pow_succ_r by lia; lia.
Qed.

Lemma valid_mantissa_bound (s : bool) (m : positive) (e : Z) :
  valid_binary (S754_finite s m e) = true -> (Z.pos m < 2 ^ 53)%Z.
Proof.
  cbn [valid_binary]. unfold bounded, canonical_mantissa, fexp.
  intros H. apply andb_prop in H as [H _]. apply Z.eqb_eq in H.
  pose proof (digits2_pos_bound m) as B.
  assert (Z.pos (digits2_pos m) <= 53)%Z as D by (unfold prec in H; lia).
  eapply Z.lt_le_trans; [exact B|]. apply Z.pow_le_mono_r; lia.
Qed.

Lemma tenths_nonneg (m : positive) (e : Z) : (0 <= tenths m e)%Z.
Proof.
  unfold tenths. destruct (0 <=? e)%Z eqn:He.
  - apply Z.leb_le in He. apply Z.mul_nonneg_nonneg; [lia|]. apply Z.pow_nonneg; lia.
  - apply Z.leb_gt in He.
    assert (0 < 2 ^ (- e))%Z as Hd by (apply Z.pow_pos_nonneg; lia).
    pose proof (Z.div_pos (Z.pos m * 10) (2 ^ (- e)) ltac:(lia) Hd).
    destruct (_ ?= _)%Z; [destruct (Z.even _)|..]; lia.
Qed.

Lemma tenths_le_1000 (m : positive) (e : Z) :
  (Z.pos m < 2 ^ 53)%Z ->
  (e < -46 \/ (e = -46 /\ Z.pos m <= 7036874417766400))%Z ->
  (tenths m e <= 1000)%Z.
Proof.
  intros Hm He. unfold tenths.
  assert ((0 <=? e)%Z = false) as -> by (apply Z.leb_gt; lia).
  set (den := (2 ^ (- e))%Z). set (num := (Z.pos m * 10)%Z).
  assert (0 < den)%Z as Hd by (apply Z.pow_pos_nonneg; lia).
  assert (num <= 1000 * den)%Z as Hn.
  { subst num den. destruct He as [He | [-> Hm']].
    - assert (2 ^ 47 <= 2 ^ (- e))%Z by (apply Z.pow_le_mono_r; lia).
      change (2 ^ 47)%Z with 140737488355328%Z in *. change (2 ^ 53)%Z with 9007199254740992%Z in *. lia.
    - change (2 ^ (- -46))%Z with 70368744177664%Z. lia. }
  pose proof (Z.div_mod num den ltac:(lia)) as Hdm.
  pose proof (Z.mod_pos_bound num den Hd) as Hr.
  set (q := (num / den)%Z) in *. set (r := (num mod den)%Z) in *.
  assert (q <= 1000)%Z as Hq by nia.
  destruct (Z.compare_spec (2 * r) den) as [C | C | C].
  - assert (q < 1000)%Z by nia. destruct (Z.even q); lia.
  - lia.
  - assert (q < 1000)%Z by nia. lia.
Qed.

Lemma tenth_table_checked : forallb tenth_ok (seq 0 1001) = true.
Proof. vm_compute. reflexivity. Qed.

Lemma nearest_tenth_table (k : Z) :
  (0 <= k <= 1000)%Z ->
  in_0_100 (nearest_tenth false k) = true /\
  round1 (nearest_tenth false k) = nearest_tenth false k.
Proof.
  intros Hk. pose proof tenth_table_checked as T.
  rewrite forallb_forall in T. specialize (T (Z.to_nat k)).
  unfold tenth_ok in T. rewrite Z2Nat.id in T by lia.
  apply andb_prop in T as [T1 T2].
  - split; [exact T1 | now apply FloatAxioms.Leibniz.eqb_spec].
  - apply in_seq. lia.
Qed.

Lemma SF100 : Prim2SF f100 = S754_finite false 7036874417766400 (-46).
Proof. reflexivity. Qed.

Lemma SF0 : Prim2SF 0 = S754_zero false.
Proof. reflexivity. Qed.

Lemma round1_percent (x : float) :
  in_0_100 x = true ->
  in_0_100 (round1 x) = true /\ one_decimal (round1 x) /\ round1 (round1 x) = round1 x.
Proof.
  intros H. pose proof H as H'. unfold in_0_100 in H. apply andb_prop in H as [H0 H1].
  pose proof H0 as K0. pose proof H1 as K1.
  rewrite leb_key in K0, K1. destruct K0 as (_ & N & K0), K1 as (_ & _ & K1).
  rewrite SF0 in K0. rewrite SF100 in K1.
  pose proof (Prim2SF_valid x) as V. pose proof (SF2Prim_Prim2SF x) as R.
  assert (forall y, round1 x = y -> round1 y = y ->
                    in_0_100 y = true -> one_decimal y ->
                    in_0_100 (round1 x) = true /\ one_decimal (round1 x) /\
                    round1 (round1 x) = round1 x) as Close.
  { intros y -> ? ? ?. auto. }
  destruct (Prim2SF x) as [s | s | | s m e] eqn:E.
  - apply (Close x); trivial; try (unfold round1; now rewrite E).
    exists 0%Z. split; [lia|]. rewrite <- R. destruct s; [right | left]; reflexivity.
  - destruct s; cbn in K0, K1; lia.
  - apply not_nan_spec in N. now elim N.
  - destruct s; [cbn in K0; lia|].
    assert (0 <= tenths m e <= 1000)%Z as B.
    { split; [apply tenths_nonneg|]. apply tenths_le_1000.
      - eapply valid_mantissa_bound; eauto.
      - cbn in K1. lia. }
    destruct (nearest_tenth_table B) as [T1 T2].
    apply (Close (nearest_tenth false (tenths m e))); trivial.
    + unfold round1. now rewrite E.
    + exists (tenths m e). auto.
Qed.

(** ** Minimum and maximum of an array without NaN *)

Lemma fold_min_spec (l : list float) : forall acc : float,
  is_nan acc = false -> no_nan l ->
  let r := fold_left (fun a v => if (v <? a)%float then v else a) l acc in
  (r = acc \/ In r l) /\ (r <=? acc)%float = true /\
  Forall (fun u => (r <=? u)%float = true) l.
Proof.
  induction l as [| v l IH]; intros acc Ha Hl; cbn.
  - repeat split; auto using leb_refl.
  - inversion Hl as [| ? ? Hv Hl']; subst.
    set (acc' := if (v <? acc)%float then v else acc).
    assert (is_nan acc' = false) as Ha' by (subst acc'; now destruct (v <? acc)%float).
    destruct (IH acc' Ha' Hl') as (Hin & Hle & Hall).
    assert ((acc' <=? acc)%float = true /\ (acc' <=? v)%float = true) as [L1 L2].
    { subst acc'. destruct (v <? acc)%float eqn:C.
      - split; [now apply ltb_leb | now apply leb_refl].
      - split; [now apply leb_refl | now apply ltb_false_leb]. }
    repeat split.
    + destruct Hin as [-> | Hin]; [|auto].
      subst acc'. destruct (v <? acc)%float; auto.
    + eapply leb_trans; eauto.
    + constructor; [eapply leb_trans; eauto | exact Hall].
Qed.

Lemma fold_max_spec (l : list float) : forall acc : float,
  is_nan acc = false -> no_nan l ->
  let r := fold_left (fun a v => if (a <? v)%float then v else a) l acc in
  (r = acc \/ In r l) /\ (acc <=? r)%float = true /\
  Forall (fun u => (u <=? r)%float = true) l.
Proof.
  induction l as [| v l IH]; intros acc Ha Hl; cbn.
  - repeat split; auto using leb_refl.
  - inversion Hl as [| ? ? Hv Hl']; subst.
    set (acc' := if (acc <? v)%float then v else acc).
    assert (is_nan acc' = false) as Ha' by (subst acc'; now destruct (acc <? v)%float).
    destruct (IH acc' Ha' Hl') as (Hin & Hle & Hall).
    assert ((acc <=? acc')%float = true /\ (v <=? acc')%float = true) as [L1 L2].
    { subst acc'. destruct (acc <? v)%float eqn:C.
      - split; [now apply ltb_leb | now apply leb_refl].
      - split; [now apply leb_refl | now apply ltb_false_leb]. }
    repeat split.
    + destruct Hin as [-> | Hin]; [|auto].
      subst acc'. destruct (acc <? v)%float; auto.
    + eapply leb_trans; eauto.
    + constructor; [eapply leb_trans; eauto | exact Hall].
Qed.

Lemma np_min_spec (l : list float) :
  l <> [] -> no_nan l ->
  In (np_min l) l /\ forall u, In u l -> (np_min l <=? u)%float = true.
Proof.
  destruct l as [| x r]; [congruence|]. intros _ Hl.
  inversion Hl as [| ? ? Hx Hr]; subst.
  destruct (@fold_min_spec r x Hx Hr) as (Hin & Hle & Hall). cbn [np_min].
  split.
  - destruct Hin as [-> | Hin]; [now left | now right].
  - intros u [<- | Hu]; [exact Hle|]. rewrite Forall_forall in Hall. auto.
Qed.

Lemma np_max_spec (l : list float) :
  l <> [] -> no_nan l ->
  In (np_max l) l /\ forall u, In u l -> (u <=? np_max l)%float = true.
Proof.
  destruct l as [| x r]; [congruence|]. intros _ Hl.
  inversion Hl as [| ? ? Hx Hr]; subst.
  destruct (@fold_max_spec r x Hx Hr) as (Hin & Hle & Hall). cbn [np_max].
  split.
  - destruct Hin as [-> | Hin]; [now left | now right].
  - intros u [<- | Hu]; [exact Hle|]. rewrite Forall_forall in Hall. auto.
Qed.

Lemma valid_cells_no_nan (g : grid) : no_nan (valid_cells g).
Proof.
  unfold no_nan, valid_cells. apply Forall_forall. intros v Hv.
  apply filter_In in Hv as [_ Hv]. now destruct (is_nan v).
Qed.

Lemma inner_cells_spec (l : list float) (v : float) :
  In v (inner_cells l) <-> In v l /\ (f0_1 <? v)%float = true /\ (v <? f99_9)%float = true.
Proof.
  unfold inner_cells. rewrite filter_In, andb_true_iff. tauto.
Qed.

Lemma inner_cells_no_nan (l : list float) : no_nan l -> no_nan (inner_cells l).
Proof.
  unfold no_nan. rewrite !Forall_forall. intros H v Hv.
  apply inner_cells_spec in Hv. apply H. tauto.
Qed.

Lemma length_pos_iff {A : Type} (l : list A) : (0 <? List.length l)%nat = true <-> l <> [].
Proof. destruct l; cbn; split; congruence. Qed.

(** ** Lists and arrays *)

Lemma nth_error_zip_with {A B C : Type} (f : A -> B -> C) (l : list A) (l' : list B) (i : nat) :
  nth_error (zip_with f l l') i =
  match nth_error l i, nth_error l' i with
  | Some a, Some b => Some (f a b)
  | _, _ => None
  end.
Proof.
  revert l' i. induction l as [| a l IH]; intros [| b l'] [| i]; cbn; trivial;
    match goal with |- context [nth_error ?x ?j] => now destruct (nth_error x j) end.
Qed.

Lemma cell_zip_with {A B C : Type} (f : A -> B -> C)
    (m : list (list A)) (g : list (list B)) (r c : nat) :
  cell (zip_with (zip_with f) m g) r c =
  match cell m r c, cell g r c with
  | Some a, Some b => Some (f a b)
  | _, _ => None
  end.
Proof.
  unfold cell. rewrite nth_error_zip_with.
  destruct (nth_error m r) as [rm |], (nth_error g r) as [rg |]; trivial.
  - apply nth_error_zip_with.
  - now destruct (nth_error rm c).
Qed.

Lemma cell_map {A B : Type} (f : A -> B) (g : list (list A)) (r c : nat) :
  cell (map (map f) g) r c = option_map f (cell g r c).
Proof.
  unfold cell. rewrite nth_error_map.
  destruct (nth_error g r) as [row |]; cbn; trivial. apply nth_error_map.
Qed.

Lemma zip_with_length {A B C : Type} (f : A -> B -> C) (l : list A) (l' : list B) :
  List.length l = List.length l' -> List.length (zip_with f l l') = List.length l'.
Proof.
  revert l'. induction l as [| a l IH]; intros [| b l']; cbn; try congruence.
  intros H. f_equal. apply IH. congruence.
Qed.

Lemma has_shape_map {A B : Type} (f : A -> B) (g : list (list A)) (rows cols : nat) :
  has_shape g rows cols -> has_shape (map (map f) g) rows cols.
Proof.
  intros [L F]. split; [now rewrite length_map|].
  apply Forall_map. eapply Forall_impl; [|exact F]. intros row. cbn. now rewrite length_map.
Qed.

Lemma same_shape_spec {A B : Type} (m : list (list A)) (g : list (list B)) (rows cols : nat) :
  has_shape g rows cols ->
  same_shape m g =
  (List.length m =? rows)%nat && forallb (fun row => (List.length row =? cols)%nat) m.
Proof.
  revert g rows. induction m as [| rm m IH]; intros [| rg g] rows [L F]; cbn in *; subst rows; trivial.
  inversion F as [| ? ? Hrg F']; subst. rewrite (IH g (List.length g)) by (split; trivial).
    cbn. destruct (List.length rm =? List.length rg)%nat; cbn; trivial. now rewrite andb_false_r.
Qed.

Lemma has_shape_zip_with {A B C : Type} (f : A -> B -> C)
    (m : list (list A)) (g : list (list B)) (rows cols : nat) :
  has_shape g rows cols -> same_shape m g = true ->
  has_shape (zip_with (zip_with f) m g) rows cols.
Proof.
  revert g rows. induction m as [| rm m IH]; intros [| rg g] rows [L F] S; cbn in *;
    try discriminate; subst rows.
  - split; trivial.
  - apply andb_prop in S as [S1 S2]. apply Nat.eqb_eq in S1.
    inversion F as [| ? ? Hrg F']; subst.
    destruct (IH g (List.length g)) as [L' F'']; [split; trivial | trivial |].
    split; cbn; [congruence|]. constructor; trivial. now apply zip_with_length.
Qed.

(** ** The target grid *)

Lemma set_last_length (y : list float) (v : float) :
  List.length (set_last y v) = List.length y.
Proof.
  destruct y as [| a y]; trivial. unfold set_last.
  rewrite length_app, removelast_firstn_len, length_firstn. cbn. lia.
Qed.

Lemma linspace_length (start stop : float) (num : nat) :
  List.length (linspace start stop num) = num.
Proof.
  unfold linspace.
  destruct (1 <? num)%nat; rewrite ?set_last_length;
    destruct (0 <? num - 1)%nat; try destruct (_ =? _)%float;
    now rewrite !length_map, length_seq.
Qed.

Lemma zip_with_const {A B C : Type} (f : A -> B -> C) (l : list A) (b : B) :
  zip_with f l (map (fun _ => b) l) = map (fun a => f a b) l.
Proof. induction l as [| a l IH]; cbn; congruence. Qed.

Lemma sample_meshgrid (ip : float -> float -> float) (lon lat : list float) :
  zip_with (zip_with ip) (fst (meshgrid lon lat)) (snd (meshgrid lon lat)) =
  map (fun la => map (fun lo => ip lo la) lon) lat.
Proof.
  unfold meshgrid. cbn [fst snd].
  induction lat as [| la lat IH]; cbn; trivial. f_equal; trivial.
  apply zip_with_const.
Qed.

Lemma sample_shape (ip : float -> float -> float) (geo_info : geo) :
  has_shape (sample ip geo_info) (grid_rows geo_info) (grid_cols geo_info).
Proof.
  unfold sample, target_lat, target_lon. split.
  - now rewrite length_map, linspace_length.
  - apply Forall_map, Forall_forall. intros la _. now rewrite length_map, linspace_length.
Qed.

Lemma clip_sample_shape (ip : float -> float -> float) (geo_info : geo) :
  has_shape (clip_grid (sample ip geo_info)) (grid_rows geo_info) (grid_cols geo_info).
Proof. apply has_shape_map, sample_shape. Qed.

(** ** The stations that pass the filter *)

Lemma readings_length (stations : list station) :
  List.length (filter is_valid_station stations) = List.length (readings stations).
Proof.
  unfold readings, is_valid_station.
  induction stations as [| s l IH]; cbn; trivial.
  destruct (humidity s), (latitude s), (longitude s); cbn; auto.
Qed.

Lemma extract_points (stations : list station) :
  rmap (fun s => x <-? py_float (longitude s) ;;
                 y <-? py_float (latitude s) ;;
                 Ok (x, y)) (filter is_valid_station stations)
  = Ok (points_of stations).
Proof.
  unfold points_of, readings, is_valid_station.
  induction stations as [| s l IH]; cbn; trivial.
  destruct (humidity s), (latitude s) as [la |] eqn:Ela, (longitude s) as [lo |] eqn:Elo;
    cbn; trivial.
  rewrite Ela, Elo. cbn. now rewrite IH.
Qed.

Lemma extract_values (stations : list station) :
  rmap (fun s => py_float (humidity s)) (filter is_valid_station stations)
  = Ok (values_of stations).
Proof.
  unfold values_of, readings, is_valid_station.
  induction stations as [| s l IH]; cbn; trivial.
  destruct (humidity s) as [h |] eqn:Eh, (latitude s), (longitude s); cbn; trivial.
  rewrite Eh. cbn. now rewrite IH.
Qed.

(** ** The land mask *)

Lemma load_land_mask_run (w : world) :
  load_land_mask w =
  (Ok (fst (loaded_mask (TEMPERATURE_FILE w))),
   printed (snd (loaded_mask (TEMPERATURE_FILE w))) w).
Proof.
  destruct w as [fs g out]. unfold load_land_mask, loaded_mask, printed, bind,
    file_exists, try_except, json_load, lift, print, ret. cbn.
  destruct fs as [| [j | e]]; cbn; trivial.
  destruct (mask_of_temp_data j); cbn; trivial.
  now rewrite app_nil_r.
Qed.

Lemma get_land_mask_run (w : world) :
  get_land_mask w =
  match LAND_MASK w with
  | Some m => (Ok (Some m), w)
  | None =>
      let '(m, log) := loaded_mask (TEMPERATURE_FILE w) in
      (Ok m, mkWorld (TEMPERATURE_FILE w) m (stdout w ++ log))
  end.
Proof.
  unfold get_land_mask, bind, read_global at 1.
  destruct (LAND_MASK w) as [m |] eqn:E.
  - unfold read_global. now rewrite E.
  - rewrite load_land_mask_run. destruct (loaded_mask (TEMPERATURE_FILE w)) as [m log].
    reflexivity.
Qed.

(** ** One frame *)

Lemma assign_nan_outside_fits (ip : float -> float -> float) (geo_info : geo) (m : mask) :
  assign_nan_outside (clip_grid (sample ip geo_info)) m =
  if mask_fits m geo_info then Ok (frame_grid ip geo_info (Some m))
  else Raise (if mask_size0 m then TypeError else IndexError).
Proof.
  unfold assign_nan_outside, mask_fits, frame_grid, masked.
  rewrite (same_shape_spec m (clip_sample_shape ip geo_info)).
  now destruct (mask_size0 m).
Qed.

Section Frames.

Variable scipy_interpolator :
  method -> list (float * float) -> list float -> result (float -> float -> float).
Variable np_mean : list float -> float.

Lemma interpolate_humidity_few (stations : list station) (geo_info : geo) (w : world) :
  List.length (filter is_valid_station stations) < 4 ->
  interpolate_humidity scipy_interpolator np_mean stations geo_info w
  = (Ok (None, Error "Not enough valid stations"), w).
Proof.
  intros H. unfold interpolate_humidity.
  apply Nat.ltb_lt in H. now rewrite H.
Qed.

Lemma interpolate_humidity_run (stations : list station) (geo_info : geo)
    (w w' : world) (land_mask : option mask) :
  4 <= List.length (filter is_valid_station stations) ->
  get_land_mask w = (Ok land_mask, w') ->
  interpolate_humidity scipy_interpolator np_mean stations geo_info w =
  match interpolant scipy_interpolator (points_of stations) (values_of stations) with
  | Raise e => (Raise e, w)
  | Ok ip =>
      match land_mask with
      | Some m =>
          if mask_fits m geo_info then
            (Ok (Some (to_grid_list (frame_grid ip geo_info land_mask)),
                 Stats (frame_stats np_mean (frame_grid ip geo_info land_mask)
                                    (List.length (filter is_valid_station stations)))), w')
          else (Raise (if mask_size0 m then TypeError else IndexError), w')
      | None =>
          (Ok (Some (to_grid_list (frame_grid ip geo_info land_mask)),
               Stats (frame_stats np_mean (frame_grid ip geo_info land_mask)
                                  (List.length (filter is_valid_station stations)))), w')
      end
  end.
Proof.
  intros H G. unfold interpolate_humidity.
  apply Nat.ltb_ge in H. rewrite H.
  unfold bind at 1. unfold lift at 1. rewrite extract_points.
  unfold bind at 1. unfold lift at 1. rewrite extract_values.
  unfold bind at 1. unfold try_except, lift, griddata, interpolant.
  destruct (scipy_interpolator Cubic _ _) as [ip | e]; cbn [rbind].
  - rewrite sample_meshgrid. fold (target_lon geo_info) (target_lat geo_info).
    fold (sample ip geo_info).
    unfold bind at 1. rewrite G.
    destruct land_mask as [m |].
    + unfold bind, lift, ret. rewrite assign_nan_outside_fits.
      now destruct (mask_fits m geo_info).
    + reflexivity.
  - destruct (scipy_interpolator Linear _ _) as [ip | e']; cbn [rbind]; trivial.
    rewrite sample_meshgrid. fold (target_lon geo_info) (target_lat geo_info).
    fold (sample ip geo_info).
    unfold bind at 1. rewrite G.
    destruct land_mask as [m |].
    + unfold bind, lift, ret. rewrite assign_nan_outside_fits.
      now destruct (mask_fits m geo_info).
    + reflexivity.
Qed.

End Frames.

(** ** Finite numbers *)

Lemma is_finite_spec (x : float) : is_finite x = true <-> SFfinite (Prim2SF x).
Proof.
  unfold is_finite, is_infinity.
  rewrite FloatAxioms.eqb_spec, FloatAxioms.abs_spec.
  change (Prim2SF infinity) with (S754_infinity false).
  destruct (is_nan x) eqn:N.
  - apply is_nan_spec in N. rewrite N. cbn. split; [discriminate | tauto].
  - apply not_nan_spec in N. unfold not_nan in N.
    destruct (Prim2SF x) as [s | s | | s m e]; cbn; try tauto; split; (discriminate || tauto).
Qed.

Lemma zero_add_eqb (z x : float) :
  (exists s, Prim2SF z = S754_zero s) -> is_nan x = false -> (z + x =? x)%float = true.
Proof.
  intros [s Hz] Hx. apply not_nan_spec in Hx. unfold not_nan in Hx.
  rewrite FloatAxioms.eqb_spec, FloatAxioms.add_spec, Hz.
  destruct (Prim2SF x) as [sx | sx | | sx m e]; try congruence.
  - destruct s, sx; reflexivity.
  - destruct sx; reflexivity.
  - cbn. unfold SFeqb. cbn. rewrite Z.compare_refl, Pos.compare_cont_refl. now destruct sx.
Qed.

Lemma zero_mul_finite (z x : float) :
  (exists s, Prim2SF z = S754_zero s) -> SFfinite (Prim2SF x) ->
  exists s, Prim2SF (z * x) = S754_zero s.
Proof.
  intros [s Hz] Hx. rewrite FloatAxioms.mul_spec, Hz.
  destruct (Prim2SF x) as [sx | sx | | sx m e]; cbn in Hx; try tauto; cbn; eauto.
Qed.

Lemma sub_finite_not_nan (a b : float) :
  SFfinite (Prim2SF (a - b)) -> is_nan b = false.
Proof.
  rewrite FloatAxioms.sub_spec. intros H. apply not_nan_spec. unfold not_nan.
  destruct (Prim2SF a), (Prim2SF b); cbn in H; try tauto; discriminate.
Qed.

Lemma div_finite_numerator (a b : float) :
  SFfinite (Prim2SF (a / b)) -> SFfinite (Prim2SF a).
Proof.
  rewrite FloatAxioms.div_spec.
  destruct (Prim2SF a) as [sa | sa | | sa ma ea], (Prim2SF b) as [sb | sb | | sb mb eb];
    cbn; tauto.
Qed.

Lemma div_zero_divisor (a b : float) :
  (a / b =? 0)%float = true ->
  match Prim2SF b with S754_finite _ _ _ | S754_infinity _ => True | _ => False end.
Proof.
  rewrite FloatAxioms.eqb_spec, FloatAxioms.div_spec. change (Prim2SF 0) with (S754_zero false).
  destruct (Prim2SF a) as [sa | sa | | sa ma ea], (Prim2SF b) as [sb | sb | | sb mb eb];
    cbn; trivial; try discriminate; destruct (xorb _ _); discriminate.
Qed.

Lemma zero_div (z b : float) :
  (exists s, Prim2SF z = S754_zero s) ->
  match Prim2SF b with S754_finite _ _ _ | S754_infinity _ => True | _ => False end ->
  exists s, Prim2SF (z / b) = S754_zero s.
Proof.
  intros [s Hz] Hb. rewrite FloatAxioms.div_spec, Hz.
  destruct (Prim2SF b) as [sb | sb | | sb mb eb]; cbn in *; try tauto; eauto.
Qed.

Lemma eqb_zero_finite (x : float) : (x =? 0)%float = true -> SFfinite (Prim2SF x).
Proof.
  rewrite FloatAxioms.eqb_spec. change (Prim2SF 0) with (S754_zero false).
  destruct (Prim2SF x) as [s | s | | s m e]; cbn; trivial; try discriminate.
  destruct s; discriminate.
Qed.

(** ** Samples of [linspace] *)

Lemma set_last_nth (y : list float) (v : float) (i : nat) :
  i < List.length y - 1 -> nth_error (set_last y v) i = nth_error y i.
Proof.
  intros H. destruct y as [| a y]; [cbn in H; lia|]. unfold set_last.
  rewrite removelast_firstn_len, nth_error_app1 by (rewrite length_firstn; lia).
  rewrite nth_error_firstn.
  assert ((i <? Nat.pred (List.length (a :: y)))%nat = true) as -> by (apply Nat.ltb_lt; lia).
  reflexivity.
Qed.

Lemma set_last_last (y : list float) (v : float) :
  y <> [] -> nth_error (set_last y v) (List.length y - 1) = Some v.
Proof.
  intros H. destruct y as [| a y]; [congruence|]. unfold set_last.
  rewrite removelast_firstn_len, nth_error_app2 by (rewrite length_firstn; lia).
  rewrite length_firstn.
  replace (_ - _) with 0 by lia. reflexivity.
Qed.

Lemma linspace_nth (start stop : float) (num i : nat) :
  i < num - 1 ->
  nth_error (linspace start stop num) i = Some (linspace_sample start stop num i).
Proof.
  intros H. unfold linspace, linspace_sample, linspace_step.
  assert ((1 <? num)%nat = true) as -> by (apply Nat.ltb_lt; lia).
  assert ((0 <? num - 1)%nat = true) as -> by (apply Nat.ltb_lt; lia).
  rewrite set_last_nth.
  - destruct (_ =? 0)%float; rewrite !nth_error_map, nth_error_seq;
      (assert ((i <? num)%nat = true) as -> by (apply Nat.ltb_lt; lia)); reflexivity.
  - destruct (_ =? 0)%float; rewrite !length_map, length_seq; lia.
Qed.

Lemma linspace_last (start stop : float) (num : nat) :
  2 <= num -> nth_error (linspace start stop num) (num - 1) = Some stop.
Proof.
  intros H. unfold linspace.
  assert ((1 <? num)%nat = true) as -> by (apply Nat.ltb_lt; lia).
  match goal with |- nth_error (set_last ?y _) _ = _ => set (samples := y) end.
  assert (List.length samples = num) as L.
  { subst samples. destruct (0 <? num - 1)%nat; try destruct (_ =? 0)%float;
      now rewrite !length_map, length_seq. }
  replace (num - 1) with (List.length samples - 1) by lia.
  apply set_last_last. intros E. rewrite E in L. cbn in L. lia.
Qed.

Lemma linspace_first (start stop : float) (num : nat) :
  2 <= num ->
  is_finite (linspace_step start stop num) = true ->
  (linspace_sample start stop num 0 =? start)%float = true.
Proof.
  intros H F. unfold linspace_sample.
  assert (exists s, Prim2SF (float_of_nat 0) = S754_zero s) as Z by (now exists false).
  pose proof F as F'. apply is_finite_spec in F'.
  assert (is_nan start = false) as N.
  { apply div_finite_numerator in F'. now apply sub_finite_not_nan in F'. }
  destruct (_ =? 0)%float eqn:E.
  - apply zero_add_eqb; trivial. apply zero_mul_finite.
    + apply zero_div; trivial. now apply div_zero_divisor in E.
    + now apply div_finite_numerator in F'.
  - apply zero_add_eqb; trivial. now apply zero_mul_finite.
Qed.

Lemma linspace_first_iff (start stop : float) (num : nat) :
  2 <= num ->
  (linspace_sample start stop num 0 =? start)%float
  = is_finite (linspace_step start stop num).
Proof.
  intros H. destruct (is_finite (linspace_step start stop num)) eqn:F.
  - now apply linspace_first.
  - unfold linspace_sample.
    destruct (_ =? 0)%float eqn:E.
    + apply eqb_zero_finite, is_finite_spec in E. congruence.
    + assert (~ SFfinite (Prim2SF (linspace_step start stop num))) as N
        by (rewrite <- is_finite_spec; congruence).
      rewrite FloatAxioms.eqb_spec, FloatAxioms.add_spec, FloatAxioms.mul_spec.
      change (Prim2SF (float_of_nat 0)) with (S754_zero false).
      destruct (Prim2SF (linspace_step start stop num)); cbn in N; try tauto; reflexivity.
Qed.

Lemma linspace_first_nan (start stop : float) (num : nat) :
  is_finite (linspace_step start stop num) = false ->
  is_nan (linspace_sample start stop num 0) = true.
Proof.
  intros F. unfold linspace_sample.
  assert (~ SFfinite (Prim2SF (linspace_step start stop num))) as N
    by (rewrite <- is_finite_spec; congruence).
  destruct (_ =? 0)%float eqn:E.
  - apply eqb_zero_finite in E. tauto.
  - apply is_nan_spec. rewrite FloatAxioms.add_spec, FloatAxioms.mul_spec.
    change (Prim2SF (float_of_nat 0)) with (S754_zero false).
    destruct (Prim2SF (linspace_step start stop num)); cbn in N; try tauto; reflexivity.
Qed.

(** ** The reference dataset *)
















(** ** Frames returned *)

Lemma get_land_mask_total (w : world) :
  exists land_mask w', get_land_mask w = (Ok land_mask, w').
Proof.
  rewrite get_land_mask_run. destruct (LAND_MASK w); [eauto|].
  destruct (loaded_mask _). eauto.
Qed.

Section Returned.

Variable scipy_interpolator :
  method -> list (float * float) -> list float -> result (float -> float -> float).
Variable np_mean : list float -> float.

(** What a call that returns a grid went through. *)
Lemma interpolate_humidity_returned (stations : list station) (geo_info : geo)
    (w w' : world) (gl : grid_list) (i : info) :
  interpolate_humidity scipy_interpolator np_mean stations geo_info w
  = (Ok (Some gl, i), w') ->
  exists ip land_mask,
    4 <= List.length (filter is_valid_station stations) /\
    interpolant scipy_interpolator (points_of stations) (values_of stations) = Ok ip /\
    get_land_mask w = (Ok land_mask, w') /\
    (forall m, land_mask = Some m -> mask_fits m geo_info = true) /\
    gl = to_grid_list (frame_grid ip geo_info land_mask) /\
    i = Stats (frame_stats np_mean (frame_grid ip geo_info land_mask)
                           (List.length (filter is_valid_station stations))).
Proof.
  intros H.
  destruct (Nat.lt_ge_cases (List.length (filter is_valid_station stations)) 4) as [L | L].
  { rewrite (interpolate_humidity_few scipy_interpolator np_mean stations geo_info w L) in H. discriminate. }
  destruct (get_land_mask_total w) as (land_mask & w1 & G).
  rewrite (interpolate_humidity_run scipy_interpolator np_mean stations geo_info w L G) in H.
  destruct (interpolant _ _ _) as [ip | e]; [|discriminate].
  exists ip, land_mask.
  destruct land_mask as [m |].
  - destruct (mask_fits m geo_info) eqn:F; [|discriminate].
    injection H as <- <- <-. repeat split; trivial. now intros ? [= <-].
  - injection H as <- <- <-. repeat split; trivial. discriminate.
Qed.

(** A call on enough stations, an interpolant and a fitting mask returns. *)
Lemma interpolate_humidity_returns (stations : list station) (geo_info : geo)
    (w w' : world) (ip : float -> float -> float) (land_mask : option mask) :
  4 <= List.length (filter is_valid_station stations) ->
  interpolant scipy_interpolator (points_of stations) (values_of stations) = Ok ip ->
  get_land_mask w = (Ok land_mask, w') ->
  (forall m, land_mask = Some m -> mask_fits m geo_info = true) ->
  interpolate_humidity scipy_interpolator np_mean stations geo_info w
  = (Ok (Some (to_grid_list (frame_grid ip geo_info land_mask)),
         Stats (frame_stats np_mean (frame_grid ip geo_info land_mask)
                            (List.length (filter is_valid_station stations)))), w').
Proof.
  intros L I G F. rewrite (interpolate_humidity_run scipy_interpolator np_mean stations geo_info w L G), I.
  destruct land_mask as [m |]; trivial. now rewrite (F m eq_refl).
Qed.

End Returned.

Lemma frame_grid_shape (ip : float -> float -> float) (geo_info : geo)
    (land_mask : option mask) :
  (forall m, land_mask = Some m -> mask_fits m geo_info = true) ->
  has_shape (frame_grid ip geo_info land_mask) (grid_rows geo_info) (grid_cols geo_info).
Proof.
  intros F. unfold frame_grid, masked. destruct land_mask as [m |].
  - apply has_shape_zip_with; [apply clip_sample_shape|].
    specialize (F m eq_refl). unfold mask_fits in F.
    rewrite (same_shape_spec m (clip_sample_shape ip geo_info)).
    apply andb_prop in F as [F1 F2]. apply andb_prop in F1 as [_ F1]. now rewrite F1, F2.
  - apply clip_sample_shape.
Qed.

Lemma to_grid_list_shape (g : grid) (rows cols : nat) :
  has_shape g rows cols -> has_shape (to_grid_list g) rows cols.
Proof. apply has_shape_map. Qed.

(** Every cell of the grid behind a frame is NaN or a clipped value. *)
Lemma frame_grid_cell (ip : float -> float -> float) (geo_info : geo)
    (land_mask : option mask) (r c : nat) (v : float) :
  cell (frame_grid ip geo_info land_mask) r c = Some v ->
  is_nan v = false -> in_0_100 v = true.
Proof.
  unfold frame_grid, masked, clip_grid. intros H N.
  assert (forall u, option_map (fun x => np_clip x 0 f100) (cell (sample ip geo_info) r c) = Some u ->
                    is_nan u = false -> in_0_100 u = true) as K.
  { intros u Hu Nu. destruct (cell (sample ip geo_info) r c) as [x |]; [|discriminate].
    injection Hu as <-. apply np_clip_range. now rewrite np_clip_nan in Nu. }
  destruct land_mask as [m |].
  - rewrite cell_zip_with, cell_map in H.
    destruct (cell m r c) as [keep |]; [|discriminate].
    destruct (option_map _ _) as [u |] eqn:E; [|discriminate].
    injection H as <-. destruct keep; [now apply K | discriminate].
  - rewrite cell_map in H. now apply K.
Qed.

Lemma to_grid_list_cell (g : grid) (r c : nat) :
  cell (to_grid_list g) r c =
  option_map (fun val => if is_nan val then None else Some (round1 val)) (cell g r c).
Proof. apply cell_map. Qed.

Lemma to_grid_list_numeric (g : grid) (r c : nat) (v : float) :
  cell (to_grid_list g) r c = Some (Some v) ->
  exists u, cell g r c = Some u /\ is_nan u = false /\ v = round1 u.
Proof.
  rewrite to_grid_list_cell. destruct (cell g r c) as [u |]; [|discriminate].
  cbn. destruct (is_nan u) eqn:N; [discriminate|]. intros [= <-]. eauto.
Qed.

Lemma sample_cell_inv (ip : float -> float -> float) (geo_info : geo) (r c : nat) (x : float) :
  cell (sample ip geo_info) r c = Some x ->
  exists lo la,
    nth_error (target_lon geo_info) c = Some lo /\
    nth_error (target_lat geo_info) r = Some la /\
    x = ip lo la.
Proof.
  unfold cell, sample. rewrite nth_error_map.
  destruct (nth_error (target_lat geo_info) r) as [la |]; [|discriminate].
  cbn [option_map]. rewrite nth_error_map.
  destruct (nth_error (target_lon geo_info) c) as [lo |]; [|discriminate].
  cbn [option_map]. intros [= <-]. now exists lo, la.
Qed.

(** A cell of the grid behind a frame that is a number is the clipped value
    of the interpolant at the coordinates of the cell. *)
Lemma frame_grid_numeric (ip : float -> float -> float) (geo_info : geo)
    (land_mask : option mask) (r c : nat) (u : float) :
  cell (frame_grid ip geo_info land_mask) r c = Some u ->
  is_nan u = false ->
  exists lo la,
    nth_error (target_lon geo_info) c = Some lo /\
    nth_error (target_lat geo_info) r = Some la /\
    u = np_clip (ip lo la) 0 f100.
Proof.
  unfold frame_grid, masked, clip_grid. intros H N.
  assert (forall u', option_map (fun x => np_clip x 0 f100) (cell (sample ip geo_info) r c)
                     = Some u' ->
                     exists lo la,
                       nth_error (target_lon geo_info) c = Some lo /\
                       nth_error (target_lat geo_info) r = Some la /\
                       u' = np_clip (ip lo la) 0 f100) as K.
  { intros u' Hu. destruct (cell (sample ip geo_info) r c) as [x |] eqn:E; [|discriminate].
    injection Hu as <-. destruct (sample_cell_inv _ _ _ _ E) as (lo & la & Hc & Hr & ->).
    now exists lo, la. }
  destruct land_mask as [m |].
  - rewrite cell_zip_with, cell_map in H.
    destruct (cell m r c) as [keep |]; [|discriminate].
    destruct (option_map _ _) as [u' |] eqn:E; [|discriminate].
    injection H as <-. destruct keep; [now apply K | discriminate].
  - rewrite cell_map in H. now apply K.
Qed.

(** * Properties of the interpolation core *)

Import Demo.

(** C1.  [interpolate_humidity] keeps the stations whose humidity, latitude
    and longitude are all present.  With fewer than 4 of them it raises
    nothing, touches nothing and returns no grid with the indication
    ['Not enough valid stations'].  With 4 or more it never returns that
    indication: whatever it returns is a grid of [grid_rows] by [grid_cols]
    cells with the statistics of the frame, counting exactly the stations
    kept; and it does return one as soon as an interpolant can be built and
    the land mask, if any, fits the grid. *)
Theorem insufficient_stations_threshold
    (scipy_interpolator :
       method -> list (float * float) -> list float -> result (float -> float -> float))
    (np_mean : list float -> float)
    (stations : list station) (geo_info : geo) (w : world) :
  (List.length (filter is_valid_station stations) < 4 ->
   interpolate_humidity scipy_interpolator np_mean stations geo_info w
   = (Ok (None, Error "Not enough valid stations"), w))
  /\
  (4 <= List.length (filter is_valid_station stations) ->
   (forall g i w',
      interpolate_humidity scipy_interpolator np_mean stations geo_info w
      = (Ok (g, i), w') ->
      exists gl st,
        g = Some gl /\ i = Stats st /\
        has_shape gl (grid_rows geo_info) (grid_cols geo_info) /\
        station_count st = List.length (filter is_valid_station stations))
   /\
   (forall ip land_mask w',
      interpolant scipy_interpolator (points_of stations) (values_of stations) = Ok ip ->
      get_land_mask w = (Ok land_mask, w') ->
      (forall m, land_mask = Some m -> mask_fits m geo_info = true) ->
      exists gl st,
        interpolate_humidity scipy_interpolator np_mean stations geo_info w
        = (Ok (Some gl, Stats st), w'))).
Proof.
  split; [apply interpolate_humidity_few|].
  intros L. split.
  - intros g i w' H.
    destruct (get_land_mask_total w) as (land_mask & w1 & G).
    rewrite (interpolate_humidity_run scipy_interpolator np_mean stations geo_info w L G) in H.
    destruct (interpolant _ _ _) as [ip | e]; [|discriminate].
    assert (forall F : forall m, land_mask = Some m -> mask_fits m geo_info = true,
              (Ok (Some (to_grid_list (frame_grid ip geo_info land_mask)),
                   Stats (frame_stats np_mean (frame_grid ip geo_info land_mask)
                            (List.length (filter is_valid_station stations)))), w1)
              = (Ok (g, i), w') ->
              exists gl st,
                g = Some gl /\ i = Stats st /\
                has_shape gl (grid_rows geo_info) (grid_cols geo_info) /\
                station_count st = List.length (filter is_valid_station stations)) as K.
    { intros F [= <- <- <-]. do 2 eexists.
      split; [reflexivity|]. split; [reflexivity|].
      split; [apply to_grid_list_shape, frame_grid_shape, F | reflexivity]. }
    destruct land_mask as [m |].
    + destruct (mask_fits m geo_info) eqn:F; [|discriminate].
      apply K; trivial. now intros ? [= <-].
    + apply K; trivial. discriminate.
  - intros ip land_mask w' I G F. do 2 eexists.
    exact (@interpolate_humidity_returns scipy_interpolator np_mean stations geo_info
             w w' ip land_mask L I G F).
Qed.

(** The boundary at 4: three valid stations, then exactly four. *)
Lemma insufficient_stations_threshold_witness :
  interpolate_humidity plane_interpolator mean stations3 (unit_square 2 3) (fresh FileMissing)
  = (Ok (None, Error "Not enough valid stations"), fresh FileMissing)
  /\
  exists gl st,
    interpolate_humidity plane_interpolator mean stations4 (unit_square 2 3) (fresh FileMissing)
    = (Ok (Some gl, Stats st), printed [WarnNotFound] (fresh FileMissing)).
Proof.
  split.
  - apply (proj1 (insufficient_stations_threshold plane_interpolator mean stations3
                    (unit_square 2 3) (fresh FileMissing))).
    cbn. lia.
  - destruct (insufficient_stations_threshold plane_interpolator mean stations4
                (unit_square 2 3) (fresh FileMissing)) as [_ H].
    destruct H as [_ H]; [cbn; lia|].
    apply (H (fun x y => (40 + (130 - 40) * x + (20 - 40) * y)%float) None).
    + reflexivity.
    + reflexivity.
    + discriminate.
Defined.

(** C2.  Clamping invariant: in every grid that [interpolate_humidity]
    returns, every cell that is not [None] holds a number of the closed
    interval [0, 100], whatever the interpolant produced there. *)
Theorem clamping_invariant
    (scipy_interpolator :
       method -> list (float * float) -> list float -> result (float -> float -> float))
    (np_mean : list float -> float)
    (stations : list station) (geo_info : geo) (w w' : world)
    (gl : grid_list) (i : info) (r c : nat) (v : float) :
  interpolate_humidity scipy_interpolator np_mean stations geo_info w
  = (Ok (Some gl, i), w') ->
  cell gl r c = Some (Some v) ->
  in_0_100 v = true.
Proof.
  intros H C.
  destruct (interpolate_humidity_returned _ _ _ _ _ H) as (ip & land_mask & _ & _ & _ & _ & -> & _).
  apply to_grid_list_numeric in C as (u & Cu & N & ->).
  apply round1_percent. eapply frame_grid_cell; eauto.
Qed.

(** A frame whose interpolant overshoots to 130 and beyond. *)
Lemma clamping_invariant_witness : in_0_100 100 = true /\ in_0_100 20 = true.
Proof.
  split.
  - apply (@clamping_invariant plane_interpolator mean stations4 (unit_square 2 3)
             (fresh FileMissing) (printed [WarnNotFound] (fresh FileMissing))
             grid_2x3 (Stats stats_2x3) 0 2 100%float); reflexivity.
  - apply (@clamping_invariant plane_interpolator mean stations4 (unit_square 2 3)
             (fresh FileMissing) (printed [WarnNotFound] (fresh FileMissing))
             grid_2x3 (Stats stats_2x3) 1 0 20%float); reflexivity.
Defined.

(** C9.  Every numeric cell of a returned grid is rounded to one decimal:
    the cell at row [r], column [c] is [round(u, 1)] for its own value [u],
    the interpolant of the frame at longitude [c] and latitude [r] clipped
    to [0, 100].  Such a cell is the double nearest to [k / 10] for an
    integer [k] between 0 and 1000, and rounding it to one decimal again
    leaves it as it is. *)
Theorem cells_rounded_to_one_decimal
    (scipy_interpolator :
       method -> list (float * float) -> list float -> result (float -> float -> float))
    (np_mean : list float -> float)
    (stations : list station) (geo_info : geo) (w w' : world)
    (gl : grid_list) (i : info) :
  interpolate_humidity scipy_interpolator np_mean stations geo_info w
  = (Ok (Some gl, i), w') ->
  exists ip,
    interpolant scipy_interpolator (points_of stations) (values_of stations) = Ok ip /\
    forall r c v,
      cell gl r c = Some (Some v) ->
      exists lo la,
        nth_error (target_lon geo_info) c = Some lo /\
        nth_error (target_lat geo_info) r = Some la /\
        v = round1 (np_clip (ip lo la) 0 f100) /\
        one_decimal v /\
        round1 v = v.
Proof.
  intros H.
  destruct (interpolate_humidity_returned _ _ _ _ _ H) as (ip & land_mask & _ & I & _ & _ & -> & _).
  exists ip. split; [exact I|]. intros r c v C.
  apply to_grid_list_numeric in C as (u & Cu & N & ->).
  assert (in_0_100 u = true) as R by (eapply frame_grid_cell; eauto).
  destruct (round1_percent u R) as (_ & D & K).
  destruct (frame_grid_numeric _ _ _ _ _ Cu N) as (lo & la & Hc & Hr & E).
  exists lo, la. rewrite <- E. auto.
Qed.

(** The frame with cells interpolated at 0.05, 50.0 and 99.95, returned as
    0.1, 50.0 and 100.0. *)
Lemma cells_rounded_to_one_decimal_witness :
  exists ip,
    interpolant band_interpolator (points_of stations4) (values_of stations4) = Ok ip /\
    forall r c v,
      cell grid_bands r c = Some (Some v) ->
      exists lo la,
        nth_error (target_lon (unit_square 2 3)) c = Some lo /\
        nth_error (target_lat (unit_square 2 3)) r = Some la /\
        v = round1 (np_clip (ip lo la) 0 f100) /\
        one_decimal v /\
        round1 v = v.
Proof.
  apply (@cells_rounded_to_one_decimal band_interpolator mean stations4 (unit_square 2 3)
           (fresh FileMissing) (printed [WarnNotFound] (fresh FileMissing))
           grid_bands (Stats stats_bands)).
  reflexivity.
Defined.

(** C3.  Mask invariant: when the land mask is available and a frame is
    returned, the mask has the shape of the grid, every cell that the mask
    marks [False] is [None] in the returned grid, whatever the interpolant
    gave there, and every cell that it marks [True] holds what the clipped
    grid holds: the mask is applied to the grid that was clipped before. *)
Theorem mask_invariant
    (scipy_interpolator :
       method -> list (float * float) -> list float -> result (float -> float -> float))
    (np_mean : list float -> float)
    (stations : list station) (geo_info : geo) (w w' : world)
    (gl : grid_list) (i : info) (m : mask) :
  interpolate_humidity scipy_interpolator np_mean stations geo_info w
  = (Ok (Some gl, i), w') ->
  get_land_mask w = (Ok (Some m), w') ->
  mask_fits m geo_info = true /\
  has_shape m (grid_rows geo_info) (grid_cols geo_info) /\
  exists ip,
    interpolant scipy_interpolator (points_of stations) (values_of stations) = Ok ip /\
    forall r c,
      (cell m r c = Some false -> cell gl r c = Some None) /\
      (cell m r c = Some true ->
       cell gl r c = cell (to_grid_list (clip_grid (sample ip geo_info))) r c).
Proof.
  intros H G.
  destruct (interpolate_humidity_returned _ _ _ _ _ H)
    as (ip & land_mask & _ & I & G' & F & -> & _).
  rewrite G in G'. injection G' as <-. specialize (F m eq_refl).
  assert (has_shape m (grid_rows geo_info) (grid_cols geo_info)) as S.
  { unfold mask_fits in F. apply andb_prop in F as [F1 F2]. apply andb_prop in F1 as [_ F1].
    split; [now apply Nat.eqb_eq|].
    apply Forall_forall. intros row Hrow. rewrite forallb_forall in F2.
    now apply Nat.eqb_eq, F2. }
  split; [exact F|]. split; [exact S|]. exists ip. split; [exact I|].
  intros r c.
  assert (exists u, cell (clip_grid (sample ip geo_info)) r c = Some u \/ cell m r c = None) as K.
  { destruct (cell (clip_grid (sample ip geo_info)) r c) as [u |] eqn:E; [eauto|].
    exists 0%float. right.
    pose proof (clip_sample_shape ip geo_info) as [L1 L2].
    destruct S as [S1 S2]. unfold cell in *.
    destruct (nth_error m r) as [rm |] eqn:Em; trivial.
    destruct (nth_error (clip_grid (sample ip geo_info)) r) as [rg |] eqn:Eg.
    - rewrite Forall_forall in L2, S2.
      apply nth_error_In in Em, Eg. specialize (L2 _ Eg). specialize (S2 _ Em).
      apply nth_error_None in E. apply nth_error_None. lia.
    - apply nth_error_None in Eg. assert (r < List.length m) by (apply nth_error_Some; congruence).
      lia. }
  destruct K as (u & K).
  rewrite !to_grid_list_cell. unfold frame_grid, masked. rewrite cell_zip_with.
  split; intros B; rewrite B.
  - destruct K as [-> | K]; [reflexivity | congruence].
  - destruct K as [-> | K]; [reflexivity | congruence].
Qed.

(** The frame under the mask [[True, False], [False, True]]. *)
Lemma mask_invariant_witness :
  mask_fits mask_2x2 (unit_square 2 2) = true /\
  has_shape mask_2x2 2 2 /\
  exists ip,
    interpolant linear_only (points_of stations4) (values_of stations4) = Ok ip /\
    forall r c,
      (cell mask_2x2 r c = Some false -> cell grid_masked r c = Some None) /\
      (cell mask_2x2 r c = Some true ->
       cell grid_masked r c = cell (to_grid_list (clip_grid (sample ip (unit_square 2 2)))) r c).
Proof.
  apply (@mask_invariant linear_only mean stations4 (unit_square 2 2)
           (fresh (FilePresent (Ok reference)))
           (mkWorld (FilePresent (Ok reference)) (Some mask_2x2) [])
           grid_masked (Stats stats_masked) mask_2x2); reflexivity.
Defined.

(** C4.  Fallback: on 4 or more valid stations, when building the cubic
    interpolant raises, the same call builds the linear one over the same
    points.  If that succeeds the call returns the complete grid of
    [grid_rows] by [grid_cols] cells sampled from the linear interpolant
    (given a land mask that fits, or none); the call raises only if the
    linear interpolant cannot be built either, and then with that second
    exception. *)
Theorem fallback_to_linear
    (scipy_interpolator :
       method -> list (float * float) -> list float -> result (float -> float -> float))
    (np_mean : list float -> float)
    (stations : list station) (geo_info : geo) (w : world) (e : exn) :
  4 <= List.length (filter is_valid_station stations) ->
  scipy_interpolator Cubic (points_of stations) (values_of stations) = Raise e ->
  (forall ip land_mask w',
     scipy_interpolator Linear (points_of stations) (values_of stations) = Ok ip ->
     get_land_mask w = (Ok land_mask, w') ->
     (forall m, land_mask = Some m -> mask_fits m geo_info = true) ->
     interpolate_humidity scipy_interpolator np_mean stations geo_info w
     = (Ok (Some (to_grid_list (frame_grid ip geo_info land_mask)),
            Stats (frame_stats np_mean (frame_grid ip geo_info land_mask)
                               (List.length (filter is_valid_station stations)))), w')
     /\
     has_shape (to_grid_list (frame_grid ip geo_info land_mask))
               (grid_rows geo_info) (grid_cols geo_info))
  /\
  (forall e',
     scipy_interpolator Linear (points_of stations) (values_of stations) = Raise e' ->
     interpolate_humidity scipy_interpolator np_mean stations geo_info w = (Raise e', w)).
Proof.
  intros L C. split.
  - intros ip land_mask w' I G F. split.
    + apply interpolate_humidity_returns; trivial. unfold interpolant. now rewrite C.
    + now apply to_grid_list_shape, frame_grid_shape.
  - intros e' I.
    destruct (get_land_mask_total w) as (land_mask & w1 & G).
    rewrite (interpolate_humidity_run scipy_interpolator np_mean stations geo_info w L G).
    unfold interpolant. now rewrite C, I.
Qed.

(** A cubic method that fails, with a linear method that works, then with one
    that fails too. *)
Lemma fallback_to_linear_witness :
  (interpolate_humidity linear_only mean stations4 (unit_square 2 2)
                        (fresh (FilePresent (Ok reference)))
   = (Ok (Some grid_masked, Stats stats_masked),
      mkWorld (FilePresent (Ok reference)) (Some mask_2x2) [])
   /\ has_shape grid_masked 2 2)
  /\
  interpolate_humidity degenerate mean stations4 (unit_square 2 2)
                       (fresh (FilePresent (Ok reference)))
  = (Raise QhullError, fresh (FilePresent (Ok reference))).
Proof.
  split.
  - apply (proj1 (@fallback_to_linear linear_only mean stations4 (unit_square 2 2)
                    (fresh (FilePresent (Ok reference))) QhullError
                    ltac:(cbn; lia) eq_refl)
             (fun x y => (40 + (130 - 40) * x + (20 - 40) * y)%float) (Some mask_2x2)
             (mkWorld (FilePresent (Ok reference)) (Some mask_2x2) [])
             eq_refl eq_refl).
    intros m [= <-]. reflexivity.
  - apply (proj2 (@fallback_to_linear degenerate mean stations4 (unit_square 2 2)
                    (fresh (FilePresent (Ok reference))) QhullError
                    ltac:(cbn; lia) eq_refl)
             QhullError eq_refl).
Defined.

(** C8.  A land mask that does not fit the target grid is an error: on 4 or
    more valid stations, when the land mask obtained is not a boolean array
    of [grid_rows] by [grid_cols] cells, [interpolate_humidity] raises; it
    returns no grid and does not go on without the mask.  Once the
    interpolant is built the exception is numpy's: [IndexError] for a boolean
    mask of another shape, [TypeError] for a mask without any cell. *)
Theorem mask_shape_mismatch_raises
    (scipy_interpolator :
       method -> list (float * float) -> list float -> result (float -> float -> float))
    (np_mean : list float -> float)
    (stations : list station) (geo_info : geo) (w w' : world) (m : mask) :
  4 <= List.length (filter is_valid_station stations) ->
  get_land_mask w = (Ok (Some m), w') ->
  mask_fits m geo_info = false ->
  (exists e w'',
     interpolate_humidity scipy_interpolator np_mean stations geo_info w = (Raise e, w''))
  /\
  (forall ip,
     interpolant scipy_interpolator (points_of stations) (values_of stations) = Ok ip ->
     interpolate_humidity scipy_interpolator np_mean stations geo_info w
     = (Raise (if mask_size0 m then TypeError else IndexError), w')).
Proof.
  intros L G F.
  rewrite (interpolate_humidity_run scipy_interpolator np_mean stations geo_info w L G), F.
  split.
  - destruct (interpolant _ _ _); eauto.
  - now intros ip ->.
Qed.

(** A 2 by 2 mask, then a mask without cells, on a 2 by 3 grid. *)
Lemma mask_shape_mismatch_raises_witness :
  interpolate_humidity linear_only mean stations4 (unit_square 2 3)
                       (fresh (FilePresent (Ok reference)))
  = (Raise IndexError, mkWorld (FilePresent (Ok reference)) (Some mask_2x2) [])
  /\
  interpolate_humidity linear_only mean stations4 (unit_square 2 3)
                       (fresh (FilePresent (Ok reference_no_rows)))
  = (Raise TypeError, mkWorld (FilePresent (Ok reference_no_rows)) (Some []) []).
Proof.
  split.
  - apply (proj2 (@mask_shape_mismatch_raises linear_only mean stations4 (unit_square 2 3)
                    (fresh (FilePresent (Ok reference)))
                    (mkWorld (FilePresent (Ok reference)) (Some mask_2x2) [])
                    mask_2x2 ltac:(cbn; lia) eq_refl eq_refl)
             (fun x y => (40 + (130 - 40) * x + (20 - 40) * y)%float) eq_refl).
  - apply (proj2 (@mask_shape_mismatch_raises linear_only mean stations4 (unit_square 2 3)
                    (fresh (FilePresent (Ok reference_no_rows)))
                    (mkWorld (FilePresent (Ok reference_no_rows)) (Some []) [])
                    [] ltac:(cbn; lia) eq_refl eq_refl)
             (fun x y => (40 + (130 - 40) * x + (20 - 40) * y)%float) eq_refl).
Defined.

(** ** Statistics of a frame *)

Lemma count_some_to_grid_list (g : grid) :
  count_some (to_grid_list g) = List.length (valid_cells g).
Proof.
  unfold count_some, to_grid_list, valid_cells.
  rewrite <- concat_map.
  induction (List.concat g) as [| v l IH]; cbn; trivial.
  destruct (is_nan v); cbn; auto.
Qed.

(** C5.  Edge artifacts and the statistics: behind every frame returned lies
    a grid [g] (clipped, masked, not yet rounded) of which the returned grid
    is the rounding.  [valid_points] counts every cell that is not "no data",
    and [avg] is the rounded mean of all of them, [None] exactly when there is
    none.  [min] and [max] are the rounded least and greatest of the inner
    cells only, the valid cells above 0.1 and below 99.9, and [None] exactly
    when there is no inner cell. *)
Theorem stats_exclude_edge_artifacts
    (scipy_interpolator :
       method -> list (float * float) -> list float -> result (float -> float -> float))
    (np_mean : list float -> float)
    (stations : list station) (geo_info : geo) (w w' : world)
    (gl : grid_list) (st : stats) :
  interpolate_humidity scipy_interpolator np_mean stations geo_info w
  = (Ok (Some gl, Stats st), w') ->
  exists g : grid,
    gl = to_grid_list g /\
    (forall v, In v (valid_cells g) <-> In v (List.concat g) /\ is_nan v = false) /\
    (forall v, In v (inner_cells (valid_cells g)) <->
               In v (valid_cells g) /\ (f0_1 <? v)%float = true /\ (v <? f99_9)%float = true) /\
    valid_points st = List.length (valid_cells g) /\
    valid_points st = count_some gl /\
    s_avg st = (if (0 <? valid_points st)%nat
                then Some (round1 (np_mean (valid_cells g))) else None) /\
    match s_min st with
    | Some lo =>
        exists v, In v (inner_cells (valid_cells g)) /\ lo = round1 v /\
                  forall u, In u (inner_cells (valid_cells g)) -> (v <=? u)%float = true
    | None => inner_cells (valid_cells g) = []
    end /\
    match s_max st with
    | Some hi =>
        exists v, In v (inner_cells (valid_cells g)) /\ hi = round1 v /\
                  forall u, In u (inner_cells (valid_cells g)) -> (u <=? v)%float = true
    | None => inner_cells (valid_cells g) = []
    end.
Proof.
  intros H.
  destruct (interpolate_humidity_returned _ _ _ _ _ H)
    as (ip & land_mask & _ & _ & _ & _ & -> & E).
  injection E as ->. set (g := frame_grid ip geo_info land_mask).
  exists g. split; [reflexivity|].
  split.
  { intros v. unfold valid_cells. rewrite filter_In, negb_true_iff. tauto. }
  split; [apply inner_cells_spec|].
  cbn [frame_stats valid_points s_avg s_min s_max]. fold (valid_cells g).
  split; [reflexivity|]. split; [now rewrite count_some_to_grid_list|].
  split; [reflexivity|].
  pose proof (inner_cells_no_nan (valid_cells_no_nan g)) as N.
  destruct (inner_cells (valid_cells g)) as [| x l] eqn:I; cbn [List.length Nat.ltb Nat.leb].
  - split; reflexivity.
  - split.
    + destruct (@np_min_spec (x :: l)) as [M1 M2]; [discriminate | exact N |]. eauto.
    + destruct (@np_max_spec (x :: l)) as [M1 M2]; [discriminate | exact N |]. eauto.
Qed.

(** Cells at 0.05, 50.0 and 99.95: [min] and [max] are 50.0, [avg] and
    [valid_points] take in all six cells. *)
Lemma stats_exclude_edge_artifacts_witness :
  exists g : grid,
    grid_bands = to_grid_list g /\
    (forall v, In v (valid_cells g) <-> In v (List.concat g) /\ is_nan v = false) /\
    (forall v, In v (inner_cells (valid_cells g)) <->
               In v (valid_cells g) /\ (f0_1 <? v)%float = true /\ (v <? f99_9)%float = true) /\
    valid_points stats_bands = List.length (valid_cells g) /\
    valid_points stats_bands = count_some grid_bands /\
    s_avg stats_bands = (if (0 <? valid_points stats_bands)%nat
                         then Some (round1 (mean (valid_cells g))) else None) /\
    match s_min stats_bands with
    | Some lo =>
        exists v, In v (inner_cells (valid_cells g)) /\ lo = round1 v /\
                  forall u, In u (inner_cells (valid_cells g)) -> (v <=? u)%float = true
    | None => inner_cells (valid_cells g) = []
    end /\
    match s_max stats_bands with
    | Some hi =>
        exists v, In v (inner_cells (valid_cells g)) /\ hi = round1 v /\
                  forall u, In u (inner_cells (valid_cells g)) -> (u <=? v)%float = true
    | None => inner_cells (valid_cells g) = []
    end.
Proof.
  apply (@stats_exclude_edge_artifacts band_interpolator mean stations4 (unit_square 2 3)
           (fresh FileMissing) (printed [WarnNotFound] (fresh FileMissing))
           grid_bands stats_bands).
  reflexivity.
Defined.

(** ** The cache of the land mask *)

Lemma get_each_cached (m : mask) (files : list file_state) : forall w : world,
  LAND_MASK w = Some m ->
  fst (get_each files w) = map (fun _ => Ok (Some m)) files /\
  LAND_MASK (snd (get_each files w)) = Some m /\
  stdout (snd (get_each files w)) = stdout w.
Proof.
  induction files as [| fs files IH]; intros w C; [cbn; auto|].
  cbn [get_each map]. rewrite get_land_mask_run. cbn [with_file LAND_MASK]. rewrite C.
  destruct (IH (with_file fs w) C) as (I1 & I2 & I3).
  unfold with_file in *.
  destruct (get_each files _) as [rs w2]. cbn in *.
  now rewrite I1.
Qed.

Lemma get_each_unloadable (files : list file_state) : forall w : world,
  LAND_MASK w = None ->
  Forall (fun fs => fst (loaded_mask fs) = None) files ->
  fst (get_each files w) = map (fun _ => Ok None) files /\
  LAND_MASK (snd (get_each files w)) = None /\
  stdout (snd (get_each files w))
  = (stdout w ++ flat_map (fun fs => snd (loaded_mask fs)) files)%list.
Proof.
  induction files as [| fs files IH]; intros w C F.
  - cbn. now rewrite app_nil_r.
  - inversion F as [| ? ? Hfs F']; subst. cbn [get_each map flat_map].
    rewrite get_land_mask_run. cbn [with_file LAND_MASK TEMPERATURE_FILE stdout]. rewrite C.
    destruct (loaded_mask fs) as [r log] eqn:E. cbn in Hfs. subst r.
    destruct (IH (mkWorld fs None (stdout w ++ log)) eq_refl F') as (I1 & I2 & I3).
    destruct (get_each files _) as [rs w2]. cbn in *.
    now rewrite I1, I3, app_assoc.
Qed.

Lemma failed_load_warns (fs : file_state) :
  fst (loaded_mask fs) = None -> List.length (snd (loaded_mask fs)) = 1.
Proof.
  destruct fs as [| [j | e]]; cbn; trivial.
  destruct (mask_of_temp_data j); cbn; [discriminate | trivial].
Qed.

(** C10.  The cache of the land mask is one-sided.  Once a call to
    [get_land_mask] has obtained a mask, every later call returns that same
    mask, whatever has become of the reference file, and prints nothing: the
    file is not loaded again.  When a call obtained no mask the global stays
    empty, and every later call loads the file again: as long as loading
    fails each call returns [None] and prints its warning, and the first
    call that finds a loadable file returns its mask. *)
Theorem land_mask_cache_asymmetry (w w' : world) (r : option mask) :
  get_land_mask w = (Ok r, w') ->
  match r with
  | Some m =>
      LAND_MASK w' = Some m /\
      forall files,
        fst (get_each files w') = map (fun _ => Ok (Some m)) files /\
        LAND_MASK (snd (get_each files w')) = Some m /\
        stdout (snd (get_each files w')) = stdout w'
  | None =>
      LAND_MASK w' = None /\
      (forall files,
         Forall (fun fs => fst (loaded_mask fs) = None) files ->
         fst (get_each files w') = map (fun _ => Ok None) files /\
         LAND_MASK (snd (get_each files w')) = None /\
         List.length (stdout (snd (get_each files w')))
         = List.length (stdout w') + List.length files) /\
      (forall fs,
         get_land_mask (with_file fs w')
         = (Ok (fst (loaded_mask fs)),
            mkWorld fs (fst (loaded_mask fs)) (stdout w' ++ snd (loaded_mask fs))%list))
  end.
Proof.
  intros G.
  assert (LAND_MASK w' = r) as C.
  { rewrite get_land_mask_run in G. destruct (LAND_MASK w) as [m |] eqn:E.
    - injection G as <- <-. exact E.
    - destruct (loaded_mask _) as [m log]. now injection G as <- <-. }
  destruct r as [m |].
  - split; [exact C|]. intros files. now apply get_each_cached.
  - split; [exact C|]. split.
    + intros files F. destruct (@get_each_unloadable files w' C F) as (I1 & I2 & I3).
      repeat split; trivial. rewrite I3, length_app. f_equal.
      clear - F. induction F as [| fs files Hfs F IH]; cbn; trivial.
      rewrite length_app, IH, (failed_load_warns _ Hfs). reflexivity.
    + intros fs. rewrite get_land_mask_run. cbn [with_file LAND_MASK TEMPERATURE_FILE stdout].
      rewrite C. now destruct (loaded_mask fs).
Qed.

(** A cached mask survives the loss of the file; a failed load is retried
    until the file is there. *)
Lemma land_mask_cache_asymmetry_witness :
  fst (get_each [FileMissing; FilePresent (Raise JSONDecodeError)]
                (mkWorld (FilePresent (Ok reference)) (Some mask_2x2) []))
  = [Ok (Some mask_2x2); Ok (Some mask_2x2)]
  /\
  fst (get_each [FileMissing; FilePresent (Raise OSError)]
                (printed [WarnNotFound] (fresh FileMissing)))
  = [Ok None; Ok None]
  /\
  get_land_mask (with_file (FilePresent (Ok reference))
                           (printed [WarnNotFound] (fresh FileMissing)))
  = (Ok (Some mask_2x2),
     mkWorld (FilePresent (Ok reference)) (Some mask_2x2) [WarnNotFound]).
Proof.
  split; [|split].
  - exact (proj1 (proj2 (@land_mask_cache_asymmetry
                           (fresh (FilePresent (Ok reference)))
                           (mkWorld (FilePresent (Ok reference)) (Some mask_2x2) [])
                           (Some mask_2x2) eq_refl)
                   [FileMissing; FilePresent (Raise JSONDecodeError)])).
  - refine (proj1 (proj1 (proj2 (@land_mask_cache_asymmetry
                                   (fresh FileMissing)
                                   (printed [WarnNotFound] (fresh FileMissing))
                                   None eq_refl))
                     [FileMissing; FilePresent (Raise OSError)] _)).
    repeat constructor.
  - exact (proj2 (proj2 (@land_mask_cache_asymmetry
                           (fresh FileMissing)
                           (printed [WarnNotFound] (fresh FileMissing))
                           None eq_refl))
             (FilePresent (Ok reference))).
Defined.




(** ** The geometry of the target grid *)

Lemma sample_cell (ip : float -> float -> float) (geo_info : geo) (r c : nat) (lo la : float) :
  nth_error (target_lon geo_info) c = Some lo ->
  nth_error (target_lat geo_info) r = Some la ->
  cell (sample ip geo_info) r c = Some (ip lo la).
Proof.
  intros Hc Hr. unfold cell, sample.
  rewrite nth_error_map, Hr. cbn. now rewrite nth_error_map, Hc.
Qed.

Lemma linspace_geometry (start stop : float) (num : nat) :
  2 <= num ->
  List.length (linspace start stop num) = num /\
  nth_error (linspace start stop num) (num - 1) = Some stop /\
  (forall i, i < num - 1 ->
             nth_error (linspace start stop num) i = Some (linspace_sample start stop num i)) /\
  (exists first, nth_error (linspace start stop num) 0 = Some first /\
                 (first =? start)%float = is_finite (linspace_step start stop num) /\
                 is_nan first = negb (is_finite (linspace_step start stop num))).
Proof.
  intros N. split; [apply linspace_length|]. split; [|split].
  - now apply linspace_last.
  - intros i Hi. now apply linspace_nth.
  - exists (linspace_sample start stop num 0). split; [|split].
    + apply linspace_nth. lia.
    + now apply linspace_first_iff.
    + destruct (is_finite (linspace_step start stop num)) eqn:F; cbn [negb].
      * pose proof (linspace_first start stop N F) as E.
        destruct (is_nan (linspace_sample start stop num 0)) eqn:K; trivial.
        apply is_nan_spec in K. rewrite FloatAxioms.eqb_spec, K in E. discriminate.
      * now apply linspace_first_nan.
Qed.

(** C6.  Grid geometry: for a grid of at least 2 rows and 2 columns the
    target grid has exactly [grid_cols] longitude samples and [grid_rows]
    latitude samples, and the last sample is the upper bound.  With the step
    [(max - min) / (N - 1)] of binary64, sample [i] before the last is
    [i * step + min] when the step is not zero, and
    [i / (N - 1) * (max - min) + min] when the step rounds to zero
    ([linspace_sample], every operation rounded to binary64): the samples are
    evenly spaced up to rounding.  The first sample equals the lower bound
    exactly when the step is a finite number (bounds that are numbers, with a
    span that binary64 can hold), and it is NaN exactly when the step is
    infinite or NaN.  Cell [(r, c)] of the grid is sampled at longitude [c]
    and latitude [r], and every frame that [interpolate_humidity] returns is
    an interpolant sampled on this grid, clipped, masked and rounded. *)
Theorem grid_geometry (geo_info : geo) :
  2 <= grid_rows geo_info ->
  2 <= grid_cols geo_info ->
  (List.length (target_lon geo_info) = grid_cols geo_info /\
   nth_error (target_lon geo_info) (grid_cols geo_info - 1) = Some (top_right_lon geo_info) /\
   (forall i, i < grid_cols geo_info - 1 ->
              nth_error (target_lon geo_info) i
              = Some (linspace_sample (bottom_left_lon geo_info) (top_right_lon geo_info)
                                      (grid_cols geo_info) i)) /\
   (exists first,
      nth_error (target_lon geo_info) 0 = Some first /\
      (first =? bottom_left_lon geo_info)%float
      = is_finite (linspace_step (bottom_left_lon geo_info) (top_right_lon geo_info)
                                 (grid_cols geo_info)) /\
      is_nan first
      = negb (is_finite (linspace_step (bottom_left_lon geo_info) (top_right_lon geo_info)
                                       (grid_cols geo_info)))))
  /\
  (List.length (target_lat geo_info) = grid_rows geo_info /\
   nth_error (target_lat geo_info) (grid_rows geo_info - 1) = Some (top_right_lat geo_info) /\
   (forall i, i < grid_rows geo_info - 1 ->
              nth_error (target_lat geo_info) i
              = Some (linspace_sample (bottom_left_lat geo_info) (top_right_lat geo_info)
                                      (grid_rows geo_info) i)) /\
   (exists first,
      nth_error (target_lat geo_info) 0 = Some first /\
      (first =? bottom_left_lat geo_info)%float
      = is_finite (linspace_step (bottom_left_lat geo_info) (top_right_lat geo_info)
                                 (grid_rows geo_info)) /\
      is_nan first
      = negb (is_finite (linspace_step (bottom_left_lat geo_info) (top_right_lat geo_info)
                                       (grid_rows geo_info)))))
  /\
  (forall ip r c lo la,
     nth_error (target_lon geo_info) c = Some lo ->
     nth_error (target_lat geo_info) r = Some la ->
     cell (sample ip geo_info) r c = Some (ip lo la))
  /\
  (forall scipy_interpolator np_mean stations w w' gl i,
     interpolate_humidity scipy_interpolator np_mean stations geo_info w
     = (Ok (Some gl, i), w') ->
     exists ip land_mask,
       interpolant scipy_interpolator (points_of stations) (values_of stations) = Ok ip /\
       gl = to_grid_list (masked (clip_grid (sample ip geo_info)) land_mask)).
Proof.
  intros R C. split; [|split; [|split]].
  - now apply linspace_geometry.
  - now apply linspace_geometry.
  - intros ip r c lo la. apply sample_cell.
  - intros scipy_interpolator np_mean stations w w' gl i H.
    destruct (interpolate_humidity_returned _ _ _ _ _ H)
      as (ip & land_mask & _ & I & _ & _ & -> & _).
    now exists ip, land_mask.
Qed.

(** The grid of the script: 67 longitudes from 120.0 to 121.98, 120 latitudes
    from 21.88 to 25.45.  Then the box too narrow to divide, where the samples
    follow the second formula: the second and the third longitude are both
    2^-1074. *)
Lemma grid_geometry_witness :
  ((List.length (target_lon GEO_INFO) = 67 /\
    nth_error (target_lon GEO_INFO) 66 = Some 0x1.e7eb851eb851fp+6%float /\
    (exists first, nth_error (target_lon GEO_INFO) 0 = Some first /\
                   (first =? 120)%float = true /\ is_nan first = false))
   /\
   (List.length (target_lat GEO_INFO) = 120 /\
    nth_error (target_lat GEO_INFO) 119 = Some 0x1.9733333333333p+4%float /\
    (exists first, nth_error (target_lat GEO_INFO) 0 = Some first /\
                   (first =? 0x1.5e147ae147ae1p+4)%float = true /\ is_nan first = false)))
  /\
  (linspace_step (bottom_left_lon tiny_box) (top_right_lon tiny_box) 11 = 0%float /\
   nth_error (target_lon tiny_box) 1 = Some 0x1p-1074%float /\
   nth_error (target_lon tiny_box) 2 = Some 0x1p-1074%float /\
   nth_error (target_lon tiny_box) 10 = Some 0x1.4p-1072%float).
Proof.
  split.
  - destruct (@grid_geometry GEO_INFO ltac:(cbn; lia) ltac:(cbn; lia))
      as ((L1 & E1 & _ & F1) & (L2 & E2 & _ & F2) & _ & _).
    split; (split; [|split]); assumption.
  - destruct (@grid_geometry tiny_box ltac:(cbn; lia) ltac:(cbn; lia))
      as ((_ & E & S & _) & _).
    split; [vm_compute; reflexivity|].
    split; [rewrite (S 1) by (cbn; lia); vm_compute; reflexivity|].
    split; [rewrite (S 2) by (cbn; lia); vm_compute; reflexivity | exact E].
Defined.

(** Finite bounds do not suffice without a finite step: between -1.7e308 and
    1.7e308 the span overflows to infinity, the step is infinite, and the
    first longitude sample is [0 * inf + min = NaN], not the lower bound.
    Nor are the intervals equal: in the box too narrow to divide the first
    three longitudes are 0, 2^-1074 and 2^-1074. *)
Lemma grid_geometry_counterexample :
  (2 <= grid_rows huge_box /\ 2 <= grid_cols huge_box /\
   nth_error (target_lon huge_box) 0 = Some nan /\
   (nan =? bottom_left_lon huge_box)%float = false /\
   is_finite (bottom_left_lon huge_box) = true /\
   is_finite (top_right_lon huge_box) = true)
  /\
  (2 <= grid_rows tiny_box /\ 2 <= grid_cols tiny_box /\
   nth_error (target_lon tiny_box) 0 = Some 0%float /\
   nth_error (target_lon tiny_box) 1 = Some 0x1p-1074%float /\
   nth_error (target_lon tiny_box) 2 = Some 0x1p-1074%float).
Proof.
  repeat split; try (cbn; lia); vm_compute; reflexivity.
Qed.

(** ** Rounding is monotone *)

Lemma tenths_round_half_even (m : positive) (e : Z) :
  (e < 0)%Z -> tenths m e = round_half_even (Z.pos m * 10) (2 ^ (- e)).
Proof.
  intros H. unfold tenths, round_half_even.
  assert ((0 <=? e)%Z = false) as -> by (apply Z.leb_gt; lia). reflexivity.
Qed.

Lemma round_half_even_scale (num den k : Z) :
  (0 < den)%Z -> (0 < k)%Z ->
  round_half_even (num * k) (den * k) = round_half_even num den.
Proof.
  intros Hd Hk. unfold round_half_even.
  rewrite Z.div_mul_cancel_r, Z.mul_mod_distr_r by lia.
  destruct (Z.compare_spec (2 * (num mod den * k)) (den * k)),
           (Z.compare_spec (2 * (num mod den)) den); trivial; nia.
Qed.

Lemma round_half_even_bounds (num den : Z) :
  (0 < den)%Z ->
  (num / den <= round_half_even num den <= num / den + 1)%Z.
Proof.
  intros Hd. unfold round_half_even.
  destruct (_ ?= _)%Z; [destruct (Z.even _)|..]; lia.
Qed.

Lemma round_half_even_mono (n1 n2 den : Z) :
  (0 < den)%Z -> (n1 <= n2)%Z ->
  (round_half_even n1 den <= round_half_even n2 den)%Z.
Proof.
  intros Hd Hn.
  pose proof (Z.div_le_mono n1 n2 den Hd Hn) as Hq.
  destruct (Z.eq_dec (n1 / den) (n2 / den)) as [E | N].
  - pose proof (Z.div_mod n1 den ltac:(lia)) as D1.
    pose proof (Z.div_mod n2 den ltac:(lia)) as D2.
    assert (n1 mod den <= n2 mod den)%Z as Hr by nia.
    unfold round_half_even. rewrite E.
    destruct (Z.compare_spec (2 * (n1 mod den)) den),
             (Z.compare_spec (2 * (n2 mod den)) den); try lia;
      destruct (Z.even (n2 / den)); lia.
  - pose proof (round_half_even_bounds n1 Hd). pose proof (round_half_even_bounds n2 Hd). lia.
Qed.

Lemma digits2_pos_lower (m : positive) : (2 ^ (Z.pos (digits2_pos m) - 1) <= Z.pos m)%Z.
Proof.
  induction m as [m IH | m IH | ]; cbn [digits2_pos]; [..| cbn; lia];
    rewrite Pos2Z.inj_succ;
    replace (Z.succ (Z.pos (digits2_pos m)) - 1)%Z with (Z.succ (Z.pos (digits2_pos m) - 1))%Z by lia;
    rewrite Z.pow_succ_r by lia; lia.
Qed.

Lemma valid_normal_mantissa (s : bool) (m : positive) (e : Z) :
  valid_binary (S754_finite s m e) = true -> (-1074 < e)%Z -> (2 ^ 52 <= Z.pos m)%Z.
Proof.
  cbn [valid_binary]. unfold bounded, canonical_mantissa, fexp, FloatOps.emin, SpecFloat.emin.
  intros H He. apply andb_prop in H as [H _]. apply Z.eqb_eq in H.
  unfold prec, emax in H.
  assert (Z.pos (digits2_pos m) = 53)%Z as D by lia.
  pose proof (digits2_pos_lower m) as L. rewrite D in L. exact L.
Qed.

Lemma SF0_1 : Prim2SF f0_1 = S754_finite false 7205759403792794 (-56).
Proof. reflexivity. Qed.

Lemma SF99_9 : Prim2SF f99_9 = S754_finite false 7029837543348634 (-46).
Proof. reflexivity. Qed.

(** An inner cell, as a binary64 number. *)
Lemma inner_float (v : float) :
  (f0_1 <? v)%float = true -> (v <? f99_9)%float = true ->
  exists m e,
    Prim2SF v = S754_finite false m e /\
    (2 ^ 52 <= Z.pos m < 2 ^ 53)%Z /\
    (-56 < e \/ (e = -56 /\ 7205759403792794 < Z.pos m))%Z /\
    (e < -46 \/ (e = -46 /\ Z.pos m < 7029837543348634))%Z.
Proof.
  intros L U. apply ltb_key in L as (_ & _ & L). apply ltb_key in U as (_ & _ & U).
  rewrite SF0_1 in L. rewrite SF99_9 in U.
  pose proof (Prim2SF_valid v) as V.
  destruct (Prim2SF v) as [s | s | | s m e]; unfold lex_lt in L, U; cbn in L, U;
    try (destruct s); try lia.
  exists m, e. split; [reflexivity|].
  split; [|split; lia].
  split; [eapply valid_normal_mantissa; eauto; lia | eapply valid_mantissa_bound; eauto].
Qed.

Lemma tenths_inner (m : positive) (e : Z) :
  (2 ^ 52 <= Z.pos m < 2 ^ 53)%Z ->
  (-56 < e \/ (e = -56 /\ 7205759403792794 < Z.pos m))%Z ->
  (e < -46 \/ (e = -46 /\ Z.pos m < 7029837543348634))%Z ->
  (1 <= tenths m e <= 999)%Z.
Proof.
  intros Hm L U.
  change (2 ^ 52)%Z with 4503599627370496%Z in Hm.
  change (2 ^ 53)%Z with 9007199254740992%Z in Hm.
  rewrite tenths_round_half_even by lia.
  set (den := (2 ^ (- e))%Z). set (num := (Z.pos m * 10)%Z).
  assert (0 < den)%Z as Hd by (apply Z.pow_pos_nonneg; lia).
  assert (den <= num)%Z as Lo.
  { subst den num. destruct L as [L | [-> L]].
    - assert (2 ^ (- e) <= 2 ^ 55)%Z by (apply Z.pow_le_mono_r; lia).
      change (2 ^ 55)%Z with 36028797018963968%Z in *. lia.
    - change (2 ^ (- -56))%Z with 72057594037927936%Z. lia. }
  assert (2 * num < 1999 * den)%Z as Hi.
  { subst den num. destruct U as [U | [-> U]].
    - assert (2 ^ 47 <= 2 ^ (- e))%Z by (apply Z.pow_le_mono_r; lia).
      change (2 ^ 47)%Z with 140737488355328%Z in *. lia.
    - change (2 ^ (- -46))%Z with 70368744177664%Z. lia. }
  pose proof (Z.div_mod num den ltac:(lia)) as Hdm.
  pose proof (Z.mod_pos_bound num den Hd) as Hr.
  pose proof (round_half_even_bounds num Hd) as B.
  unfold round_half_even in *.
  set (q := (num / den)%Z) in *. set (r := (num mod den)%Z) in *.
  assert (1 <= q <= 999)%Z as Hq by nia.
  split; [lia|].
  destruct (Z.compare_spec (2 * r) den) as [C | C | C]; try lia.
  - assert (q < 999)%Z by nia. destruct (Z.even q); lia.
  - assert (q < 999)%Z by nia. lia.
Qed.

Lemma tenths_mono (m1 m2 : positive) (e1 e2 : Z) :
  (Z.pos m1 < 2 ^ 53)%Z -> (2 ^ 52 <= Z.pos m2)%Z ->
  (e1 < 0)%Z -> (e2 < 0)%Z ->
  (e1 < e2 \/ (e1 = e2 /\ Z.pos m1 <= Z.pos m2))%Z ->
  (tenths m1 e1 <= tenths m2 e2)%Z.
Proof.
  intros H1 H2 N1 N2 L.
  change (2 ^ 52)%Z with 4503599627370496%Z in H2.
  change (2 ^ 53)%Z with 9007199254740992%Z in H1.
  rewrite !tenths_round_half_even by lia.
  assert (0 < 2 ^ (- e1))%Z as D1 by (apply Z.pow_pos_nonneg; lia).
  assert (0 < 2 ^ (- e2))%Z as D2 by (apply Z.pow_pos_nonneg; lia).
  rewrite <- (round_half_even_scale (Z.pos m1 * 10) D1 D2).
  rewrite <- (round_half_even_scale (Z.pos m2 * 10) D2 D1).
  rewrite (Z.mul_comm (2 ^ (- e2)) (2 ^ (- e1))).
  apply round_half_even_mono; [lia|].
  destruct L as [L | [-> L]]; [|nia].
  replace (- e1)%Z with (- e2 + (e2 - e1))%Z by lia.
  rewrite Z.pow_add_r by lia.
  assert (2 ^ 1 <= 2 ^ (e2 - e1))%Z as P by (apply Z.pow_le_mono_r; lia).
  change (2 ^ 1)%Z with 2%Z in P.
  set (a := (2 ^ (- e2))%Z) in *. set (b := (2 ^ (e2 - e1))%Z) in *.
  assert (Z.pos m1 <= Z.pos m2 * b)%Z as Q by nia.
  assert (Z.pos m1 * a <= Z.pos m2 * b * a)%Z by (apply Z.mul_le_mono_nonneg_r; lia).
  lia.
Qed.

Lemma inner_tenths_checked : forallb inner_tenth_ok (seq 1 999) = true.
Proof. vm_compute. reflexivity. Qed.

Lemma inner_tenth_table (k : Z) :
  (1 <= k <= 999)%Z ->
  (f0_1 <=? nearest_tenth false k)%float = true /\
  (nearest_tenth false k <=? f99_9)%float = true /\
  (nearest_tenth false k <=? nearest_tenth false (k + 1))%float = true.
Proof.
  intros Hk. pose proof inner_tenths_checked as T.
  rewrite forallb_forall in T. specialize (T (Z.to_nat k)).
  unfold inner_tenth_ok in T.
  rewrite Nat2Z.inj_succ, Z2Nat.id in T by lia.
  assert (In (Z.to_nat k) (seq 1 999)) as I by (apply in_seq; lia).
  apply T in I. apply andb_prop in I as [I I3]. apply andb_prop in I as [I1 I2].
  auto.
Qed.

Lemma nearest_tenth_mono (k1 k2 : Z) :
  (1 <= k1)%Z -> (k1 <= k2)%Z -> (k2 <= 999)%Z ->
  (nearest_tenth false k1 <=? nearest_tenth false k2)%float = true.
Proof.
  intros L H U.
  replace k2 with (k1 + Z.of_nat (Z.to_nat (k2 - k1)))%Z in * by lia.
  induction (Z.to_nat (k2 - k1)) as [| n IH].
  - rewrite Z.add_0_r. destruct (@inner_tenth_table k1) as (T & _ & _); [lia|].
    apply leb_not_nan in T as [_ T]. now apply leb_refl.
  - rewrite Nat2Z.inj_succ in *.
    eapply leb_trans; [apply IH; lia|].
    replace (k1 + Z.succ (Z.of_nat n))%Z with (k1 + Z.of_nat n + 1)%Z by lia.
    apply inner_tenth_table. lia.
Qed.

(** [round(., 1)] on the inner cells: between 0.1 and 99.9, and monotone. *)
Lemma round1_inner (v : float) :
  (f0_1 <? v)%float = true -> (v <? f99_9)%float = true ->
  (f0_1 <=? round1 v)%float = true /\ (round1 v <=? f99_9)%float = true.
Proof.
  intros L U. destruct (inner_float L U) as (m & e & E & Hm & Lo & Hi).
  unfold round1. rewrite E.
  destruct (@inner_tenth_table (tenths m e)) as (T1 & T2 & _); [now apply tenths_inner | auto].
Qed.

Lemma round1_inner_mono (v u : float) :
  (f0_1 <? v)%float = true -> (v <? f99_9)%float = true ->
  (f0_1 <? u)%float = true -> (u <? f99_9)%float = true ->
  (v <=? u)%float = true ->
  (round1 v <=? round1 u)%float = true.
Proof.
  intros Lv Uv Lu Uu H.
  destruct (inner_float Lv Uv) as (m1 & e1 & E1 & Hm1 & Lo1 & Hi1).
  destruct (inner_float Lu Uu) as (m2 & e2 & E2 & Hm2 & Lo2 & Hi2).
  apply leb_key in H as (_ & _ & H). rewrite E1, E2 in H. cbn in H.
  unfold round1. rewrite E1, E2.
  pose proof (tenths_inner Hm1 Lo1 Hi1). pose proof (tenths_inner Hm2 Lo2 Hi2).
  apply nearest_tenth_mono; try lia.
  apply tenths_mono; lia.
Qed.

(** ** More on one frame *)

Lemma has_shape_cell {A : Type} (m : list (list A)) (rows cols r c : nat) :
  has_shape m rows cols -> r < rows -> c < cols -> exists a, cell m r c = Some a.
Proof.
  intros [L F] Hr Hc. unfold cell.
  destruct (nth_error m r) as [row |] eqn:E.
  - rewrite Forall_forall in F. specialize (F row (nth_error_In _ _ E)).
    destruct (nth_error row c) as [a |] eqn:Ec; [eauto|].
    apply nth_error_None in Ec. lia.
  - apply nth_error_None in E. lia.
Qed.

Lemma mask_fits_shape (m : mask) (geo_info : geo) :
  mask_fits m geo_info = true -> has_shape m (grid_rows geo_info) (grid_cols geo_info).
Proof.
  unfold mask_fits. intros F.
  apply andb_prop in F as [F1 F2]. apply andb_prop in F1 as [_ F1].
  split; [now apply Nat.eqb_eq|].
  apply Forall_forall. intros row Hrow. rewrite forallb_forall in F2.
  now apply Nat.eqb_eq, F2.
Qed.

Lemma frame_stats_extremes (np_mean : list float -> float) (g : grid) (n : nat) :
  (s_min (frame_stats np_mean g n) = None <-> s_max (frame_stats np_mean g n) = None) /\
  forall lo hi,
    s_min (frame_stats np_mean g n) = Some lo ->
    s_max (frame_stats np_mean g n) = Some hi ->
    (f0_1 <=? lo)%float = true /\ (lo <=? hi)%float = true /\ (hi <=? f99_9)%float = true.
Proof.
  cbn [frame_stats s_min s_max].
  pose proof (inner_cells_no_nan (valid_cells_no_nan g)) as N.
  pose proof (inner_cells_spec (valid_cells g)) as S.
  destruct (inner_cells (valid_cells g)) as [| x l] eqn:I; cbn [List.length Nat.ltb Nat.leb].
  - split; [tauto | discriminate].
  - split; [split; discriminate|]. intros lo hi [= <-] [= <-].
    destruct (@np_min_spec (x :: l)) as [A1 A2]; [discriminate | exact N |].
    destruct (@np_max_spec (x :: l)) as [B1 B2]; [discriminate | exact N |].
    pose proof (A2 _ B1) as Le.
    apply S in A1 as (_ & A3 & A4). apply S in B1 as (_ & B3 & B4).
    split; [now apply round1_inner|].
    split; [now apply round1_inner_mono | now apply round1_inner].
Qed.

Lemma count_kept (rm : list bool) : forall rg : list float,
  List.length (filter (fun v => negb (is_nan v))
                 (zip_with (fun (keep : bool) (v : float) => if keep then v else nan) rm rg))
  <= List.length (filter (fun b : bool => b) rm).
Proof.
  induction rm as [| b rm IH]; intros [| v rg]; cbn; try lia.
  specialize (IH rg). destruct b; cbn; [destruct (is_nan v); cbn; lia | lia].
Qed.

Lemma valid_cells_masked (m : mask) : forall g : grid,
  List.length (valid_cells (masked g (Some m))) <= land_cells m.
Proof.
  unfold valid_cells, land_cells, masked.
  induction m as [| rm m IH]; intros [| rg g]; cbn; try lia.
  rewrite !filter_app, !length_app. specialize (IH g). pose proof (count_kept rm rg). lia.
Qed.

Lemma length_concat_shape {A : Type} (g : list (list A)) (rows cols : nat) :
  has_shape g rows cols -> List.length (List.concat g) = rows * cols.
Proof.
  intros [L F]. subst rows. induction F as [| row g Hrow F IH]; cbn; trivial.
  rewrite length_app. lia.
Qed.

Lemma filter_length_le {A : Type} (f : A -> bool) (l : list A) :
  List.length (filter f l) <= List.length l.
Proof. induction l as [| a l IH]; cbn; [lia|]. destruct (f a); cbn; lia. Qed.

(** X1.  The extremes of the statistics: [min] is reported exactly when
    [max] is, and then 0.1 <= min <= max <= 99.9.  The filter keeps the cells
    strictly between 0.1 and 99.9, and rounding to one decimal keeps their
    least and greatest cell in order and within these bounds. *)
Theorem stats_extremes_ordered
    (scipy_interpolator :
       method -> list (float * float) -> list float -> result (float -> float -> float))
    (np_mean : list float -> float)
    (stations : list station) (geo_info : geo) (w w' : world)
    (gl : grid_list) (st : stats) :
  interpolate_humidity scipy_interpolator np_mean stations geo_info w
  = (Ok (Some gl, Stats st), w') ->
  (s_min st = None <-> s_max st = None) /\
  forall lo hi, s_min st = Some lo -> s_max st = Some hi ->
    (f0_1 <=? lo)%float = true /\ (lo <=? hi)%float = true /\ (hi <=? f99_9)%float = true.
Proof.
  intros H.
  destruct (interpolate_humidity_returned _ _ _ _ _ H)
    as (ip & land_mask & _ & _ & _ & _ & _ & E).
  injection E as ->. apply frame_stats_extremes.
Qed.

Lemma stats_extremes_ordered_witness :
  (s_min stats_2x3 = None <-> s_max stats_2x3 = None) /\
  forall lo hi, s_min stats_2x3 = Some lo -> s_max stats_2x3 = Some hi ->
    (f0_1 <=? lo)%float = true /\ (lo <=? hi)%float = true /\ (hi <=? f99_9)%float = true.
Proof.
  apply (@stats_extremes_ordered plane_interpolator mean stations4 (unit_square 2 3)
           (fresh FileMissing) (printed [WarnNotFound] (fresh FileMissing))
           grid_2x3 stats_2x3).
  reflexivity.
Defined.

(** X2.  [valid_points] never exceeds the number of cells of the target
    grid, and under a land mask it never exceeds the number of cells that the
    mask marks [True]. *)
Theorem valid_points_bounded
    (scipy_interpolator :
       method -> list (float * float) -> list float -> result (float -> float -> float))
    (np_mean : list float -> float)
    (stations : list station) (geo_info : geo) (w w' : world)
    (gl : grid_list) (st : stats) :
  interpolate_humidity scipy_interpolator np_mean stations geo_info w
  = (Ok (Some gl, Stats st), w') ->
  valid_points st <= grid_rows geo_info * grid_cols geo_info /\
  forall m, get_land_mask w = (Ok (Some m), w') -> valid_points st <= land_cells m.
Proof.
  intros H.
  destruct (interpolate_humidity_returned _ _ _ _ _ H)
    as (ip & land_mask & _ & _ & G & F & _ & E).
  injection E as ->. cbn [frame_stats valid_points]. split.
  - rewrite <- (length_concat_shape (@frame_grid_shape ip geo_info land_mask F)).
    apply filter_length_le.
  - intros m G'. rewrite G in G'. injection G' as ->.
    apply (valid_cells_masked m (clip_grid (sample ip geo_info))).
Qed.

Lemma valid_points_bounded_witness :
  valid_points stats_masked <= grid_rows (unit_square 2 2) * grid_cols (unit_square 2 2) /\
  forall m,
    get_land_mask (fresh (FilePresent (Ok reference)))
    = (Ok (Some m), mkWorld (FilePresent (Ok reference)) (Some mask_2x2) []) ->
    valid_points stats_masked <= land_cells m.
Proof.
  apply (@valid_points_bounded linear_only mean stations4 (unit_square 2 2)
           (fresh (FilePresent (Ok reference)))
           (mkWorld (FilePresent (Ok reference)) (Some mask_2x2) [])
           grid_masked stats_masked).
  reflexivity.
Defined.

(** X3.  Cells without data: in a returned frame every cell of the target
    grid is present, and it is [None] exactly when the interpolant gave NaN
    at its coordinates (outside the convex hull of the stations) or the land
    mask marks it [False].  Clipping never turns NaN into a number, and an
    infinite value is clipped to a bound, not dropped. *)
Theorem no_data_cells
    (scipy_interpolator :
       method -> list (float * float) -> list float -> result (float -> float -> float))
    (np_mean : list float -> float)
    (stations : list station) (geo_info : geo) (w w' : world)
    (gl : grid_list) (i : info) :
  interpolate_humidity scipy_interpolator np_mean stations geo_info w
  = (Ok (Some gl, i), w') ->
  exists ip land_mask,
    interpolant scipy_interpolator (points_of stations) (values_of stations) = Ok ip /\
    get_land_mask w = (Ok land_mask, w') /\
    forall r c lo la,
      nth_error (target_lon geo_info) c = Some lo ->
      nth_error (target_lat geo_info) r = Some la ->
      cell gl r c <> None /\
      (cell gl r c = Some None <->
       is_nan (ip lo la) = true \/
       exists m, land_mask = Some m /\ cell m r c = Some false).
Proof.
  intros H.
  destruct (interpolate_humidity_returned _ _ _ _ _ H)
    as (ip & land_mask & _ & I & G & F & -> & _).
  exists ip, land_mask. split; [exact I|]. split; [exact G|].
  intros r c lo la Hc Hr.
  assert (c < grid_cols geo_info) as Lc.
  { rewrite <- (linspace_length (bottom_left_lon geo_info) (top_right_lon geo_info)).
    apply nth_error_Some. unfold target_lon in Hc. congruence. }
  assert (r < grid_rows geo_info) as Lr.
  { rewrite <- (linspace_length (bottom_left_lat geo_info) (top_right_lat geo_info)).
    apply nth_error_Some. unfold target_lat in Hr. congruence. }
  rewrite to_grid_list_cell. unfold frame_grid, masked, clip_grid.
  destruct land_mask as [m |].
  - rewrite cell_zip_with, cell_map, (@sample_cell ip geo_info r c lo la Hc Hr). cbn [option_map].
    destruct (has_shape_cell (r:=r) (c:=c) (@mask_fits_shape m geo_info (F m eq_refl)) Lr Lc) as [keep K].
    rewrite K. destruct keep; cbn [option_map].
    + rewrite np_clip_nan. destruct (is_nan (ip lo la)) eqn:N.
      * split; [discriminate|]. split; auto.
      * split; [discriminate|]. split; [discriminate|].
        intros [? | (m' & [= <-] & K')]; congruence.
    + change (is_nan nan) with true. cbn iota. split; [discriminate|].
      split; trivial. intros _. right. eauto.
  - rewrite cell_map, (@sample_cell ip geo_info r c lo la Hc Hr). cbn [option_map].
    rewrite np_clip_nan. destruct (is_nan (ip lo la)) eqn:N.
    + split; [discriminate|]. split; auto.
    + split; [discriminate|]. split; [discriminate|].
      intros [? | (m' & ? & _)]; congruence.
Qed.

Lemma no_data_cells_witness :
  exists ip land_mask,
    interpolant linear_only (points_of stations4) (values_of stations4) = Ok ip /\
    get_land_mask (fresh (FilePresent (Ok reference)))
    = (Ok land_mask, mkWorld (FilePresent (Ok reference)) (Some mask_2x2) []) /\
    forall r c lo la,
      nth_error (target_lon (unit_square 2 2)) c = Some lo ->
      nth_error (target_lat (unit_square 2 2)) r = Some la ->
      cell grid_masked r c <> None /\
      (cell grid_masked r c = Some None <->
       is_nan (ip lo la) = true \/
       exists m, land_mask = Some m /\ cell m r c = Some false).
Proof.
  apply (@no_data_cells linear_only mean stations4 (unit_square 2 2)
           (fresh (FilePresent (Ok reference)))
           (mkWorld (FilePresent (Ok reference)) (Some mask_2x2) [])
           grid_masked (Stats stats_masked)).
  reflexivity.
Defined.

(** ** The run over the weather files *)

Lemma quiet_refl (p : process) : quiet p p.
Proof. now unfold quiet. Qed.

Lemma quiet_trans (p q r : process) : quiet p q -> quiet q r -> quiet p r.
Proof. unfold quiet. intros (A & B & C) (D & E & F). repeat split; congruence. Qed.

Lemma quiet_mask_at (p p' : process) : quiet p p' -> mask_at p' = mask_at p.
Proof. unfold quiet, mask_at. intros (-> & -> & _). reflexivity. Qed.

Lemma quiet_warnings_at (p p' : process) : quiet p p' -> warnings_at p' = warnings_at p.
Proof. unfold quiet, warnings_at. intros (-> & -> & _). reflexivity. Qed.

Lemma say_quiet (l : line) (p : process) :
  is_warning l = false -> exists p', say l p = (Ok tt, p') /\ quiet p p'.
Proof.
  intros H. eexists. split; [reflexivity|]. unfold quiet. cbn.
  rewrite filter_app. cbn. rewrite H. now rewrite app_nil_r.
Qed.

Lemma filter_S3Error (msgs : list string) : filter is_warning (map S3Error msgs) = [].
Proof. induction msgs; cbn; trivial. Qed.

Lemma ask_quiet {A : Type} (answer : A * list string) (p : process) :
  exists p', ask answer p = (Ok (fst answer), p') /\ quiet p p'.
Proof.
  eexists. split; [reflexivity|]. unfold quiet. cbn.
  now rewrite filter_app, filter_S3Error, app_nil_r.
Qed.

Lemma filter_Warning (log : list output) : filter is_warning (map Warning log) = map Warning log.
Proof. induction log; cbn; congruence. Qed.

Lemma loaded_mask_silent (fs : file_state) (m : mask) :
  fst (loaded_mask fs) = Some m -> snd (loaded_mask fs) = [].
Proof.
  destruct fs as [| [j | e]]; cbn; try discriminate.
  destruct (mask_of_temp_data j); cbn; [trivial | discriminate].
Qed.

(** The target grid has rows: a grid returned is never falsy. *)
Lemma GEO_INFO_grid_truthy (ip : float -> float -> float) (land_mask : option mask) :
  (forall m, land_mask = Some m -> mask_fits m GEO_INFO = true) ->
  exists row rows, to_grid_list (frame_grid ip GEO_INFO land_mask) = row :: rows.
Proof.
  intros F. pose proof (to_grid_list_shape (@frame_grid_shape ip GEO_INFO land_mask F)) as [L _].
  destruct (to_grid_list _) as [| row rows]; [discriminate | eauto].
Qed.

Section RunProofs.

Variable scipy_interpolator :
  method -> list (float * float) -> list float -> result (float -> float -> float).
Variable np_mean : list float -> float.
Variable reader : S3WeatherReader.


Lemma call_get_land_mask (p : process) :
  get_land_mask (mkWorld (reference_file p) (cached_mask p) [])
  = (Ok (mask_at p), mkWorld (reference_file p) (mask_at p) (warnings_at p)).
Proof.
  rewrite get_land_mask_run. unfold mask_at, warnings_at. cbn.
  destruct (cached_mask p) as [m |]; trivial.
  now destruct (loaded_mask (reference_file p)).
Qed.

Lemma call_few (stations : list station) (p : process) :
  (List.length (filter is_valid_station stations) <? 4)%nat = true ->
  exists p',
    call (interpolate_humidity scipy_interpolator np_mean stations GEO_INFO) p = (Ok (None, Error "Not enough valid stations"), p')
    /\ quiet p p'.
Proof.
  intros H. apply Nat.ltb_lt in H. unfold call.
  rewrite (@interpolate_humidity_few scipy_interpolator np_mean stations GEO_INFO _ H).
  eexists. split; [reflexivity|]. unfold quiet. cbn. now rewrite app_nil_r.
Qed.

Lemma call_enough (stations : list station) (p : process) :
  (List.length (filter is_valid_station stations) <? 4)%nat = false ->
  match interpolant scipy_interpolator (points_of stations) (values_of stations) with
  | Raise e =>
      exists p', call (interpolate_humidity scipy_interpolator np_mean stations GEO_INFO) p = (Raise e, p') /\ quiet p p'
  | Ok ip =>
      let g := frame_grid ip GEO_INFO (mask_at p) in
      let answer := (Some (to_grid_list g),
                     Stats (frame_stats np_mean g
                              (List.length (filter is_valid_station stations)))) in
      call (interpolate_humidity scipy_interpolator np_mean stations GEO_INFO) p =
      (match mask_at p with
       | Some m => if mask_fits m GEO_INFO then Ok answer
                   else Raise (if mask_size0 m then TypeError else IndexError)
       | None => Ok answer
       end, after_mask p)
  end.
Proof.
  intros H. apply Nat.ltb_ge in H. unfold call.
  rewrite (@interpolate_humidity_run scipy_interpolator np_mean stations GEO_INFO _ _ _ H
             (call_get_land_mask p)).
  destruct (interpolant _ _ _) as [ip | e].
  - cbn zeta. unfold after_mask.
    destruct (mask_at p) as [m |]; [destruct (mask_fits m GEO_INFO)|]; reflexivity.
  - eexists. split; [reflexivity|]. unfold quiet. cbn. now rewrite app_nil_r.
Qed.

Lemma after_mask_facts (p : process) :
  reference_file (after_mask p) = reference_file p /\
  mask_at (after_mask p) = mask_at p /\
  warnings_at (after_mask p) = warnings_at p /\
  cached_mask (after_mask p) = mask_at p /\
  filter is_warning (console (after_mask p))
  = (filter is_warning (console p) ++ map Warning (warnings_at p))%list.
Proof.
  unfold after_mask, mask_at, warnings_at. cbn.
  rewrite filter_app, filter_Warning.
  destruct (cached_mask p) as [m |]; [repeat split; trivial|].
  destruct (fst (loaded_mask (reference_file p))) as [m |] eqn:E; [|repeat split; trivial].
  rewrite (loaded_mask_silent _ E). repeat split; trivial.
Qed.

Lemma usable_spec (f : file_info) :
  usable reader f = true <->
  exists stations, stations_of reader f = Some stations /\
                   (List.length (filter is_valid_station stations) <? 4)%nat = false.
Proof.
  unfold usable. destruct (stations_of reader f) as [s |].
  - rewrite Nat.leb_le. split.
    + intros H. exists s. split; trivial. now apply Nat.ltb_ge.
    + intros (s' & [= <-] & H). now apply Nat.ltb_ge.
  - split; [discriminate | now intros (? & ? & _)].
Qed.

Lemma frame_of_file_unusable (land_mask : option mask) (f : file_info) :
  usable reader f = false -> frame_of_file scipy_interpolator np_mean reader land_mask f = Ok None.
Proof.
  unfold usable, frame_of_file. destruct (stations_of reader f) as [s |]; trivial.
  intros H. apply Nat.leb_gt in H. apply Nat.ltb_lt in H. now rewrite H.
Qed.

Lemma frame_of_file_usable (land_mask : option mask) (f : file_info) (o : option frame) :
  usable reader f = true -> frame_of_file scipy_interpolator np_mean reader land_mask f = Ok o ->
  exists stations ip,
    stations_of reader f = Some stations /\
    4 <= List.length (filter is_valid_station stations) /\
    interpolant scipy_interpolator (points_of stations) (values_of stations) = Ok ip /\
    (forall m, land_mask = Some m -> mask_fits m GEO_INFO = true) /\
    o = Some (mkFrame (file_time f)
                (Stats (frame_stats np_mean (frame_grid ip GEO_INFO land_mask)
                          (List.length (filter is_valid_station stations))))
                (to_grid_list (frame_grid ip GEO_INFO land_mask))).
Proof.
  intros U. apply usable_spec in U as (s & E & L). unfold frame_of_file. rewrite E, L.
  destruct (interpolant _ _ _) as [ip | e] eqn:I; [|discriminate].
  cbv zeta. intros H. exists s, ip.
  split; trivial. split; [now apply Nat.ltb_ge|]. split; trivial.
  set (fr := mkFrame (file_time f)
               (Stats (frame_stats np_mean (frame_grid ip GEO_INFO land_mask)
                         (List.length (filter is_valid_station s))))
               (to_grid_list (frame_grid ip GEO_INFO land_mask))) in *.
  clearbody fr.
  destruct land_mask as [m |].
  - destruct (mask_fits m GEO_INFO) eqn:F; [|discriminate].
    split; [now intros ? [= <-] | congruence].
  - split; [discriminate | congruence].
Qed.

(** The loop, as a function of the mask at its start. *)
Lemma process_files_spec (total : nat) (files : list file_info) :
  forall (i : nat) (frames : list frame) (p : process),
  exists p',
    process_files scipy_interpolator np_mean reader total files i frames p
    = (extend frames (frames_of scipy_interpolator np_mean reader (mask_at p) files), p') /\
    reference_file p' = reference_file p /\
    mask_at p' = mask_at p /\
    (forall new, frames_of scipy_interpolator np_mean reader (mask_at p) files = Ok new ->
       cached_mask p' = (if existsb (usable reader) files then mask_at p else cached_mask p) /\
       filter is_warning (console p') =
       (filter is_warning (console p)
        ++ flat_map (fun _ => map Warning (warnings_at p)) (filter (usable reader) files))%list).
Proof.
  induction files as [| f rest IH]; intros i frames p.
  - exists p. cbn. rewrite !app_nil_r. repeat split; trivial.
  - cbn [process_files].
    assert (exists p1, (if ((i + 1) mod 10 =? 0)%nat || (i =? 0)%nat
                        then say (Progress (i + 1) total) else done tt) p = (Ok tt, p1)
                       /\ quiet p p1) as (p1 & E1 & Q1).
    { destruct (_ || _); [now apply say_quiet | exists p; split; [reflexivity | apply quiet_refl]]. }
    destruct (ask_quiet (get_json reader (file_key f)) p1) as (p2 & E2 & Q2).
    pose proof (quiet_trans Q1 Q2) as Q.
    unfold and_then at 1. rewrite E1. unfold and_then at 1. rewrite E2.
    pose proof (quiet_mask_at Q) as M. pose proof (quiet_warnings_at Q) as W.
    destruct Q as (Qf & Qc & Qw).
    cbn [frames_of existsb filter].
    destruct (fst (get_json reader (file_key f))) as [[| stations] |] eqn:D.
    + (* a document without 'data' *)
      assert (usable reader f = false) as U by (unfold usable, stations_of; now rewrite D).
      rewrite U, (frame_of_file_unusable _ _ U). cbn [orb].
      unfold and_then at 1, done at 1.
      destruct (IH (S i) frames p2) as (p' & E & F' & M' & K). exists p'.
      rewrite M in E, K. rewrite E.
      split; [now destruct (frames_of _ _ _ (mask_at p) rest)|].
      split; [congruence|]. split; [congruence|].
      intros new Hn. destruct (frames_of _ _ _ (mask_at p) rest) as [l |] eqn:R; [|discriminate].
      destruct (K l eq_refl) as [K1 K2]. rewrite K1, K2, W, Qc, Qw. now split.
    + assert (stations_of reader f = Some stations) as St by (unfold stations_of; now rewrite D).
      destruct (List.length (filter is_valid_station stations) <? 4)%nat eqn:L.
      * (* fewer than 4 valid stations *)
        assert (usable reader f = false) as U.
        { unfold usable. rewrite St. apply Nat.ltb_lt in L. apply Nat.leb_gt. lia. }
        rewrite U, (frame_of_file_unusable _ _ U). cbn [orb].
        destruct (call_few stations p2 L) as (p3 & E3 & Q3).
        unfold and_then at 1. unfold and_then at 1. rewrite E3. unfold done at 1.
        destruct (IH (S i) frames p3) as (p' & E & F' & M' & K). exists p'.
        pose proof (quiet_mask_at Q3) as M3. pose proof (quiet_warnings_at Q3) as W3.
        destruct Q3 as (Q3f & Q3c & Q3w).
        rewrite M3, M in E, K. rewrite E.
        split; [now destruct (frames_of _ _ _ (mask_at p) rest)|].
        split; [congruence|]. split; [congruence|].
        intros new Hn. destruct (frames_of _ _ _ (mask_at p) rest) as [l |] eqn:R; [|discriminate].
        destruct (K l eq_refl) as [K1 K2].
        rewrite K1, K2, W3, W, Q3c, Qc, Q3w, Qw. now split.
      * assert (usable reader f = true) as U.
        { unfold usable. rewrite St. apply Nat.ltb_ge in L. now apply Nat.leb_le. }
        rewrite U. cbn [orb flat_map]. unfold frame_of_file. rewrite St, L.
        pose proof (call_enough stations p2 L) as C.
        destruct (interpolant _ _ _) as [ip | e].
        -- cbn zeta in C. unfold and_then at 1. unfold and_then at 1. rewrite C, M.
           destruct (after_mask_facts p2) as (A1 & A2 & A3 & A4 & A5).
           set (fr := mkFrame (file_time f)
                        (Stats (frame_stats np_mean (frame_grid ip GEO_INFO (mask_at p))
                                  (List.length (filter is_valid_station stations))))
                        (to_grid_list (frame_grid ip GEO_INFO (mask_at p)))).
           assert ((forall m, mask_at p = Some m -> mask_fits m GEO_INFO = true) ->
                   (let '(grid_data, stats) :=
                      (Some (to_grid_list (frame_grid ip GEO_INFO (mask_at p))),
                       Stats (frame_stats np_mean (frame_grid ip GEO_INFO (mask_at p))
                                (List.length (filter is_valid_station stations)))) in
                    match grid_data with
                    | Some (row :: rows) =>
                        done (frames ++ [mkFrame (file_time f) stats (row :: rows)])%list
                    | _ => done frames
                    end) (after_mask p2)
                   = (Ok (frames ++ [fr])%list, after_mask p2)) as Good.
           { intros F. subst fr. destruct (GEO_INFO_grid_truthy ip F) as (row & rows & ->).
             reflexivity. }
           assert (exists p',
                     process_files scipy_interpolator np_mean reader total rest (S i)
                       (frames ++ [fr])%list (after_mask p2)
                     = (extend frames
                          match frames_of scipy_interpolator np_mean reader (mask_at p) rest with
                          | Raise e => Raise e
                          | Ok l => Ok (fr :: l)
                          end, p') /\
                     reference_file p' = reference_file p /\
                     mask_at p' = mask_at p /\
                     (forall new,
                        match frames_of scipy_interpolator np_mean reader (mask_at p) rest with
                        | Raise e => Raise e
                        | Ok l => Ok (fr :: l)
                        end = Ok new ->
                        cached_mask p' = mask_at p /\
                        filter is_warning (console p') =
                        (filter is_warning (console p)
                         ++ map Warning (warnings_at p)
                         ++ flat_map (fun _ => map Warning (warnings_at p))
                              (filter (usable reader) rest))%list)) as Rest.
           { destruct (IH (S i) (frames ++ [fr])%list (after_mask p2)) as (p' & E & F' & M' & K).
             exists p'. rewrite A2, M in E, K. rewrite E.
             split; [destruct (frames_of _ _ _ (mask_at p) rest); cbn; trivial;
                     now rewrite <- app_assoc|].
             split; [congruence|]. split; [congruence|].
             intros new Hn. destruct (frames_of _ _ _ (mask_at p) rest) as [l |] eqn:R; [|discriminate].
             destruct (K l eq_refl) as [K1 K2].
             rewrite K1, K2, A3, A4, A5, W, M, Qw.
             split; [now destruct (existsb _ _) | now rewrite <- app_assoc]. }
           destruct (mask_at p) as [m |] eqn:Em.
           ++ destruct (mask_fits m GEO_INFO) eqn:Fit.
              ** rewrite Good; [exact Rest | now intros ? [= <-]].
              ** exists (after_mask p2). cbn [extend].
                 split; [reflexivity|]. split; [congruence|]. split; [congruence|]. discriminate.
           ++ rewrite Good; [exact Rest | discriminate].
        -- destruct C as (p3 & E3 & Q3).
           unfold and_then at 1. unfold and_then at 1. rewrite E3.
           exists p3. cbn [extend]. pose proof (quiet_mask_at Q3). destruct Q3 as (Q3f & _).
           split; [reflexivity|]. split; [congruence|]. split; [congruence|]. discriminate.
    + (* no document *)
      assert (usable reader f = false) as U by (unfold usable, stations_of; now rewrite D).
      rewrite U, (frame_of_file_unusable _ _ U). cbn [orb].
      unfold and_then at 1, done at 1.
      destruct (IH (S i) frames p2) as (p' & E & F' & M' & K). exists p'.
      rewrite M in E, K. rewrite E.
      split; [now destruct (frames_of _ _ _ (mask_at p) rest)|].
      split; [congruence|]. split; [congruence|].
      intros new Hn. destruct (frames_of _ _ _ (mask_at p) rest) as [l |] eqn:R; [|discriminate].
      destruct (K l eq_refl) as [K1 K2]. rewrite K1, K2, W, Qc, Qw. now split.
Qed.

Lemma collect_files_spec (dates : list string) :
  forall (acc : list file_info) (p : process),
  exists p',
    collect_files reader dates acc p
    = (Ok (acc ++ flat_map (fun d => fst (list_files_by_date reader d)) dates)%list, p') /\
    quiet p p'.
Proof.
  induction dates as [| d dates IH]; intros acc p; cbn [collect_files flat_map].
  - exists p. rewrite app_nil_r. split; [reflexivity | apply quiet_refl].
  - destruct (ask_quiet (list_files_by_date reader d) p) as (p1 & E1 & Q1).
    unfold and_then. rewrite E1.
    destruct (IH (acc ++ fst (list_files_by_date reader d))%list p1) as (p' & E & Q).
    exists p'. rewrite E, <- app_assoc. split; [reflexivity | eapply quiet_trans; eauto].
Qed.

Lemma date_filters (start_date end_date : option string) (all_dates : list string) :
  match given end_date with
  | Some e => filter (fun d => (d <=? e)%string)
                match given start_date with
                | Some s => filter (fun d => (s <=? d)%string) all_dates
                | None => all_dates
                end
  | None => match given start_date with
            | Some s => filter (fun d => (s <=? d)%string) all_dates
            | None => all_dates
            end
  end = filter (in_range start_date end_date) all_dates.
Proof.
  unfold in_range.
  destruct (given start_date) as [s |], (given end_date) as [e |];
    induction all_dates as [| d l IH]; cbn [filter andb] in *; trivial;
    rewrite ?andb_true_r; repeat (destruct (_ <=? _)%string; cbn [filter andb]); congruence.
Qed.

(** A run, as a function of the mask at its start. *)
Lemma download_spec (start_date end_date : option string) (max_frames : Z) (p : process) :
  let files := selected_files reader start_date end_date max_frames in
  exists p',
    download_and_interpolate_humidity scipy_interpolator np_mean reader
      start_date end_date max_frames p
    = (frames_of scipy_interpolator np_mean reader (mask_at p) files, p') /\
    reference_file p' = reference_file p /\
    mask_at p' = mask_at p /\
    (forall frames,
       frames_of scipy_interpolator np_mean reader (mask_at p) files = Ok frames ->
       cached_mask p' = (if existsb (usable reader) files then mask_at p else cached_mask p) /\
       filter is_warning (console p') =
       (filter is_warning (console p)
        ++ flat_map (fun _ => map Warning (warnings_at p)) (filter (usable reader) files))%list).
Proof.
  intros files. unfold download_and_interpolate_humidity.
  destruct (@say_quiet ListingDates p eq_refl) as (p1 & E1 & Q1).
  destruct (ask_quiet (list_dates reader) p1) as (p2 & E2 & Q2).
  unfold and_then at 1. rewrite E1. unfold and_then at 1. rewrite E2.
  pose proof (quiet_trans Q1 Q2) as Q12.
  assert (forall q, quiet p q -> files = [] ->
            exists p', (Ok (@nil frame), q)
                       = (frames_of scipy_interpolator np_mean reader (mask_at p) files, p') /\
              reference_file p' = reference_file p /\
              mask_at p' = mask_at p /\
              (forall frames,
                 frames_of scipy_interpolator np_mean reader (mask_at p) files = Ok frames ->
                 cached_mask p' = (if existsb (usable reader) files then mask_at p
                                   else cached_mask p) /\
                 filter is_warning (console p') =
                 (filter is_warning (console p)
                  ++ flat_map (fun _ => map Warning (warnings_at p))
                       (filter (usable reader) files))%list)) as Empty.
  { intros q Q ->. exists q. pose proof (quiet_mask_at Q). destruct Q as (Qf & Qc & Qw).
    cbn. rewrite app_nil_r. repeat split; trivial. }
  assert (forall l : list file_info, (if (max_frames <? Z.of_nat (List.length (@nil file_info)))%Z
                      then slice_from (- max_frames) (@nil file_info) else []) = []) as Cut.
  { intros _. destruct (_ <? _)%Z; trivial. unfold slice_from. now rewrite skipn_nil. }
  subst files. unfold selected_files, listed_files in *. cbv zeta in *.
  destruct (fst (list_dates reader)) as [| first dates] eqn:D.
  - destruct (@say_quiet NoWeatherData p2 eq_refl) as (p3 & E3 & Q3).
    unfold and_then, done. rewrite E3.
    apply Empty; [eapply quiet_trans; eauto | apply (Cut [])].
  - destruct (@say_quiet (FoundDates (List.length (first :: dates)) first
                            (last (first :: dates) first)) p2 eq_refl) as (p3 & E3 & Q3).
    unfold and_then at 1. rewrite E3.
    pose proof (date_filters start_date end_date (first :: dates)) as DF.
    set (ranged := filter (in_range start_date end_date) (first :: dates)) in *.
    assert (match given end_date with
            | Some e => filter (fun d => (d <=? e)%string)
                          match given start_date with
                          | Some s => filter (fun d => (s <=? d)%string) (first :: dates)
                          | None => first :: dates
                          end
            | None => match given start_date with
                      | Some s => filter (fun d => (s <=? d)%string) (first :: dates)
                      | None => first :: dates
                      end
            end = ranged) as DF' by exact DF.
    clear DF. cbv zeta. rewrite DF'.
    pose proof (quiet_trans Q12 Q3) as Q123.
    destruct ranged as [| d0 ranged'] eqn:R.
    + destruct (@say_quiet NoDataInRange p3 eq_refl) as (p4 & E4 & Q4).
      unfold and_then, done. rewrite E4.
      apply Empty; [eapply quiet_trans; eauto | apply (Cut [])].
    + destruct (@say_quiet (ProcessingDates (List.length (d0 :: ranged'))) p3 eq_refl)
        as (p4 & E4 & Q4).
      unfold and_then at 1. rewrite E4.
      destruct (collect_files_spec (d0 :: ranged') [] p4) as (p5 & E5 & Q5).
      unfold and_then at 1. rewrite E5. rewrite app_nil_l.
      set (all_files := flat_map (fun d => fst (list_files_by_date reader d)) (d0 :: ranged')) in *.
      destruct (@say_quiet (TotalFiles (List.length all_files)) p5 eq_refl) as (p6 & E6 & Q6).
      unfold and_then at 1. rewrite E6.
      set (chosen := if (max_frames <? Z.of_nat (List.length all_files))%Z
                     then slice_from (- max_frames) all_files else all_files).
      assert (exists p7,
                (if (max_frames <? Z.of_nat (List.length all_files))%Z
                 then say (Limiting max_frames) ~;; done (slice_from (- max_frames) all_files)
                 else done all_files) p6 = (Ok chosen, p7) /\ quiet p6 p7) as (p7 & E7 & Q7).
      { subst chosen. destruct (_ <? _)%Z.
        - destruct (@say_quiet (Limiting max_frames) p6 eq_refl) as (p7 & E7 & Q7).
          exists p7. unfold and_then, done. rewrite E7. now split.
        - exists p6. split; [reflexivity | apply quiet_refl]. }
      unfold and_then at 1. rewrite E7.
      destruct (@say_quiet (Downloading (List.length chosen)) p7 eq_refl) as (p8 & E8 & Q8).
      unfold and_then at 1. rewrite E8.
      assert (quiet p p8) as Q.
      { repeat (eapply quiet_trans; [eassumption|]). apply quiet_refl. }
      destruct (process_files_spec (List.length chosen) chosen 0 [] p8)
        as (p9 & E9 & F9 & M9 & K9).
      unfold and_then at 1. rewrite E9.
      pose proof (quiet_mask_at Q) as M. pose proof (quiet_warnings_at Q) as W.
      destruct Q as (Qf & Qc & Qw). rewrite M in *.
      destruct (frames_of scipy_interpolator np_mean reader (mask_at p) chosen)
        as [frames | e] eqn:Fr; cbn [extend app].
      * destruct (@say_quiet (Processed (List.length frames)) p9 eq_refl) as (p10 & E10 & Q10).
        unfold and_then, done. rewrite E10. exists p10.
        pose proof (quiet_mask_at Q10). destruct Q10 as (Q10f & Q10c & Q10w).
        split; [reflexivity|]. split; [congruence|]. split; [congruence|].
        intros ? _. destruct (K9 frames eq_refl) as [K1 K2].
        rewrite Q10c, Q10w, K1, K2, W, Qc, Qw. now split.
      * exists p9. split; [reflexivity|]. split; [congruence|]. split; [congruence|].
        discriminate.
Qed.

End RunProofs.

Lemma In_cell {A : Type} (g : list (list A)) (row : list A) (a : A) :
  In row g -> In a row -> exists r c, cell g r c = Some a.
Proof.
  intros Hr Ha. apply In_nth_error in Hr as [r Hr]. apply In_nth_error in Ha as [c Ha].
  exists r, c. unfold cell. now rewrite Hr.
Qed.

Lemma frame_cells_percent (ip : float -> float -> float) (geo_info : geo)
    (land_mask : option mask) :
  Forall (Forall percent_or_null) (to_grid_list (frame_grid ip geo_info land_mask)).
Proof.
  unfold to_grid_list. apply Forall_map, Forall_forall. intros row Hrow.
  apply Forall_map, Forall_forall. intros u Hu.
  destruct (is_nan u) eqn:N; cbn; trivial.
  destruct (@In_cell _ _ _ _ Hrow Hu) as (r & c & C).
  exact (proj1 (round1_percent u (frame_grid_cell _ _ _ _ _ C N))).
Qed.

Section FramesOf.

Variable scipy_interpolator :
  method -> list (float * float) -> list float -> result (float -> float -> float).
Variable np_mean : list float -> float.
Variable reader : S3WeatherReader.
Variable land_mask : option mask.

Lemma frames_of_times (files : list file_info) : forall frames,
  frames_of scipy_interpolator np_mean reader land_mask files = Ok frames ->
  map frame_time frames = map file_time (filter (usable reader) files).
Proof.
  induction files as [| f rest IH]; cbn [frames_of filter]; intros frames H.
  - now injection H as <-.
  - destruct (frame_of_file _ _ _ _ f) as [o | e] eqn:E; [|discriminate].
    destruct (frames_of _ _ _ _ rest) as [l | e]; [|discriminate]. injection H as <-.
    specialize (IH l eq_refl).
    destruct (usable reader f) eqn:U.
    + destruct (frame_of_file_usable _ _ _ _ _ U E) as (s & ip & _ & _ & _ & _ & ->).
      cbn. now rewrite IH.
    + rewrite (frame_of_file_unusable _ _ _ _ _ U) in E. now injection E as <-.
Qed.

Lemma frames_of_each (files : list file_info) : forall frames,
  frames_of scipy_interpolator np_mean reader land_mask files = Ok frames ->
  (forall m, existsb (usable reader) files = true -> land_mask = Some m ->
             mask_fits m GEO_INFO = true) /\
  Forall (fun fr =>
            exists f stations ip,
              In f files /\ stations_of reader f = Some stations /\
              4 <= List.length (filter is_valid_station stations) /\
              interpolant scipy_interpolator (points_of stations) (values_of stations) = Ok ip /\
              fr = mkFrame (file_time f)
                     (Stats (frame_stats np_mean (frame_grid ip GEO_INFO land_mask)
                               (List.length (filter is_valid_station stations))))
                     (to_grid_list (frame_grid ip GEO_INFO land_mask))) frames.
Proof.
  induction files as [| f rest IH]; cbn [frames_of existsb]; intros frames H.
  - injection H as <-. split; [discriminate | constructor].
  - destruct (frame_of_file _ _ _ _ f) as [o | e] eqn:E; [|discriminate].
    destruct (frames_of _ _ _ _ rest) as [l | e]; [|discriminate]. injection H as <-.
    destruct (IH l eq_refl) as [IH1 IH2].
    assert (Forall (fun fr =>
            exists f0 stations ip,
              In f0 (f :: rest) /\ stations_of reader f0 = Some stations /\
              4 <= List.length (filter is_valid_station stations) /\
              interpolant scipy_interpolator (points_of stations) (values_of stations) = Ok ip /\
              fr = mkFrame (file_time f0)
                     (Stats (frame_stats np_mean (frame_grid ip GEO_INFO land_mask)
                               (List.length (filter is_valid_station stations))))
                     (to_grid_list (frame_grid ip GEO_INFO land_mask))) l) as Tail.
    { eapply Forall_impl; [|exact IH2]. cbn. intros fr (f0 & s & ip & I & R).
      exists f0, s, ip. split; [now right | exact R]. }
    destruct (usable reader f) eqn:U.
    + destruct (frame_of_file_usable _ _ _ _ _ U E) as (s & ip & S1 & S2 & S3 & S4 & ->).
      split; [intros m _; apply S4|].
      constructor; [|exact Tail]. exists f, s, ip. repeat split; trivial. now left.
    + rewrite (frame_of_file_unusable _ _ _ _ _ U) in E. injection E as <-.
      split; [exact IH1 | exact Tail].
Qed.

(** The frames cannot be made exactly when some usable file has no
    interpolant, or there is a usable file and the mask does not fit. *)
Lemma frames_of_raises (files : list file_info) :
  (exists e, frames_of scipy_interpolator np_mean reader land_mask files = Raise e) <->
  exists f stations,
    In f files /\ stations_of reader f = Some stations /\
    4 <= List.length (filter is_valid_station stations) /\
    ((exists e, interpolant scipy_interpolator (points_of stations) (values_of stations)
                = Raise e) \/
     (exists m, land_mask = Some m /\ mask_fits m GEO_INFO = false)).
Proof.
  induction files as [| f rest IH]; cbn [frames_of].
  - split; [intros [e H]; discriminate | intros (f & s & [] & _)].
  - destruct (frame_of_file _ _ _ _ f) as [o | e] eqn:E.
    + assert (forall s, stations_of reader f = Some s ->
                        4 <= List.length (filter is_valid_station s) ->
                        (exists ip, interpolant scipy_interpolator (points_of s) (values_of s)
                                    = Ok ip) /\
                        forall m, land_mask = Some m -> mask_fits m GEO_INFO = true) as Fine.
      { intros s S L.
        assert (usable reader f = true) as U.
        { apply usable_spec. exists s. split; trivial. now apply Nat.ltb_ge. }
        destruct (frame_of_file_usable _ _ _ _ _ U E) as (s' & ip & S1 & _ & S3 & S4 & _).
        rewrite S in S1. injection S1 as <-. eauto. }
      split.
      * intros [e H]. destruct (frames_of _ _ _ _ rest) as [l | e'] eqn:R; [discriminate|].
        destruct IH as [IH _]. destruct IH as (f0 & s & I & K); [eauto|].
        exists f0, s. split; [now right | exact K].
      * intros (f0 & s & [<- | I] & S & L & K).
        -- destruct (Fine s S L) as [[ip Hip] Hm].
           destruct K as [[e K] | (m & K1 & K2)]; [congruence|].
           rewrite (Hm m K1) in K2. discriminate.
        -- destruct IH as [_ IH]. destruct IH as [e R]; [exists f0, s; auto|].
           rewrite R. eauto.
    + split; [|eauto]. intros _. unfold frame_of_file in E.
      destruct (stations_of reader f) as [s |] eqn:S; [|discriminate].
      destruct (List.length (filter is_valid_station s) <? 4)%nat eqn:L; [discriminate|].
      apply Nat.ltb_ge in L. exists f, s. split; [now left|]. split; trivial. split; trivial.
      destruct (interpolant _ _ _) as [ip | e']; [|eauto].
      right. destruct land_mask as [m |]; [|discriminate].
      destruct (mask_fits m GEO_INFO) eqn:Fit; [discriminate|]. eauto.
Qed.

End FramesOf.

Lemma usable_stations (reader : S3WeatherReader) (f : file_info) (stations : list station) :
  stations_of reader f = Some stations ->
  usable reader f = true <-> 4 <= List.length (filter is_valid_station stations).
Proof. unfold usable. intros ->. apply Nat.leb_le. Qed.

Lemma selected_files_positive (reader : S3WeatherReader) (start_date end_date : option string)
    (max_frames : Z) :
  (0 < max_frames)%Z ->
  selected_files reader start_date end_date max_frames
  = skipn (List.length (listed_files reader start_date end_date) - Z.to_nat max_frames)
          (listed_files reader start_date end_date).
Proof.
  intros H. unfold selected_files, slice_from. cbv zeta.
  set (all_files := listed_files reader start_date end_date).
  destruct (max_frames <? Z.of_nat (List.length all_files))%Z eqn:C.
  - apply Z.ltb_lt in C.
    assert ((- max_frames <? 0)%Z = true) as -> by (apply Z.ltb_lt; lia).
    f_equal. lia.
  - apply Z.ltb_ge in C.
    replace (List.length all_files - Z.to_nat max_frames) with 0 by lia. reflexivity.
Qed.

Lemma selected_files_nonpositive (reader : S3WeatherReader)
    (start_date end_date : option string) (max_frames : Z) :
  (max_frames <= 0)%Z ->
  selected_files reader start_date end_date max_frames
  = skipn (Z.to_nat (- max_frames)) (listed_files reader start_date end_date).
Proof.
  intros H. unfold selected_files, slice_from. cbv zeta.
  set (all_files := listed_files reader start_date end_date).
  destruct (max_frames <? Z.of_nat (List.length all_files))%Z eqn:C.
  - apply Z.ltb_lt in C.
    assert ((- max_frames <? 0)%Z = false) as -> by (apply Z.ltb_ge; lia).
    destruct (Z.le_ge_cases (- max_frames) (Z.of_nat (List.length all_files))) as [L | L].
    + now rewrite Z.min_l.
    + rewrite Z.min_r, Nat2Z.id by trivial.
      rewrite !skipn_all2; trivial; lia.
  - apply Z.ltb_ge in C. assert (max_frames = 0%Z) as -> by lia.
    reflexivity.
Qed.

Lemma flat_map_const {A B C : Type} (c : list C) (l : list A) (l' : list B) :
  List.length l = List.length l' ->
  flat_map (fun _ => c) l = flat_map (fun _ => c) l'.
Proof.
  revert l'. induction l as [| a l IH]; intros [| b l'] H; cbn in *; try discriminate; trivial.
  f_equal. apply IH. lia.
Qed.

Lemma flat_map_nil {A B : Type} (l : list A) : flat_map (fun _ => @nil B) l = [].
Proof. induction l; cbn; trivial. Qed.

Lemma flat_map_single {A B : Type} (b : B) (l : list A) :
  flat_map (fun _ => [b]) l = map (fun _ => b) l.
Proof. induction l; cbn; congruence. Qed.


(** What a run that returned went through. *)
Lemma download_returned
    (scipy_interpolator :
       method -> list (float * float) -> list float -> result (float -> float -> float))
    (np_mean : list float -> float) (reader : S3WeatherReader)
    (start_date end_date : option string) (max_frames : Z) (p p' : process)
    (frames : list frame) :
  download_and_interpolate_humidity scipy_interpolator np_mean reader
    start_date end_date max_frames p = (Ok frames, p') ->
  let files := selected_files reader start_date end_date max_frames in
  frames_of scipy_interpolator np_mean reader (mask_at p) files = Ok frames /\
  reference_file p' = reference_file p /\
  cached_mask p' = (if existsb (usable reader) files then mask_at p else cached_mask p) /\
  filter is_warning (console p') =
  (filter is_warning (console p)
   ++ flat_map (fun _ => map Warning (warnings_at p)) (filter (usable reader) files))%list.
Proof.
  intros H files.
  destruct (download_spec scipy_interpolator np_mean reader start_date end_date max_frames p)
    as (q & E & F & _ & K).
  rewrite H in E. injection E as E <-. fold files in E, K.
  destruct (K frames (eq_sym E)) as [K1 K2]. auto.
Qed.

(** The runs of the test data. *)
Lemma returned_run (run : result (list frame) * process) :
  DemoRun.returned run = true -> run = (Ok (DemoRun.frames_by run), snd run).
Proof.
  unfold DemoRun.returned, DemoRun.frames_by. destruct run as [[frames | e] p]; cbn;
    [reflexivity | discriminate].
Qed.

Lemma run_two_days_returned : DemoRun.returned DemoRun.run_two_days = true.
Proof. vm_compute. reflexivity. Qed.

Lemma run_limited_returned : DemoRun.returned DemoRun.run_limited = true.
Proof. vm_compute. reflexivity. Qed.

Lemma run_unlimited_returned : DemoRun.returned DemoRun.run_unlimited = true.
Proof. vm_compute. reflexivity. Qed.

Lemma run_coast_returned : DemoRun.returned DemoRun.run_coast = true.
Proof. vm_compute. reflexivity. Qed.

(** The cells of a frame under a mask that fits: [None] where the mask is
    [False], the cell of the clipped grid where it is [True]. *)
Lemma masked_frame_cells (ip : float -> float -> float) (geo_info : geo) (m : mask) :
  mask_fits m geo_info = true ->
  forall r c,
    (cell m r c = Some false ->
     cell (to_grid_list (frame_grid ip geo_info (Some m))) r c = Some None) /\
    (cell m r c = Some true ->
     cell (to_grid_list (frame_grid ip geo_info (Some m))) r c
     = cell (to_grid_list (clip_grid (sample ip geo_info))) r c).
Proof.
  intros F r c. pose proof (@mask_fits_shape m geo_info F) as S.
  assert (exists u, cell (clip_grid (sample ip geo_info)) r c = Some u \/ cell m r c = None) as K.
  { destruct (cell (clip_grid (sample ip geo_info)) r c) as [u |] eqn:E; [eauto|].
    exists 0%float. right.
    pose proof (clip_sample_shape ip geo_info) as [L1 L2].
    destruct S as [S1 S2]. unfold cell in *.
    destruct (nth_error m r) as [rm |] eqn:Em; trivial.
    destruct (nth_error (clip_grid (sample ip geo_info)) r) as [rg |] eqn:Eg.
    - rewrite Forall_forall in L2, S2.
      apply nth_error_In in Em, Eg. specialize (L2 _ Eg). specialize (S2 _ Em).
      apply nth_error_None in E. apply nth_error_None. lia.
    - apply nth_error_None in Eg. assert (r < List.length m) by (apply nth_error_Some; congruence).
      lia. }
  destruct K as (u & K).
  rewrite !to_grid_list_cell. unfold frame_grid, masked. rewrite cell_zip_with.
  split; intros B; rewrite B.
  - destruct K as [-> | K]; [reflexivity | congruence].
  - destruct K as [-> | K]; [reflexivity | congruence].
Qed.

(** ** Properties of the run over the weather files *)

Import DemoRun.

(** X4.  Every frame of a run is well formed: its statistics are those of 4
    or more stations (never the error of a frame that was skipped), its grid
    has 120 rows of 67 cells, and every cell is [None] or a percentage
    between 0 and 100. *)
Theorem run_frames_well_formed
    (scipy_interpolator :
       method -> list (float * float) -> list float -> result (float -> float -> float))
    (np_mean : list float -> float) (reader : S3WeatherReader)
    (start_date end_date : option string) (max_frames : Z) (p p' : process)
    (frames : list frame) :
  download_and_interpolate_humidity scipy_interpolator np_mean reader
    start_date end_date max_frames p = (Ok frames, p') ->
  Forall (fun fr =>
            (exists st, frame_info fr = Stats st /\ 4 <= station_count st) /\
            has_shape (frame_data fr) 120 67 /\
            Forall (Forall percent_or_null) (frame_data fr)) frames.
Proof.
  intros H. destruct (download_returned _ _ _ _ _ _ _ H) as (E & _).
  destruct (frames_of_each _ _ _ _ _ E) as [Fit Each].
  eapply Forall_impl; [|exact Each]. cbn beta.
  intros fr (f & s & ip & I & S & L & _ & ->). cbn [frame_info frame_data].
  split; [eexists; split; [reflexivity | exact L]|].
  split; [|apply frame_cells_percent].
  apply to_grid_list_shape.
  apply (@frame_grid_shape ip GEO_INFO (mask_at p)). intros m. apply Fit.
  apply existsb_exists. exists f. split; trivial. now apply (usable_stations reader f S).
Qed.

Lemma run_frames_well_formed_witness :
  Forall (fun fr =>
            (exists st, frame_info fr = Stats st /\ 4 <= station_count st) /\
            has_shape (frame_data fr) 120 67 /\
            Forall (Forall percent_or_null) (frame_data fr)) (frames_by run_two_days).
Proof.
  apply (@run_frames_well_formed plane_interpolator mean bucket (Some "2025-01-11") None 720
           start (snd run_two_days) (frames_by run_two_days)).
  exact (returned_run run_two_days run_two_days_returned).
Defined.

(** X5.  Files are skipped, not fatal: a run that returns gives exactly one
    frame per usable file among those it processes, in their order and under
    the time of the file; a file without document, without ['data'] or with
    fewer than 4 valid stations leaves no frame. *)
Theorem run_one_frame_per_usable_file
    (scipy_interpolator :
       method -> list (float * float) -> list float -> result (float -> float -> float))
    (np_mean : list float -> float) (reader : S3WeatherReader)
    (start_date end_date : option string) (max_frames : Z) (p p' : process)
    (frames : list frame) :
  download_and_interpolate_humidity scipy_interpolator np_mean reader
    start_date end_date max_frames p = (Ok frames, p') ->
  map frame_time frames
  = map file_time (filter (usable reader)
                     (selected_files reader start_date end_date max_frames)).
Proof.
  intros H. destruct (download_returned _ _ _ _ _ _ _ H) as (E & _).
  exact (frames_of_times _ _ _ _ _ E).
Qed.

Lemma run_one_frame_per_usable_file_witness :
  map frame_time (frames_by run_two_days)
  = map file_time (filter (usable bucket)
                     (selected_files bucket (Some "2025-01-11") None 720)).
Proof.
  apply (@run_one_frame_per_usable_file plane_interpolator mean bucket
           (Some "2025-01-11") None 720 start (snd run_two_days) (frames_by run_two_days)).
  exact (returned_run run_two_days run_two_days_returned).
Defined.

(** X6.  One failed frame aborts the run: when one of the files that a run
    processes is usable and either no interpolant can be built from its
    stations (cubic and linear both fail) or the land mask in use does not
    fit the grid, the run raises.  The loop has no handler, so no frame is
    returned, whatever the files before and after would give. *)
Theorem run_raises_on_failed_frame
    (scipy_interpolator :
       method -> list (float * float) -> list float -> result (float -> float -> float))
    (np_mean : list float -> float) (reader : S3WeatherReader)
    (start_date end_date : option string) (max_frames : Z) (p : process)
    (f : file_info) (stations : list station) :
  In f (selected_files reader start_date end_date max_frames) ->
  fst (get_json reader (file_key f)) = Some (WithData stations) ->
  4 <= List.length (filter is_valid_station stations) ->
  (exists e, interpolant scipy_interpolator (points_of stations) (values_of stations)
             = Raise e) \/
  (exists m, mask_at p = Some m /\ mask_fits m GEO_INFO = false) ->
  exists e p',
    download_and_interpolate_humidity scipy_interpolator np_mean reader
      start_date end_date max_frames p = (Raise e, p').
Proof.
  intros I D L K.
  destruct (download_spec scipy_interpolator np_mean reader start_date end_date max_frames p)
    as (q & E & _). cbv zeta in E.
  destruct (proj2 (frames_of_raises scipy_interpolator np_mean reader (mask_at p)
                     (selected_files reader start_date end_date max_frames))) as [e Hr].
  { exists f, stations. repeat split; trivial. unfold stations_of. now rewrite D. }
  rewrite Hr in E. eauto.
Qed.

(** The first file of the three days, of four valid stations, with a scipy
    that can build no interpolant. *)
Lemma run_raises_on_failed_frame_witness :
  exists e p',
    download_and_interpolate_humidity degenerate mean bucket None None 720 start
    = (Raise e, p').
Proof.
  apply (@run_raises_on_failed_frame degenerate mean bucket None None 720 start
           (file_at "2025-01-10" "2025/01/10" "00") stations4).
  - cbn. auto.
  - reflexivity.
  - cbn. lia.
  - left. exists QhullError. reflexivity.
Defined.

(** X7.  The limit of frames: with a positive [max_frames] a run returns at
    most [max_frames] frames, and they are those of the latest [max_frames]
    files listed for the range. *)
Theorem run_frame_limit
    (scipy_interpolator :
       method -> list (float * float) -> list float -> result (float -> float -> float))
    (np_mean : list float -> float) (reader : S3WeatherReader)
    (start_date end_date : option string) (max_frames : Z) (p p' : process)
    (frames : list frame) :
  (0 < max_frames)%Z ->
  download_and_interpolate_humidity scipy_interpolator np_mean reader
    start_date end_date max_frames p = (Ok frames, p') ->
  (Z.of_nat (List.length frames) <= max_frames)%Z /\
  map frame_time frames
  = map file_time
      (filter (usable reader)
         (skipn (List.length (listed_files reader start_date end_date) - Z.to_nat max_frames)
                (listed_files reader start_date end_date))).
Proof.
  intros L H. destruct (download_returned _ _ _ _ _ _ _ H) as (E & _).
  pose proof (frames_of_times _ _ _ _ _ E) as T.
  rewrite (selected_files_positive reader start_date end_date L) in T.
  split; [|exact T].
  apply (f_equal (@List.length string)) in T. rewrite !length_map in T. rewrite T.
  pose proof (filter_length_le (usable reader)
                (skipn (List.length (listed_files reader start_date end_date)
                        - Z.to_nat max_frames)
                       (listed_files reader start_date end_date))) as B.
  rewrite length_skipn in B. lia.
Qed.

Lemma run_frame_limit_witness :
  (Z.of_nat (List.length (frames_by run_limited)) <= 2)%Z /\
  map frame_time (frames_by run_limited)
  = map file_time
      (filter (usable bucket)
         (skipn (List.length (listed_files bucket None (Some "")) - Z.to_nat 2)
                (listed_files bucket None (Some "")))).
Proof.
  apply (@run_frame_limit plane_interpolator mean bucket None (Some "") 2
           start (snd run_limited) (frames_by run_limited)).
  - lia.
  - exact (returned_run run_limited run_limited_returned).
Defined.

(** X8.  A limit that is not positive does not limit to the latest frames:
    with [max_frames = 0] every file of the range is processed, and with
    [max_frames = -k] the [k] oldest files are dropped and all later ones
    processed. *)
Theorem run_nonpositive_limit
    (scipy_interpolator :
       method -> list (float * float) -> list float -> result (float -> float -> float))
    (np_mean : list float -> float) (reader : S3WeatherReader)
    (start_date end_date : option string) (max_frames : Z) (p p' : process)
    (frames : list frame) :
  (max_frames <= 0)%Z ->
  download_and_interpolate_humidity scipy_interpolator np_mean reader
    start_date end_date max_frames p = (Ok frames, p') ->
  map frame_time frames
  = map file_time
      (filter (usable reader)
         (skipn (Z.to_nat (- max_frames)) (listed_files reader start_date end_date))).
Proof.
  intros L H. destruct (download_returned _ _ _ _ _ _ _ H) as (E & _).
  pose proof (frames_of_times _ _ _ _ _ E) as T.
  now rewrite (selected_files_nonpositive reader start_date end_date L) in T.
Qed.

Lemma run_nonpositive_limit_witness :
  map frame_time (frames_by run_unlimited)
  = map file_time
      (filter (usable bucket)
         (skipn (Z.to_nat (- 0)) (listed_files bucket None (Some "2025-01-10")))).
Proof.
  apply (@run_nonpositive_limit plane_interpolator mean bucket None (Some "2025-01-10") 0
           start (snd run_unlimited) (frames_by run_unlimited)).
  - lia.
  - exact (returned_run run_unlimited run_unlimited_returned).
Defined.

(** X9.  One mask per run: every frame of a run is the interpolant of the
    stations of its file, sampled on the grid, clipped and cut by one and
    the same mask, the one cached before the run or else the one that the
    reference file gives.  When there is such a mask and a frame, the mask
    fits the grid, and in every frame the cells that it marks [False] are
    [None] and the cells that it marks [True] hold the rounded cell of the
    clipped grid.  The run leaves the reference file as it was, and after a
    run with frames the global holds that mask. *)
Theorem run_uses_one_mask
    (scipy_interpolator :
       method -> list (float * float) -> list float -> result (float -> float -> float))
    (np_mean : list float -> float) (reader : S3WeatherReader)
    (start_date end_date : option string) (max_frames : Z) (p p' : process)
    (frames : list frame) :
  download_and_interpolate_humidity scipy_interpolator np_mean reader
    start_date end_date max_frames p = (Ok frames, p') ->
  reference_file p' = reference_file p /\
  (frames <> [] -> cached_mask p' = mask_at p) /\
  (frames = [] -> cached_mask p' = cached_mask p) /\
  (forall m, mask_at p = Some m -> frames <> [] -> mask_fits m GEO_INFO = true) /\
  Forall (fun fr =>
            exists f stations ip,
              In f (selected_files reader start_date end_date max_frames) /\
              stations_of reader f = Some stations /\
              interpolant scipy_interpolator (points_of stations) (values_of stations) = Ok ip /\
              frame_time fr = file_time f /\
              frame_data fr = to_grid_list (frame_grid ip GEO_INFO (mask_at p)) /\
              forall m r c,
                mask_at p = Some m ->
                (cell m r c = Some false -> cell (frame_data fr) r c = Some None) /\
                (cell m r c = Some true ->
                 cell (frame_data fr) r c
                 = cell (to_grid_list (clip_grid (sample ip GEO_INFO))) r c)) frames.
Proof.
  intros H. destruct (download_returned _ _ _ _ _ _ _ H) as (E & F & C & _).
  pose proof (frames_of_times _ _ _ _ _ E) as T.
  destruct (frames_of_each _ _ _ _ _ E) as [Fit Each].
  split; [exact F|].
  assert (existsb (usable reader) (selected_files reader start_date end_date max_frames)
          = negb (match frames with [] => true | _ => false end)) as X.
  { destruct (filter _ _) as [| f l] eqn:Fl.
    - destruct frames; [|discriminate]. cbn. apply not_true_is_false. intros Ex.
      apply existsb_exists in Ex as (f & I & U).
      assert (In f []) as [] by (rewrite <- Fl; apply filter_In; auto).
    - destruct frames; [discriminate|]. cbn. apply existsb_exists.
      assert (In f (f :: l)) as I by now left. rewrite <- Fl in I.
      apply filter_In in I. eauto. }
  rewrite X in C.
  split; [intros N; destruct frames; [congruence | exact C]|].
  split; [intros ->; exact C|].
  assert (forall m, mask_at p = Some m -> frames <> [] -> mask_fits m GEO_INFO = true) as Fits.
  { intros m Hm N. apply Fit; trivial. rewrite X. now destruct frames. }
  split; [exact Fits|].
  apply Forall_forall. intros fr Hin. rewrite Forall_forall in Each.
  destruct (Each fr Hin) as (f & s & ip & I & S & _ & Ip & ->).
  exists f, s, ip. cbn [frame_time frame_data].
  split; [exact I|]. split; [exact S|]. split; [exact Ip|].
  split; [reflexivity|]. split; [reflexivity|].
  intros m r c Hm. rewrite Hm. apply masked_frame_cells. apply Fits; trivial.
  intros ->. destruct Hin.
Qed.

(** The run over the last two days under the mask of the coast: two frames,
    both without data in the first two columns. *)
Lemma run_uses_one_mask_witness :
  mask_at start_coast = Some coast /\
  List.length (frames_by run_coast) = 2 /\
  Forall (fun fr =>
            cell (frame_data fr) 0 0 = Some None /\
            cell (frame_data fr) 119 1 = Some None) (frames_by run_coast) /\
  (reference_file (snd run_coast) = reference_file start_coast /\
   (frames_by run_coast <> [] -> cached_mask (snd run_coast) = mask_at start_coast) /\
   (frames_by run_coast = [] -> cached_mask (snd run_coast) = cached_mask start_coast) /\
   (forall m, mask_at start_coast = Some m -> frames_by run_coast <> [] ->
              mask_fits m GEO_INFO = true) /\
   Forall (fun fr =>
             exists f stations ip,
               In f (selected_files bucket (Some "2025-01-11") None 720) /\
               stations_of bucket f = Some stations /\
               interpolant plane_interpolator (points_of stations) (values_of stations)
               = Ok ip /\
               frame_time fr = file_time f /\
               frame_data fr = to_grid_list (frame_grid ip GEO_INFO (mask_at start_coast)) /\
               forall m r c,
                 mask_at start_coast = Some m ->
                 (cell m r c = Some false -> cell (frame_data fr) r c = Some None) /\
                 (cell m r c = Some true ->
                  cell (frame_data fr) r c
                  = cell (to_grid_list (clip_grid (sample ip GEO_INFO))) r c))
          (frames_by run_coast)).
Proof.
  pose proof (@run_uses_one_mask plane_interpolator mean bucket (Some "2025-01-11") None 720
                start_coast (snd run_coast) (frames_by run_coast)
                (returned_run run_coast run_coast_returned)) as H.
  assert (mask_at start_coast = Some coast) as M by (vm_compute; reflexivity).
  split; [exact M|]. split; [vm_compute; reflexivity|]. split; [|exact H].
  destruct H as (_ & _ & _ & _ & Each).
  eapply Forall_impl; [|exact Each]. cbn beta.
  intros fr (f & s & ip & _ & _ & _ & _ & _ & C).
  split; [apply (proj1 (C coast 0 0 M)) | apply (proj1 (C coast 119 1 M))]; reflexivity.
Defined.

(** X10.  The warnings of a run: a run that starts with a cached mask, or
    whose reference file loads, prints no warning of the land mask; a run
    that can get no mask loads the reference file again for every frame and
    prints one warning per frame returned. *)
Theorem run_warns_per_frame
    (scipy_interpolator :
       method -> list (float * float) -> list float -> result (float -> float -> float))
    (np_mean : list float -> float) (reader : S3WeatherReader)
    (start_date end_date : option string) (max_frames : Z) (p p' : process)
    (frames : list frame) :
  download_and_interpolate_humidity scipy_interpolator np_mean reader
    start_date end_date max_frames p = (Ok frames, p') ->
  match mask_at p with
  | Some _ => filter is_warning (console p') = filter is_warning (console p)
  | None =>
      exists o,
        snd (loaded_mask (reference_file p)) = [o] /\
        filter is_warning (console p')
        = (filter is_warning (console p) ++ map (fun _ => Warning o) frames)%list
  end.
Proof.
  intros H. destruct (download_returned _ _ _ _ _ _ _ H) as (E & _ & _ & W).
  pose proof (frames_of_times _ _ _ _ _ E) as T.
  apply (f_equal (@List.length string)) in T. rewrite !length_map in T.
  rewrite (flat_map_const _ _ frames (eq_sym T)) in W.
  unfold mask_at, warnings_at in *.
  destruct (cached_mask p) as [m |].
  - rewrite W. cbn [map]. now rewrite flat_map_nil, app_nil_r.
  - destruct (fst (loaded_mask (reference_file p))) as [m |] eqn:L.
    + rewrite (loaded_mask_silent _ L) in W. rewrite W. cbn [map].
      now rewrite flat_map_nil, app_nil_r.
    + pose proof (failed_load_warns _ L) as One.
      destruct (snd (loaded_mask (reference_file p))) as [| o [| ? ?]]; try discriminate.
      exists o. split; [reflexivity|]. rewrite W. cbn [map]. now rewrite flat_map_single.
Qed.

Lemma run_warns_per_frame_witness :
  match mask_at start with
  | Some _ => filter is_warning (console (snd run_two_days)) = filter is_warning (console start)
  | None =>
      exists o,
        snd (loaded_mask (reference_file start)) = [o] /\
        filter is_warning (console (snd run_two_days))
        = (filter is_warning (console start)
           ++ map (fun _ => Warning o) (frames_by run_two_days))%list
  end.
Proof.
  apply (@run_warns_per_frame plane_interpolator mean bucket (Some "2025-01-11") None 720
           start (snd run_two_days) (frames_by run_two_days)).
  exact (returned_run run_two_days run_two_days_returned).
Defined.



(** ** The temperature script *)

Lemma untouched_refl (p : UpdateData.process) : untouched p p.
Proof. now unfold untouched. Qed.

Lemma untouched_trans (p q r : UpdateData.process) :
  untouched p q -> untouched q r -> untouched p r.
Proof. unfold untouched. intros [A B] [C D]. split; congruence. Qed.

Lemma temperature_say (l : UpdateData.line) (p : UpdateData.process) :
  exists p', UpdateData.say l p = (Ok tt, p') /\ untouched p p'.
Proof. eexists. split; [reflexivity | now unfold untouched]. Qed.

Lemma temperature_ask {A : Type} (answer : result A * list string) (p : UpdateData.process) :
  exists p', UpdateData.ask answer p = (fst answer, p') /\ untouched p p'.
Proof. eexists. split; [reflexivity | now unfold untouched]. Qed.

Lemma truthy_get (d : UpdateData.dict) (k : string) :
  truthy (UpdateData.get d k JNull) = true ->
  getitem_str (JObj d) k = Ok (UpdateData.get d k JNull).
Proof.
  unfold UpdateData.get, getitem_str. destruct (dict_get k d); [trivial | discriminate].
Qed.

Section Temperature.

Import UpdateData.

Variable reader : S3TemperatureReader.

(** One pass of the loop over a document that is an object and not empty. *)
Lemma download_document (file : file_info) (data : dict) (frames : list dict) (p : process) :
  (data <~ raise_or (as_dict (JObj data)) ;;
   let frame := frame_of file data in
   frame <~
     (if match frames with [] => true | _ => false end
         && truthy (get data "geo_info" JNull)
      then geo_info <~ raise_or (getitem_str (JObj data) "geo_info") ;;
           done (frame ++ [("geo_info", geo_info)])%list
      else done frame) ;;
   done (frames ++ [frame])%list) p
  = (Ok (frames ++ [if match frames with [] => true | _ => false end
                       && truthy (get data "geo_info" JNull)
                    then (frame_of file data ++ [("geo_info", get data "geo_info" JNull)])%list
                    else frame_of file data])%list, p).
Proof.
  unfold and_then, raise_or, done. cbn [as_dict]. cbv zeta.
  destruct (match frames with [] => true | _ => false end); cbn [andb]; trivial.
  destruct (truthy (get data "geo_info" JNull)) eqn:T; trivial.
  now rewrite (truthy_get _ _ T).
Qed.

Lemma download_files_spec (total : nat) (files : list file_info) :
  forall (i : nat) (frames : list dict) (p : process),
  exists r p',
    download_files reader total files i frames p = (r, p') /\
    untouched p p' /\
    r = match first_failure reader files with
        | Some e => Raise e
        | None =>
            Ok match frames with
               | [] => frames_of_documents (documents reader files)
               | _ => (frames ++ map (fun fd => frame_of (fst fd) (snd fd))
                                   (documents reader files))%list
               end
        end.
Proof.
  induction files as [| f rest IH]; intros i frames p.
  - exists (Ok frames), p. cbn. split; [reflexivity|]. split; [apply untouched_refl|].
    destruct frames; [reflexivity | now rewrite app_nil_r].
  - cbn [download_files documents flat_map first_failure].
    assert (exists p1, (if ((i + 1) mod 10 =? 0)%nat || (i =? 0)%nat
                        then say (Progress (i + 1) total) else done tt) p = (Ok tt, p1)
                       /\ untouched p p1) as (p1 & E1 & U1).
    { destruct (_ || _); [apply temperature_say | exists p; split; [reflexivity | apply untouched_refl]]. }
    destruct (temperature_ask (get_json reader (file_key f)) p1) as (p2 & E2 & U2).
    unfold and_then at 1. rewrite E1. unfold and_then at 1. rewrite E2.
    pose proof (untouched_trans U1 U2) as U.
    fold (documents reader rest). unfold failure.
    assert (forall frames',
              exists r p',
                download_files reader total rest (S i) frames' p2 = (r, p') /\
                untouched p p' /\
                r = match first_failure reader rest with
                    | Some e => Raise e
                    | None =>
                        Ok match frames' with
                           | [] => frames_of_documents (documents reader rest)
                           | _ => (frames' ++ map (fun fd => frame_of (fst fd) (snd fd))
                                                (documents reader rest))%list
                           end
                    end) as Next.
    { intros frames'. destruct (IH (S i) frames' p2) as (r & p' & E & U' & K).
      exists r, p'. split; [exact E|]. split; [eapply untouched_trans; eauto | exact K]. }
    destruct (fst (get_json reader (file_key f))) as [[v |] | e].
    + destruct (truthy v) eqn:T; cbn [andb].
      * destruct v as [| | | | | | data]; cbn [is_object negb];
          try (eexists; exists p2; split; [reflexivity|]; split; [exact U|]; reflexivity).
        destruct data as [| entry entries]; [discriminate|].
        unfold and_then at 1. rewrite download_document.
        destruct (Next (frames ++ [if match frames with [] => true | _ => false end
                                       && truthy (get (entry :: entries) "geo_info" JNull)
                                   then (frame_of f (entry :: entries)
                                         ++ [("geo_info", get (entry :: entries) "geo_info" JNull)])%list
                                   else frame_of f (entry :: entries)])%list)
          as (r & p' & E & U' & K).
        exists r, p'. split; [exact E|]. split; [exact U'|].
        rewrite K. destruct (first_failure reader rest); trivial. f_equal.
        destruct frames as [| fr frames]; cbn [app andb].
        -- cbn [frames_of_documents]. now destruct (truthy _).
        -- cbn [map fst snd]. now rewrite <- app_assoc.
      * unfold and_then at 1, done at 1.
        destruct (Next frames) as (r & p' & E & U' & K).
        exists r, p'. split; [exact E|]. split; [exact U'|].
        assert (match v with
                | JObj (entry :: entries) => [(f, entry :: entries)]
                | _ => []
                end = @nil (file_info * dict)) as ->.
        { destruct v as [| | | | | | [| ? ?]]; trivial; discriminate. }
        exact K.
    + unfold and_then at 1, done at 1.
      destruct (Next frames) as (r & p' & E & U' & K).
      exists r, p'. split; [exact E|]. split; [exact U' | exact K].
    + exists (Raise e), p2. split; [reflexivity|]. split; [exact U | reflexivity].
Qed.

Lemma temperature_collect_files (dates : list string) :
  forall (acc : list file_info) (p : process),
  exists p',
    untouched p p' /\
    collect_files reader dates acc p
    = (match rmap (fun d => fst (list_files_by_date reader d)) dates with
       | Ok files => Ok (acc ++ List.concat files)%list
       | Raise e => Raise e
       end, p').
Proof.
  induction dates as [| d dates IH]; intros acc p; cbn [collect_files rmap].
  - exists p. cbn. rewrite app_nil_r. split; [apply untouched_refl | reflexivity].
  - destruct (temperature_ask (list_files_by_date reader d) p) as (p1 & E1 & U1).
    unfold and_then. rewrite E1.
    destruct (fst (list_files_by_date reader d)) as [files | e]; cbn [rbind].
    + destruct (IH (acc ++ files)%list p1) as (p' & U & E).
      exists p'. split; [eapply untouched_trans; eauto|]. rewrite E.
      destruct (rmap _ dates); cbn [rbind List.concat]; [now rewrite <- app_assoc | reflexivity].
    + exists p1. split; [exact U1 | reflexivity].
Qed.

Lemma download_temperature_data_spec (start_date end_date : option string)
    (max_frames : Z) (p : process) :
  exists r p',
    download_temperature_data reader start_date end_date max_frames p = (r, p') /\
    untouched p p' /\
    match selected_files reader start_date end_date max_frames with
    | Raise e => r = Raise e
    | Ok files =>
        match first_failure reader files with
        | Some e => r = Raise e
        | None => r = Ok (frames_of_documents (documents reader files))
        end
    end.
Proof.
  unfold download_temperature_data.
  destruct (temperature_say ListingDates p) as (p1 & E1 & U1).
  destruct (temperature_ask (list_dates reader) p1) as (p2 & E2 & U2).
  unfold and_then at 1. rewrite E1. unfold and_then at 1. rewrite E2.
  pose proof (untouched_trans U1 U2) as U12.
  assert ((if (max_frames <? Z.of_nat (List.length (@nil file_info)))%Z
           then slice_from (- max_frames) (@nil file_info) else []) = []) as Cut.
  { destruct (_ <? _)%Z; trivial. unfold slice_from. now rewrite skipn_nil. }
  unfold selected_files, listed_files.
  destruct (fst (list_dates reader)) as [[| first dates] | e] eqn:D; cbn [rbind].
  - destruct (temperature_say NoTemperatureData p2) as (p3 & E3 & U3).
    unfold and_then, done. rewrite E3. exists (Ok []), p3.
    split; [reflexivity|]. split; [eapply untouched_trans; eauto|].
    cbn [filter rmap rbind List.concat]. rewrite Cut. reflexivity.
  - destruct (temperature_say (FoundDates (List.length (first :: dates)) first
                                 (last (first :: dates) first)) p2) as (p3 & E3 & U3).
    unfold and_then at 1. rewrite E3.
    pose proof (date_filters start_date end_date (first :: dates)) as DF.
    set (ranged := filter (in_range start_date end_date) (first :: dates)) in *.
    cbv zeta. rewrite DF.
    pose proof (untouched_trans U12 U3) as U123.
    destruct ranged as [| d0 ranged'] eqn:R.
    + destruct (temperature_say NoDataInRange p3) as (p4 & E4 & U4).
      unfold and_then, done. rewrite E4. exists (Ok []), p4.
      split; [reflexivity|]. split; [eapply untouched_trans; eauto|].
      cbn [rmap rbind List.concat]. rewrite Cut. reflexivity.
    + destruct (temperature_say (ProcessingDates (List.length (d0 :: ranged'))) p3)
        as (p4 & E4 & U4).
      unfold and_then at 1. rewrite E4.
      destruct (temperature_collect_files (d0 :: ranged') [] p4) as (p5 & U5 & E5).
      unfold and_then at 1. rewrite E5.
      pose proof (untouched_trans U123 (untouched_trans U4 U5)) as U5'.
      destruct (rmap (fun d => fst (list_files_by_date reader d)) (d0 :: ranged'))
        as [listed | e]; cbn [rbind];
        [|exists (Raise e), p5; split; [reflexivity|]; split; [exact U5' | reflexivity]].
      rewrite app_nil_l.
      set (all_files := List.concat listed).
      destruct (temperature_say (TotalFiles (List.length all_files)) p5) as (p6 & E6 & U6).
      unfold and_then at 1. rewrite E6.
      set (chosen := if (max_frames <? Z.of_nat (List.length all_files))%Z
                     then slice_from (- max_frames) all_files else all_files).
      assert (exists p7,
                (if (max_frames <? Z.of_nat (List.length all_files))%Z
                 then say (Limiting max_frames) ~;; done (slice_from (- max_frames) all_files)
                 else done all_files) p6 = (Ok chosen, p7) /\ untouched p6 p7)
        as (p7 & E7 & U7).
      { subst chosen. destruct (max_frames <? Z.of_nat (List.length all_files))%Z.
        - destruct (temperature_say (Limiting max_frames) p6) as (p7 & E7 & U7).
          exists p7. unfold and_then, done. rewrite E7. now split.
        - exists p6. split; [reflexivity | apply untouched_refl]. }
      unfold and_then at 1. rewrite E7.
      destruct (temperature_say (Downloading (List.length chosen)) p7) as (p8 & E8 & U8).
      unfold and_then at 1. rewrite E8.
      destruct (download_files_spec (List.length chosen) chosen 0 [] p8)
        as (r & p9 & E9 & U9 & K).
      pose proof (untouched_trans U5' (untouched_trans U6 (untouched_trans U7
                    (untouched_trans U8 U9)))) as U9'.
      unfold and_then at 1. rewrite E9.
      destruct (first_failure reader chosen) as [e |]; subst r.
      * exists (Raise e), p9.
        split; [reflexivity|]. split; [exact U9' | reflexivity].
      * destruct (temperature_say
                    (Downloaded (List.length (frames_of_documents (documents reader chosen)))) p9)
          as (p10 & E10 & U10).
        unfold and_then, done. rewrite E10. eexists. exists p10.
        split; [reflexivity|]. split; [eapply untouched_trans; eauto | reflexivity].
  - exists (Raise e), p2. split; [reflexivity|]. split; [exact U12 | reflexivity].
Qed.

End Temperature.

Lemma getitem_str_dict (d : UpdateData.dict) (k : string) (v : json) :
  getitem_str (JObj d) k = Ok v <-> dict_get k d = Some v.
Proof.
  unfold getitem_str. destruct (dict_get k d); split; congruence.
Qed.

Lemma frame_data_spec (frame : UpdateData.dict) (o : json) :
  UpdateData.frame_data frame = Ok o <->
  exists time stats data,
    dict_get "time" frame = Some time /\
    dict_get "stats" frame = Some stats /\
    dict_get "data" frame = Some data /\
    o = JObj [("time", time); ("stats", stats); ("data", data)].
Proof.
  unfold UpdateData.frame_data, getitem_str.
  destruct (dict_get "time" frame) as [t |], (dict_get "stats" frame) as [s |],
    (dict_get "data" frame) as [d |]; cbn; split;
    try discriminate; try (intros (? & ? & ? & ? & ? & ? & _); discriminate).
  - intros [= <-]. now exists t, s, d.
  - intros (? & ? & ? & [= <-] & [= <-] & [= <-] & ->). reflexivity.
Qed.

Lemma rmap_Forall2 {A B : Type} (f : A -> result B) (l : list A) : forall out,
  rmap f l = Ok out -> Forall2 (fun a b => f a = Ok b) l out.
Proof.
  induction l as [| a l IH]; cbn; intros out H.
  - injection H as <-. constructor.
  - destruct (f a) as [b |] eqn:E; [|discriminate]. cbn in H.
    destruct (rmap f l) as [bs |]; [|discriminate]. cbn in H. injection H as <-.
    constructor; auto.
Qed.

Lemma rmap_Ok {A B : Type} (f : A -> result B) (l : list A) :
  Forall (fun a => exists b, f a = Ok b) l -> exists out, rmap f l = Ok out.
Proof.
  induction 1 as [| a l [b Hb] _ [out IH]]; cbn; [eauto|].
  rewrite Hb, IH. cbn. eauto.
Qed.

(** What a call of [generate_timelapse_json] that returned went through. *)
Lemma generate_returned (now : string) (first : UpdateData.dict)
    (rest : list UpdateData.dict) (p p' : UpdateData.process)
    (timelapse : UpdateData.dict) :
  UpdateData.generate_timelapse_json now (first :: rest) p = (Ok timelapse, p') ->
  exists start_time end_time out,
    dict_get "time" first = Some start_time /\
    dict_get "time" (last (first :: rest) first) = Some end_time /\
    rmap UpdateData.frame_data (first :: rest) = Ok out /\
    timelapse =
      [("metadata",
        JObj [("generated_at", JStr now);
              ("start_time", start_time);
              ("end_time", end_time);
              ("total_frames", JInt (Z.of_nat (List.length (first :: rest))));
              ("geo_info",
               if truthy (UpdateData.first_geo_info (first :: rest))
               then UpdateData.first_geo_info (first :: rest)
               else UpdateData.default_geo_info);
              ("source", JStr "Central Weather Administration O-A0038-003");
              ("description", JStr "Taiwan Temperature Grid Timelapse")]);
       ("frames", JArr out)] /\
    UpdateData.writable p = true /\
    UpdateData.output_file p' = FilePresent (Ok (JObj timelapse)) /\
    UpdateData.console p'
    = (UpdateData.console p ++ [UpdateData.SavingTimelapse; UpdateData.Saved])%list.
Proof.
  unfold UpdateData.generate_timelapse_json. cbv zeta.
  unfold and_then, UpdateData.raise_or, done, UpdateData.say, UpdateData.json_dump.
  destruct (getitem_str (JObj first) "time") as [st |] eqn:S; [|discriminate].
  destruct (getitem_str (JObj (last (first :: rest) first)) "time") as [en |] eqn:E;
    [|discriminate].
  destruct (rmap UpdateData.frame_data (first :: rest)) as [out |] eqn:R; [|discriminate].
  cbn [UpdateData.writable UpdateData.output_file UpdateData.console].
  destruct (UpdateData.writable p) eqn:W; [|discriminate].
  intros [= <- <-]. exists st, en, out.
  apply getitem_str_dict in S, E.
  cbn [UpdateData.writable UpdateData.output_file UpdateData.console].
  rewrite <- app_assoc. repeat split; trivial.
Qed.

(** ** Properties of the reference file *)

Import DemoTemperature.

(** X12.  From the temperature script to the land mask: once
    [generate_timelapse_json] has written the timelapse of the temperature
    frames, [load_land_mask] reading that file derives the mask from the
    grid of the first frame alone, the mask or [None] with a warning when
    that grid gives none, and this is the mask that a humidity run starting
    without cached mask uses. *)
Theorem timelapse_feeds_land_mask
    (now : string) (first : UpdateData.dict) (rest : list UpdateData.dict)
    (p p' : UpdateData.process) (timelapse : UpdateData.dict) :
  UpdateData.generate_timelapse_json now (first :: rest) p = (Ok timelapse, p') ->
  exists data,
    dict_get "data" first = Some data /\
    (forall (cached : option mask) (out : list output),
       load_land_mask (mkWorld (UpdateData.output_file p') cached out)
       = (Ok match grid_mask data with Ok m => Some m | Raise _ => None end,
          mkWorld (UpdateData.output_file p') cached
                  (out ++ match grid_mask data with
                          | Ok _ => []
                          | Raise e => [WarnCouldNotLoad e]
                          end)%list)) /\
    (forall lines : list line,
       mask_at (mkProcess (UpdateData.output_file p') None lines)
       = match grid_mask data with Ok m => Some m | Raise _ => None end).
Proof.
  intros H. destruct (generate_returned _ _ _ _ H) as (st & en & out & _ & _ & R & T & _ & F & _).
  cbn [rmap] in R.
  destruct (UpdateData.frame_data first) as [o |] eqn:O; [|discriminate].
  apply frame_data_spec in O as (t & s & d & _ & _ & D & ->).
  cbn [rbind] in R. destruct (rmap UpdateData.frame_data rest) as [os |]; [|discriminate].
  cbn [rbind] in R. injection R as <-.
  assert (mask_of_temp_data (JObj timelapse) = grid_mask d) as K by (subst timelapse; reflexivity).
  exists d. split; [exact D|]. split.
  - intros cached lines. rewrite load_land_mask_run. cbn [TEMPERATURE_FILE].
    rewrite F. cbn [loaded_mask]. rewrite K.
    destruct (grid_mask d); reflexivity.
  - intros lines. unfold mask_at. cbn [cached_mask reference_file].
    rewrite F. cbn [loaded_mask]. rewrite K. now destruct (grid_mask d).
Qed.

Lemma timelapse_feeds_land_mask_witness :
  exists data,
    dict_get "data" (UpdateData.frame_of file1 document1) = Some data /\
    (forall (cached : option mask) (out : list output),
       load_land_mask (mkWorld (UpdateData.output_file (snd (timelapse_of frames))) cached out)
       = (Ok match grid_mask data with Ok m => Some m | Raise _ => None end,
          mkWorld (UpdateData.output_file (snd (timelapse_of frames))) cached
                  (out ++ match grid_mask data with
                          | Ok _ => []
                          | Raise e => [WarnCouldNotLoad e]
                          end)%list)) /\
    (forall lines : list line,
       mask_at (mkProcess (UpdateData.output_file (snd (timelapse_of frames))) None lines)
       = match grid_mask data with Ok m => Some m | Raise _ => None end).
Proof.
  apply (@timelapse_feeds_land_mask "2025-01-10T03:00:00"
           (UpdateData.frame_of file1 document1) [UpdateData.frame_of file2 document2] DemoTemperature.start
           (snd (timelapse_of frames)) (fst (timelapse_of frames))).
  reflexivity.
Defined.

(** X13.  What the timelapse of the temperature frames holds: as many
    frames as were given, each with its time, statistics and grid and without
    [geo_info]; the count of frames in the metadata; and as [geo_info] that
    of the first frame that has the key, or the default bounding box when
    that value is falsy or no frame has the key. *)
Theorem timelapse_frames_stripped
    (now : string) (first : UpdateData.dict) (rest : list UpdateData.dict)
    (p p' : UpdateData.process) (timelapse : UpdateData.dict) :
  UpdateData.generate_timelapse_json now (first :: rest) p = (Ok timelapse, p') ->
  exists metadata out,
    timelapse = [("metadata", JObj metadata); ("frames", JArr out)] /\
    dict_get "total_frames" metadata = Some (JInt (Z.of_nat (List.length out))) /\
    dict_get "geo_info" metadata
    = Some (if truthy (UpdateData.first_geo_info (first :: rest))
            then UpdateData.first_geo_info (first :: rest)
            else UpdateData.default_geo_info) /\
    Forall2 (fun frame o =>
               exists time stats data,
                 dict_get "time" frame = Some time /\
                 dict_get "stats" frame = Some stats /\
                 dict_get "data" frame = Some data /\
                 o = JObj [("time", time); ("stats", stats); ("data", data)])
            (first :: rest) out.
Proof.
  intros H. destruct (generate_returned _ _ _ _ H) as (st & en & out & _ & _ & R & T & _).
  apply rmap_Forall2 in R.
  eexists. exists out. split; [exact T|].
  split; [|split; [reflexivity|]].
  - cbn [dict_get String.eqb Ascii.eqb Bool.eqb]. cbn.
    now rewrite <- (Forall2_length R).
  - eapply Forall2_impl; [|exact R]. intros frame o. apply frame_data_spec.
Qed.

Lemma timelapse_frames_stripped_witness :
  exists metadata out,
    fst (timelapse_of frames) = [("metadata", JObj metadata); ("frames", JArr out)] /\
    dict_get "total_frames" metadata = Some (JInt (Z.of_nat (List.length out))) /\
    dict_get "geo_info" metadata
    = Some (if truthy (UpdateData.first_geo_info frames)
            then UpdateData.first_geo_info frames
            else UpdateData.default_geo_info) /\
    Forall2 (fun frame o =>
               exists time stats data,
                 dict_get "time" frame = Some time /\
                 dict_get "stats" frame = Some stats /\
                 dict_get "data" frame = Some data /\
                 o = JObj [("time", time); ("stats", stats); ("data", data)])
            frames out.
Proof.
  apply (@timelapse_frames_stripped "2025-01-10T03:00:00"
           (UpdateData.frame_of file1 document1) [UpdateData.frame_of file2 document2] DemoTemperature.start
           (snd (timelapse_of frames))).
  reflexivity.
Defined.

Lemma later_frames_no_geo_info (docs : list (file_info * UpdateData.dict)) :
  UpdateData.first_geo_info
    (map (fun fd => UpdateData.frame_of (fst fd) (snd fd)) docs) = JNull.
Proof. induction docs as [| [f d] docs IH]; cbn; trivial. Qed.

Lemma frame_of_complete (f : file_info) (d : UpdateData.dict) (extra : UpdateData.dict) :
  UpdateData.complete (UpdateData.frame_of f d ++ extra)%list.
Proof. unfold UpdateData.complete. do 3 eexists. repeat split; reflexivity. Qed.

(** X14.  The frames of the temperature script.
    [download_temperature_data] has no handler of its own: it raises what a
    listing of the reader raises, and for the files it selects it stops at
    the first one for which [get_json] raises or gives a document that is
    truthy and not an object, with that exception ([AttributeError] for
    such a document).  In every other case it returns one frame per
    document that is a non-empty object, in the order of the files, with
    the time of the file and the grid of the document ([[]] when the
    document has none); every frame has the keys that
    [generate_timelapse_json] reads, and only the first document can give
    its [geo_info] to the timelapse.  The output file is left alone in
    every case. *)
Theorem temperature_frames_of_documents
    (reader : UpdateData.S3TemperatureReader) (start_date end_date : option string)
    (max_frames : Z) (p : UpdateData.process) :
  exists r p',
    UpdateData.download_temperature_data reader start_date end_date max_frames p = (r, p') /\
    untouched p p' /\
    match UpdateData.selected_files reader start_date end_date max_frames with
    | Raise e => r = Raise e
    | Ok files =>
        match UpdateData.first_failure reader files with
        | Some e => r = Raise e
        | None =>
            let docs := UpdateData.documents reader files in
            exists frames,
              r = Ok frames /\
              map (dict_get "time") frames
              = map (fun fd => Some (JStr (file_time (fst fd)))) docs /\
              map (dict_get "data") frames
              = map (fun fd => Some (UpdateData.get (snd fd) "data" (JArr []))) docs /\
              Forall UpdateData.complete frames /\
              UpdateData.first_geo_info frames
              = match docs with
                | (f, d) :: _ =>
                    if truthy (UpdateData.get d "geo_info" JNull)
                    then UpdateData.get d "geo_info" JNull else JNull
                | [] => JNull
                end
        end
    end.
Proof.
  destruct (download_temperature_data_spec reader start_date end_date max_frames p)
    as (r & p' & E & U & K).
  exists r, p'. split; [exact E|]. split; [exact U|].
  destruct (UpdateData.selected_files reader start_date end_date max_frames)
    as [files | e]; [|exact K].
  destruct (UpdateData.first_failure reader files) as [e |]; [exact K|].
  cbv zeta. set (docs := UpdateData.documents reader files) in *.
  exists (UpdateData.frames_of_documents docs). split; [exact K|].
  assert (forall l : list (file_info * UpdateData.dict),
            map (dict_get "time") (map (fun fd => UpdateData.frame_of (fst fd) (snd fd)) l)
            = map (fun fd => Some (JStr (file_time (fst fd)))) l /\
            map (dict_get "data") (map (fun fd => UpdateData.frame_of (fst fd) (snd fd)) l)
            = map (fun fd => Some (UpdateData.get (snd fd) "data" (JArr []))) l /\
            Forall UpdateData.complete
              (map (fun fd => UpdateData.frame_of (fst fd) (snd fd)) l)) as Later.
  { induction l as [| [f d] l (I1 & I2 & I3)]; [repeat split; constructor|].
    cbn [map fst snd]. rewrite I1, I2. repeat split; trivial.
    constructor; [|exact I3]. rewrite <- (app_nil_r (UpdateData.frame_of f d)).
    apply frame_of_complete. }
  destruct docs as [| [f d] rest]; [cbn; repeat split; constructor|].
  destruct (Later rest) as (L1 & L2 & L3).
  cbn [UpdateData.frames_of_documents map fst snd]. rewrite L1, L2.
  destruct (truthy (UpdateData.get d "geo_info" JNull)) eqn:T.
  - repeat split; trivial. constructor; [apply frame_of_complete | exact L3].
  - repeat split; trivial.
    + constructor; [|exact L3]. rewrite <- (app_nil_r (UpdateData.frame_of f d)).
      apply frame_of_complete.
    + cbn [UpdateData.first_geo_info].
      change (dict_get "geo_info" (UpdateData.frame_of f d)) with (@None json).
      apply later_frames_no_geo_info.
Qed.

(** The bucket of two documents, then the same with an array as third
    document and with a third body that is not UTF-8. *)
Lemma temperature_frames_of_documents_witness :
  (exists fs p',
     UpdateData.download_temperature_data bucket None None 720 DemoTemperature.start
     = (Ok fs, p') /\
     untouched DemoTemperature.start p' /\
     map (dict_get "time") fs = [Some (JStr (file_time file1)); Some (JStr (file_time file2))])
  /\
  (exists p',
     UpdateData.download_temperature_data bucket_with_array None None 720 DemoTemperature.start
     = (Raise (OtherError "AttributeError"), p'))
  /\
  (exists p',
     UpdateData.download_temperature_data bucket_not_utf8 None None 720 DemoTemperature.start
     = (Raise ValueError, p')).
Proof.
  split; [|split].
  - destruct (temperature_frames_of_documents bucket None None 720 DemoTemperature.start)
      as (r & p' & E & U & K).
    cbn in K. destruct K as (fs & -> & T & _).
    exists fs, p'. split; [exact E|]. split; [exact U | exact T].
  - destruct (temperature_frames_of_documents bucket_with_array None None 720
                DemoTemperature.start) as (r & p' & E & _ & K).
    cbn in K. subst r. eauto.
  - destruct (temperature_frames_of_documents bucket_not_utf8 None None 720
                DemoTemperature.start) as (r & p' & E & _ & K).
    cbn in K. subst r. eauto.
Defined.

(** X15.  A reference grid of another shape stops the humidity script: when
    the grid of the first temperature frame gives a mask that is not 120 by
    67 (the empty grid [[]] that a document without ['data'] leaves gives
    one), a humidity run that reads the written file raises as soon as one of
    its files is usable; it does not go on without mask. *)
Theorem misfit_reference_aborts_run
    (scipy_interpolator :
       method -> list (float * float) -> list float -> result (float -> float -> float))
    (np_mean : list float -> float) (reader : S3WeatherReader)
    (start_date end_date : option string) (max_frames : Z) (q : process)
    (now : string) (first : UpdateData.dict) (rest : list UpdateData.dict)
    (p p' : UpdateData.process) (timelapse : UpdateData.dict)
    (data : json) (m : mask) :
  UpdateData.generate_timelapse_json now (first :: rest) p = (Ok timelapse, p') ->
  dict_get "data" first = Some data ->
  grid_mask data = Ok m ->
  mask_fits m GEO_INFO = false ->
  reference_file q = UpdateData.output_file p' ->
  cached_mask q = None ->
  existsb (usable reader) (selected_files reader start_date end_date max_frames) = true ->
  exists e q',
    download_and_interpolate_humidity scipy_interpolator np_mean reader
      start_date end_date max_frames q = (Raise e, q').
Proof.
  intros H D G Fit R C U.
  destruct (generate_returned _ _ _ _ H) as (st & en & out & _ & _ & Rm & T & _ & F & _).
  cbn [rmap] in Rm.
  destruct (UpdateData.frame_data first) as [o |] eqn:O; [|discriminate].
  apply frame_data_spec in O as (t & s & d & _ & _ & D' & ->).
  rewrite D in D'. injection D' as <-.
  cbn [rbind] in Rm. destruct (rmap UpdateData.frame_data rest) as [os |]; [|discriminate].
  cbn [rbind] in Rm. injection Rm as <-.
  assert (mask_of_temp_data (JObj timelapse) = grid_mask data) as K
    by (subst timelapse; reflexivity).
  assert (mask_at q = Some m) as M.
  { unfold mask_at. rewrite C, R, F. cbn [loaded_mask]. now rewrite K, G. }
  apply existsb_exists in U as (f & I & Uf).
  apply usable_spec in Uf as (stations & S & L). apply Nat.ltb_ge in L.
  destruct (download_spec scipy_interpolator np_mean reader start_date end_date max_frames q)
    as (q' & E & _). cbv zeta in E.
  destruct (proj2 (frames_of_raises scipy_interpolator np_mean reader (mask_at q)
                     (selected_files reader start_date end_date max_frames))) as [e Hr].
  { exists f, stations. repeat split; trivial. right. eauto. }
  rewrite Hr in E. eauto.
Qed.

Lemma misfit_reference_aborts_run_witness :
  exists e q',
    download_and_interpolate_humidity plane_interpolator mean DemoRun.bucket
      None None 720
      (mkProcess (UpdateData.output_file (snd (timelapse_of frames_without_grid))) None [])
    = (Raise e, q').
Proof.
  apply (@misfit_reference_aborts_run plane_interpolator mean DemoRun.bucket None None 720
           (mkProcess (UpdateData.output_file (snd (timelapse_of frames_without_grid)))
                         None [])
           "2025-01-10T03:00:00"
           (UpdateData.frame_of file2 document2) [UpdateData.frame_of file1 document1]
           DemoTemperature.start (snd (timelapse_of frames_without_grid))
           (fst (timelapse_of frames_without_grid)) (JArr []) []); reflexivity.
Defined.

(** ** Python strings *)

Lemma string_length_append (a b : string) :
  String.length (a ++ b) = String.length a + String.length b.
Proof. induction a as [| c a IH]; cbn; auto. Qed.

Lemma string_append_assoc (a b c : string) : (a ++ b) ++ c = a ++ (b ++ c).
Proof. induction a as [| x a IH]; cbn; congruence. Qed.

Lemma string_append_nil (a : string) : a ++ "" = a.
Proof. induction a as [| x a IH]; cbn; congruence. Qed.

Lemma prefix_append (a b : string) : String.prefix a (a ++ b) = true.
Proof.
  induction a as [| c a IH]; cbn; [now destruct b|].
  destruct (ascii_dec c c); [exact IH | congruence].
Qed.

Lemma drop_append (a b : string) : drop (String.length a) (a ++ b) = b.
Proof. induction a as [| c a IH]; cbn; [now destruct b | exact IH]. Qed.

Lemma endswith_append (a b : string) : endswith (a ++ b) b = true.
Proof.
  unfold endswith. rewrite string_length_append.
  replace (String.length a + String.length b - String.length b) with (String.length a) by lia.
  rewrite drop_append, String.eqb_refl, andb_true_r. apply Nat.leb_le. lia.
Qed.

Lemma take_length (n : nat) : forall s : string,
  n <= String.length s -> String.length (take n s) = n.
Proof.
  induction n as [| n IH]; intros [| c s] H; cbn in *; try lia.
  rewrite IH; lia.
Qed.

Lemma drop_length (n : nat) : forall s : string,
  String.length (drop n s) = String.length s - n.
Proof. induction n as [| n IH]; intros [| c s]; cbn; auto. Qed.

Lemma take_drop (n : nat) : forall s : string, take n s ++ drop n s = s.
Proof. induction n as [| n IH]; intros [| c s]; cbn; trivial. now rewrite IH. Qed.

Lemma occurs_append (c : ascii) (a b : string) :
  occurs c (a ++ b) = occurs c a || occurs c b.
Proof. induction a as [| x a IH]; cbn; trivial. now rewrite IH, orb_assoc. Qed.

Lemma prefix_head (c : ascii) (old s : string) :
  occurs c s = false -> String.prefix (String c old) s = false.
Proof.
  destruct s as [| a s]; cbn; trivial. intros H. apply orb_false_elim in H as [H _].
  destruct (ascii_dec c a) as [-> |]; trivial. now rewrite Ascii.eqb_refl in H.
Qed.

(** An occurrence of [old] starts with its first character: where that
    character does not occur nothing is replaced. *)
Lemma replace_absent (c : ascii) (old new : string) (x : string) : forall y : string,
  occurs c x = false ->
  replace_from (String c old) new 0 (x ++ y) = x ++ replace_from (String c old) new 0 y.
Proof.
  induction x as [| a x IH]; intros y H; [reflexivity|].
  cbn [occurs] in H. apply orb_false_elim in H as [Ha Hx].
  cbn [append replace_from].
  assert (String.prefix (String c old) (String a (x ++ y)) = false) as ->.
  { cbn. destruct (ascii_dec c a) as [-> |]; trivial. now rewrite Ascii.eqb_refl in Ha. }
  now rewrite IH.
Qed.

Lemma replace_from_skip (old new : string) (x : string) : forall y : string,
  replace_from old new (String.length x) (x ++ y) = replace_from old new 0 y.
Proof.
  induction x as [| a x IH]; intros y; [reflexivity|]. cbn. apply IH.
Qed.

(** The occurrence at the front is replaced, and the scan goes on after
    it. *)
Lemma replace_front (c : ascii) (old new y : string) :
  replace (String c old) new (String c old ++ y)
  = new ++ replace (String c old) new y.
Proof.
  unfold replace. cbn [append replace_from].
  change (String c (old ++ y)) with (String c old ++ y).
  rewrite prefix_append. cbn [String.length Nat.sub]. rewrite ?Nat.sub_0_r.
  now rewrite replace_from_skip.
Qed.

Lemma replace_none (c : ascii) (old new x : string) :
  occurs c x = false -> replace (String c old) new x = x.
Proof.
  intros H. unfold replace. rewrite <- (string_append_nil x) at 1.
  rewrite replace_absent by trivial. cbn. apply string_append_nil.
Qed.

Lemma split_nonempty (sep : ascii) (s : string) : split sep s <> [].
Proof.
  induction s as [| c s IH]; cbn; [discriminate|].
  destruct (c =? sep)%char; [discriminate|]. destruct (split sep s); discriminate.
Qed.

Lemma split_absent (sep : ascii) (s : string) : occurs sep s = false -> split sep s = [s].
Proof.
  induction s as [| c s IH]; cbn; trivial. intros H. apply orb_false_elim in H as [Hc Hs].
  now rewrite Hc, (IH Hs).
Qed.

Lemma split_last (sep : ascii) (name d : string) (pre : string) :
  2 <= List.length (split sep (pre ++ String sep name)) /\
  last (split sep (pre ++ String sep name)) d = last (split sep name) d.
Proof.
  induction pre as [| c pre [IH1 IH2]]; cbn [append split].
  - rewrite Ascii.eqb_refl. pose proof (split_nonempty sep name) as N.
    destruct (split sep name) as [| p ps]; [congruence|]. cbn. split; [lia | reflexivity].
  - destruct (c =? sep)%char.
    + destruct (split sep (pre ++ String sep name)) as [| p ps]; cbn in *; [lia|].
      split; [lia | exact IH2].
    + destruct (split sep (pre ++ String sep name)) as [| p [| p' ps]]; cbn in *; try lia.
      split; [lia | exact IH2].
Qed.

(** ** The order of strings *)

Lemma string_leb_compare (a b : string) :
  (a <=? b)%string = true <-> String.compare a b <> Gt.
Proof. unfold String.leb. destruct (String.compare a b); split; congruence. Qed.

Lemma string_ltb_false (a b : string) :
  (a <? b)%string = false -> (b <=? a)%string = true.
Proof.
  unfold String.ltb, String.leb. rewrite (String.compare_antisym a b).
  destruct (String.compare b a); cbn; congruence.
Qed.

Lemma string_ltb_leb (a b : string) : (a <? b)%string = true -> (a <=? b)%string = true.
Proof. unfold String.ltb, String.leb. destruct (String.compare a b); congruence. Qed.

Lemma string_leb_trans (a b c : string) :
  (a <=? b)%string = true -> (b <=? c)%string = true -> (a <=? c)%string = true.
Proof.
  unfold String.leb.
  destruct (String.compare a b) eqn:AB; try discriminate;
    destruct (String.compare b c) eqn:BC; try discriminate; intros _ _.
  - apply String.compare_eq_iff in AB. subst a. now rewrite BC.
  - apply String.compare_eq_iff in AB. subst a. now rewrite BC.
  - apply String.compare_eq_iff in BC. subst c. now rewrite AB.
  - assert (String.compare a c = Lt) as ->; trivial.
    apply String_as_OT.cmp_lt. eapply String_as_OT.lt_trans; apply String_as_OT.cmp_lt; eauto.
Qed.

Section Sorted.

Variable A : Type.
Variable key : A -> string.

Lemma insert_by_perm (x : A) (l : list A) : Permutation (insert_by key x l) (x :: l).
Proof.
  induction l as [| y l IH]; cbn; [reflexivity|].
  destruct (key y <? key x)%string; [|reflexivity].
  rewrite IH. apply perm_swap.
Qed.

Lemma insert_by_sorted (x : A) (l : list A) :
  StronglySorted (by_key key) l -> StronglySorted (by_key key) (insert_by key x l).
Proof.
  induction 1 as [| y l S IH F]; cbn; [repeat constructor|].
  destruct (key y <? key x)%string eqn:C.
  - constructor; [exact IH|].
    eapply Permutation_Forall; [symmetry; apply insert_by_perm|].
    constructor; [now apply string_ltb_leb | exact F].
  - apply string_ltb_false in C. constructor; [now constructor|].
    constructor; [exact C|].
    eapply Forall_impl; [|exact F]. intros z Hz. unfold by_key in *.
    eapply string_leb_trans; eauto.
Qed.

Lemma sorted_by_perm (l : list A) : Permutation (sorted_by key l) l.
Proof.
  induction l as [| x l IH]; cbn; [reflexivity|].
  rewrite insert_by_perm. now constructor.
Qed.

Lemma sorted_by_sorted (l : list A) : StronglySorted (by_key key) (sorted_by key l).
Proof.
  induction l as [| x l IH]; cbn; [constructor | now apply insert_by_sorted].
Qed.

End Sorted.

(** ** The files of a date *)

Lemma entry_of_spec (stem date : string) (obj : s3_object) (f : file_info) :
  In f (entry_of stem date obj) ->
  exists hour minute,
    file_key f = Key obj /\ file_size f = Size obj /\
    endswith (Key obj) ".json" = true /\ contains "latest" (Key obj) = false /\
    String.length hour = 2 /\ String.length minute = 2 /\
    file_time f = date ++ "T" ++ hour ++ ":" ++ minute ++ ":00+08:00".
Proof.
  unfold entry_of. cbv zeta.
  destruct (endswith (Key obj) ".json") eqn:E; [|intros []].
  destruct (contains "latest" (Key obj)) eqn:C; [intros []|]. cbn [negb andb].
  destruct (startswith _ stem); [|intros []].
  set (time_str := replace ".json" "" (replace stem "" _)).
  destruct (String.length time_str =? 4)%nat eqn:L; [|intros []].
  apply Nat.eqb_eq in L. intros [<- | []].
  exists (take 2 time_str), (drop 2 time_str). cbn [file_key file_size file_time].
  repeat split; trivial.
  - apply take_length. lia.
  - rewrite drop_length. lia.
Qed.

Lemma list_files_by_date_in_run (folder stem : string) (client : s3_client) (date : string) :
  list_files_by_date_in folder stem client date =
  match date_path client date with
  | None => ([], [])
  | Some path =>
      (sorted_by file_time
         (flat_map (entry_of stem date) (fst (contents client (folder ++ path ++ "/")))),
       match snd (contents client (folder ++ path ++ "/")) with
       | Some e => ["Error listing files for " ++ date ++ ": " ++ e]
       | None => []
       end)
  end.
Proof.
  unfold list_files_by_date_in. destruct (date_path client date) as [path |]; trivial.
  now destruct (contents client (folder ++ path ++ "/")).
Qed.


Lemma digits_occurs (c : ascii) (s : string) :
  is_digit c = false -> digits s = true -> occurs c s = false.
Proof.
  intros Hc. induction s as [| a s IH]; cbn; trivial. intros H.
  apply andb_prop in H as [Ha Hs]. rewrite (IH Hs), orb_false_r.
  destruct (Ascii.eqb_spec a c) as [-> |]; congruence.
Qed.

Lemma canonical_entry (folder stem date path hhmm : string) (size : Z) :
  stem = "weather_" \/ stem = "temperature_" ->
  String.length hhmm = 4 -> digits hhmm = true ->
  contains "latest" (folder ++ path ++ "/" ++ stem ++ hhmm ++ ".json") = false ->
  entry_of stem date (mkObject (folder ++ path ++ "/" ++ stem ++ hhmm ++ ".json") size)
  = [mkFileInfo (folder ++ path ++ "/" ++ stem ++ hhmm ++ ".json")
                (date ++ "T" ++ take 2 hhmm ++ ":" ++ drop 2 hhmm ++ ":00+08:00") size].
Proof.
  intros St L D C.
  set (key := folder ++ path ++ "/" ++ stem ++ hhmm ++ ".json") in *.
  assert (endswith key ".json" = true) as E1.
  { replace key with ((folder ++ path ++ "/" ++ stem ++ hhmm) ++ ".json")
      by (subst key; now rewrite !string_append_assoc).
    apply endswith_append. }
  assert (last (split "/" key) "" = stem ++ hhmm ++ ".json") as E2.
  { replace key with ((folder ++ path) ++ String "/" (stem ++ hhmm ++ ".json"))
      by (subst key; now rewrite !string_append_assoc).
    rewrite (proj2 (split_last "/" (stem ++ hhmm ++ ".json") "" (folder ++ path))).
    rewrite split_absent; [reflexivity|].
    rewrite !occurs_append, (digits_occurs "/" hhmm eq_refl D).
    destruct St as [-> | ->]; reflexivity. }
  assert (replace ".json" "" (replace stem "" (stem ++ hhmm ++ ".json")) = hhmm) as E3.
  { assert (replace stem "" (stem ++ hhmm ++ ".json") = hhmm ++ ".json") as ->.
    { destruct St as [-> | ->]; rewrite replace_front; cbn [append];
        apply replace_none; rewrite occurs_append.
      - now rewrite (digits_occurs "w" hhmm eq_refl D).
      - now rewrite (digits_occurs "t" hhmm eq_refl D). }
    unfold replace. rewrite replace_absent by (apply (digits_occurs "." hhmm eq_refl D)).
    cbn. apply string_append_nil. }
  unfold entry_of. cbv zeta. cbn [Key Size].
  rewrite E1, C, E2. cbn [negb andb]. unfold startswith. rewrite prefix_append, E3, L.
  reflexivity.
Qed.

(** ** The dates of the bucket *)

Lemma for_each_pure {A : Type} (g : A -> list string) (items : list A) :
  for_each (fun a => Ok (g a)) items = Ok (flat_map g items).
Proof. induction items as [| a l IH]; cbn; trivial. now rewrite IH. Qed.

Lemma for_each_spec {A : Type} (body : A -> result (list string)) (ok : A -> bool)
    (g : A -> list string) (items : list A) :
  (forall a, In a items ->
             if ok a then body a = Ok (g a) else exists e, body a = Raise (OtherError e)) ->
  if forallb ok items then for_each body items = Ok (flat_map g items)
  else exists e, for_each body items = Raise (OtherError e).
Proof.
  induction items as [| a l IH]; intros H; cbn; trivial.
  pose proof (H a (or_introl eq_refl)) as Ha.
  specialize (IH (fun b Hb => H b (or_intror Hb))).
  destruct (ok a); cbn [andb].
  - rewrite Ha. cbn [rbind]. destruct (forallb ok l).
    + now rewrite IH.
    + destruct IH as [e ->]. cbn. eauto.
  - destruct Ha as [e ->]. cbn. eauto.
Qed.

Lemma paginate_spec (client : s3_client) (prefix : string)
    (body : string -> result (list string)) (ok : string -> bool)
    (g : string -> list string) :
  (forall a, In a (fst (common_prefixes client prefix)) ->
             if ok a then body a = Ok (g a) else exists e, body a = Raise (OtherError e)) ->
  if no_error client prefix && forallb ok (fst (common_prefixes client prefix))
  then paginate (common_prefixes client prefix) body
       = Ok (flat_map g (fst (common_prefixes client prefix)))
  else exists e, paginate (common_prefixes client prefix) body = Raise (OtherError e).
Proof.
  intros H. apply for_each_spec in H. unfold paginate, no_error.
  destruct (forallb ok _).
  - rewrite H, andb_true_r. cbn [rbind].
    destruct (snd (common_prefixes client prefix)); cbn; eauto.
  - rewrite andb_false_r. destruct H as [e ->]. cbn. eauto.
Qed.

Lemma forallb_flat_map {A B : Type} (p : B -> bool) (f : A -> list B) (l : list A) :
  forallb p (flat_map f l) = forallb (fun a => forallb p (f a)) l.
Proof. induction l as [| a l IH]; cbn; trivial. now rewrite forallb_app, IH. Qed.

Lemma forallb_andb {A : Type} (p q : A -> bool) (l : list A) :
  forallb (fun a => p a && q a) l = forallb p l && forallb q l.
Proof.
  induction l as [| a l IH]; cbn; trivial. rewrite IH.
  destruct (p a), (q a), (forallb p l); reflexivity.
Qed.

Lemma flat_map_flat_map {A B C : Type} (f : A -> list B) (g : B -> list C) (l : list A) :
  flat_map g (flat_map f l) = flat_map (fun a => flat_map g (f a)) l.
Proof. induction l as [| a l IH]; cbn; trivial. now rewrite flat_map_app, IH. Qed.

Lemma list_dates_in_run (folder : string) (client : s3_client) :
  if listing_succeeds folder client
  then list_dates_in folder client
       = (sorted_set (flat_map date_of_prefix (day_prefixes folder client)), [])
  else exists e, list_dates_in folder client = ([], ["Error listing S3 data: " ++ e]).
Proof.
  unfold list_dates_in.
  set (inner := fun month_prefix =>
                  paginate (common_prefixes client month_prefix)
                           (fun day_prefix => Ok (date_of_prefix day_prefix))).
  set (middle := fun year_prefix => paginate (common_prefixes client year_prefix) inner).
  set (ok_m := no_error client).
  set (g_m := fun m => flat_map date_of_prefix (fst (common_prefixes client m))).
  set (ok_y := fun y => no_error client y && forallb ok_m (fst (common_prefixes client y))).
  set (g_y := fun y => flat_map g_m (fst (common_prefixes client y))).
  assert (forall m, if ok_m m then inner m = Ok (g_m m)
                    else exists e, inner m = Raise (OtherError e)) as Inner.
  { intros m. subst inner ok_m g_m. cbv beta. unfold paginate, no_error.
    rewrite for_each_pure. cbn [rbind].
    destruct (snd (common_prefixes client m)); eauto. }
  assert (forall y, if ok_y y then middle y = Ok (g_y y)
                    else exists e, middle y = Raise (OtherError e)) as Middle.
  { intros y. subst middle ok_y g_y. cbv beta.
    apply paginate_spec. intros m _. apply Inner. }
  pose proof (paginate_spec client folder middle ok_y g_y (fun y _ => Middle y)) as Top.
  assert (listing_succeeds folder client
          = no_error client folder && forallb ok_y (fst (common_prefixes client folder))) as S.
  { unfold listing_succeeds, listed_prefixes, month_prefixes, year_prefixes.
    cbn [forallb]. fold (no_error client folder). f_equal.
    rewrite forallb_app, forallb_flat_map. subst ok_y ok_m. cbv beta.
    rewrite forallb_andb. reflexivity. }
  rewrite S. destruct (no_error client folder && _).
  - fold middle. rewrite Top. f_equal. f_equal.
    unfold day_prefixes, month_prefixes, year_prefixes. subst g_y g_m. cbv beta.
    now rewrite !flat_map_flat_map.
  - fold middle. destruct Top as [e ->]. eauto.
Qed.

Lemma sorted_set_spec (l : list string) :
  (forall d, In d (sorted_set l) <-> In d l) /\
  NoDup (sorted_set l) /\
  StronglySorted (by_key (fun s => s)) (sorted_set l).
Proof.
  unfold sorted_set. pose proof (sorted_by_perm (fun s : string => s) (nodup string_dec l)) as P.
  split; [|split].
  - intros d. split; intros H.
    + apply (nodup_In string_dec). exact (Permutation_in _ P H).
    + apply (Permutation_in _ (Permutation_sym P)). now apply (nodup_In string_dec).
  - eapply Permutation_NoDup; [symmetry; exact P | apply NoDup_nodup].
  - apply sorted_by_sorted.
Qed.

Lemma rstrip_end (c : ascii) (d : string) :
  d <> "" -> occurs c d = false -> rstrip c (d ++ String c "") = d.
Proof.
  induction d as [| a d IH]; [congruence|]. intros _ H. cbn [occurs] in H.
  apply orb_false_elim in H as [Ha Hd]. cbn [append rstrip].
  destruct d as [| b d].
  - cbn. now rewrite Ascii.eqb_refl, Ha.
  - rewrite IH by (trivial || discriminate). reflexivity.
Qed.

Lemma rstrip_append (c : ascii) (a b : string) :
  rstrip c b <> "" -> rstrip c (a ++ b) = a ++ rstrip c b.
Proof.
  intros H. induction a as [| x a IH]; cbn [append rstrip]; trivial.
  rewrite IH. destruct (a ++ rstrip c b) eqn:E; trivial.
  destruct a; cbn in E; [congruence | discriminate].
Qed.

Lemma split_append (sep : ascii) (a b : string) :
  occurs sep a = false -> split sep (a ++ String sep b) = a :: split sep b.
Proof.
  induction a as [| x a IH]; cbn [occurs append split]; intros H.
  - now rewrite Ascii.eqb_refl.
  - apply orb_false_elim in H as [Hx Ha]. now rewrite Hx, (IH Ha).
Qed.

Lemma In_skipn {A : Type} (n : nat) (l : list A) (a : A) : In a (skipn n l) -> In a l.
Proof. intros H. rewrite <- (firstn_skipn n l). apply in_or_app. now right. Qed.

Lemma selected_files_listed (reader : S3WeatherReader) (start_date end_date : option string)
    (max_frames : Z) (f : file_info) :
  In f (selected_files reader start_date end_date max_frames) ->
  exists date,
    In date (fst (list_dates reader)) /\ in_range start_date end_date date = true /\
    In f (fst (list_files_by_date reader date)).
Proof.
  unfold selected_files. cbv zeta. intros H.
  assert (In f (listed_files reader start_date end_date)) as I.
  { destruct (_ <? _)%Z; trivial. unfold slice_from in H. eapply In_skipn; eauto. }
  unfold listed_files in I. apply in_flat_map in I as (date & D & F).
  apply filter_In in D as [D R]. eauto.
Qed.

Lemma bucket_run_returned : DemoRun.returned DemoBucket.run = true.
Proof. vm_compute. reflexivity. Qed.

(** ** Properties of the listings *)

Import DemoBucket.

(** X16.  The entries of [list_files_by_date]: every file listed for a date
    comes from an object under the prefix of that date whose key ends in
    [.json] and does not contain [latest]; it has the key and the size of
    the object, and its time is the date given, [T], two characters for the
    hour, [:], two for the minute and [:00+08:00]. *)
Theorem listed_files_well_formed
    (folder stem : string) (client : s3_client) (date : string) (f : file_info) :
  In f (fst (list_files_by_date_in folder stem client date)) ->
  exists path obj hour minute,
    date_path client date = Some path /\
    In obj (fst (contents client (folder ++ path ++ "/"))) /\
    file_key f = Key obj /\ file_size f = Size obj /\
    endswith (Key obj) ".json" = true /\ contains "latest" (Key obj) = false /\
    String.length hour = 2 /\ String.length minute = 2 /\
    file_time f = date ++ "T" ++ hour ++ ":" ++ minute ++ ":00+08:00".
Proof.
  rewrite list_files_by_date_in_run.
  destruct (date_path client date) as [path |]; [|intros []]. cbn [fst].
  intros H. apply (Permutation_in _ (sorted_by_perm file_time _)) in H.
  apply in_flat_map in H as (obj & I & H).
  destruct (entry_of_spec _ _ _ _ H) as (hour & minute & K).
  exists path, obj, hour, minute. auto.
Qed.

Lemma listed_files_well_formed_witness :
  exists path obj hour minute,
    date_path DemoBucket.client "2025-01-10" = Some path /\
    In obj (fst (contents DemoBucket.client ("weather/" ++ path ++ "/"))) /\
    file_key (mkFileInfo "weather/2025/01/10/weather_0930.json"
                         "2025-01-10T09:30:00+08:00" 2048) = Key obj /\
    file_size (mkFileInfo "weather/2025/01/10/weather_0930.json"
                          "2025-01-10T09:30:00+08:00" 2048) = Size obj /\
    endswith (Key obj) ".json" = true /\ contains "latest" (Key obj) = false /\
    String.length hour = 2 /\ String.length minute = 2 /\
    file_time (mkFileInfo "weather/2025/01/10/weather_0930.json"
                          "2025-01-10T09:30:00+08:00" 2048)
    = "2025-01-10" ++ "T" ++ hour ++ ":" ++ minute ++ ":00+08:00".
Proof.
  apply (@listed_files_well_formed "weather/" "weather_" DemoBucket.client "2025-01-10").
  vm_compute. auto.
Defined.

(** X17.  The order of [list_files_by_date]: the files are returned in the
    order of their times, and they are the entries of all the objects that the
    listing brought, each once, also when the listing ended in a
    [ClientError]: then the objects of the pages received are kept and one line
    is printed.  A date that [strptime] refuses gives no file and no line. *)
Theorem listed_files_sorted
    (folder stem : string) (client : s3_client) (date : string) :
  StronglySorted (by_key file_time) (fst (list_files_by_date_in folder stem client date)) /\
  match date_path client date with
  | Some path =>
      Permutation (fst (list_files_by_date_in folder stem client date))
                  (flat_map (entry_of stem date)
                            (fst (contents client (folder ++ path ++ "/")))) /\
      snd (list_files_by_date_in folder stem client date)
      = match snd (contents client (folder ++ path ++ "/")) with
        | Some e => ["Error listing files for " ++ date ++ ": " ++ e]
        | None => []
        end
  | None => list_files_by_date_in folder stem client date = ([], [])
  end.
Proof.
  rewrite list_files_by_date_in_run.
  destruct (date_path client date) as [path |]; cbn [fst snd].
  - split; [apply sorted_by_sorted|]. split; [apply sorted_by_perm | reflexivity].
  - split; [constructor | reflexivity].
Qed.

(** X18.  A file under its usual name is listed: an object
    [<folder><path>/weather_HHMM.json] (or [temperature_HHMM.json]) under the
    prefix of the date, [HHMM] being four digits and [latest] not part of the
    key, gives the file with that key and the time [<date>THH:MM:00+08:00]. *)
Theorem canonical_key_listed
    (folder stem : string) (client : s3_client) (date path hhmm : string) (size : Z) :
  stem = "weather_" \/ stem = "temperature_" ->
  String.length hhmm = 4 -> digits hhmm = true ->
  contains "latest" (folder ++ path ++ "/" ++ stem ++ hhmm ++ ".json") = false ->
  date_path client date = Some path ->
  In (mkObject (folder ++ path ++ "/" ++ stem ++ hhmm ++ ".json") size)
     (fst (contents client (folder ++ path ++ "/"))) ->
  In (mkFileInfo (folder ++ path ++ "/" ++ stem ++ hhmm ++ ".json")
                 (date ++ "T" ++ take 2 hhmm ++ ":" ++ drop 2 hhmm ++ ":00+08:00") size)
     (fst (list_files_by_date_in folder stem client date)).
Proof.
  intros St L D C P I. rewrite list_files_by_date_in_run, P. cbn [fst].
  apply (Permutation_in _ (Permutation_sym (sorted_by_perm file_time _))).
  apply in_flat_map. eexists. split; [exact I|].
  rewrite (@canonical_entry folder stem date path hhmm size St L D C). now left.
Qed.

Lemma canonical_key_listed_witness :
  In (mkFileInfo ("weather/" ++ "2025/01/10" ++ "/" ++ "weather_" ++ "0930" ++ ".json")
                 ("2025-01-10" ++ "T" ++ take 2 "0930" ++ ":" ++ drop 2 "0930" ++ ":00+08:00")
                 2048)
     (fst (list_files_by_date_in "weather/" "weather_" DemoBucket.client "2025-01-10")).
Proof.
  apply (@canonical_key_listed "weather/" "weather_" DemoBucket.client
           "2025-01-10" "2025/01/10" "0930" 2048).
  - now left.
  - reflexivity.
  - reflexivity.
  - reflexivity.
  - reflexivity.
  - vm_compute. auto.
Defined.

(** X19.  [list_dates] is all or nothing: when none of the listings of the
    folder, of its years and of their months ends in a [ClientError], it
    returns the dates of all the day prefixes found, each once and in
    ascending order, and prints nothing; when one of them does, it returns no
    date at all, whatever was found before, and prints one error line. *)
Theorem list_dates_all_or_nothing (folder : string) (client : s3_client) :
  if listing_succeeds folder client
  then snd (list_dates_in folder client) = [] /\
       (forall d, In d (fst (list_dates_in folder client)) <->
                  In d (flat_map date_of_prefix (day_prefixes folder client))) /\
       NoDup (fst (list_dates_in folder client)) /\
       StronglySorted (by_key (fun s => s)) (fst (list_dates_in folder client))
  else fst (list_dates_in folder client) = [] /\
       exists e, snd (list_dates_in folder client) = ["Error listing S3 data: " ++ e].
Proof.
  pose proof (list_dates_in_run folder client) as R.
  destruct (listing_succeeds folder client).
  - rewrite R. cbn [fst snd]. split; [reflexivity | apply sorted_set_spec].
  - destruct R as [e ->]. cbn [fst snd]. eauto.
Qed.

(** X20.  The date of a day prefix: a prefix [<folder>/<year>/<month>/<day>/]
    whose four parts hold no slash, the day not being empty, gives the date
    [<year>-<month>-<day>]. *)
Theorem date_of_day_prefix (folder year month day : string) :
  occurs "/" folder = false -> occurs "/" year = false ->
  occurs "/" month = false -> occurs "/" day = false -> day <> "" ->
  date_of_prefix (folder ++ "/" ++ year ++ "/" ++ month ++ "/" ++ day ++ "/")
  = [year ++ "-" ++ month ++ "-" ++ day].
Proof.
  intros F Y M D N. unfold date_of_prefix. cbv zeta.
  assert (rstrip "/" (folder ++ "/" ++ year ++ "/" ++ month ++ "/" ++ day ++ "/")
          = folder ++ "/" ++ year ++ "/" ++ month ++ "/" ++ day) as ->.
  { assert (rstrip "/" (day ++ "/") = day) as E by (apply rstrip_end; trivial).
    replace (folder ++ "/" ++ year ++ "/" ++ month ++ "/" ++ day ++ "/")
      with ((folder ++ "/" ++ year ++ "/" ++ month ++ "/") ++ (day ++ "/"))
      by (now rewrite !string_append_assoc).
    rewrite rstrip_append by (now rewrite E).
    rewrite E. now rewrite !string_append_assoc. }
  cbn [append].
  rewrite (split_append "/" folder _ F), (split_append "/" year _ Y),
    (split_append "/" month _ M), (split_absent "/" day D).
  reflexivity.
Qed.

Lemma date_of_day_prefix_witness :
  date_of_prefix ("weather" ++ "/" ++ "2025" ++ "/" ++ "01" ++ "/" ++ "10" ++ "/")
  = ["2025" ++ "-" ++ "01" ++ "-" ++ "10"].
Proof.
  apply (@date_of_day_prefix "weather" "2025" "01" "10"); try reflexivity. discriminate.
Defined.

(** X21.  The times of the frames of a run over the bucket: every frame
    carries the time of a file listed for a date of the bucket that lies in
    the range asked, in the form [<date>THH:MM:00+08:00] built from the name
    of the file. *)
Theorem run_frame_times
    (scipy_interpolator :
       method -> list (float * float) -> list float -> result (float -> float -> float))
    (np_mean : list float -> float) (client : s3_client)
    (documents : string -> option weather_json * list string)
    (start_date end_date : option string) (max_frames : Z) (p p' : process)
    (frames : list frame) :
  download_and_interpolate_humidity scipy_interpolator np_mean
    (weather_reader client documents) start_date end_date max_frames p = (Ok frames, p') ->
  Forall (fun fr =>
            exists date hour minute,
              In date (fst (list_dates_in "weather/" client)) /\
              in_range start_date end_date date = true /\
              String.length hour = 2 /\ String.length minute = 2 /\
              frame_time fr = date ++ "T" ++ hour ++ ":" ++ minute ++ ":00+08:00") frames.
Proof.
  intros H. destruct (download_returned _ _ _ _ _ _ _ H) as (E & _).
  pose proof (frames_of_times _ _ _ _ _ E) as T.
  apply Forall_forall. intros fr I.
  apply (in_map frame_time) in I. rewrite T in I.
  apply in_map_iff in I as (f & <- & I). apply filter_In in I as [I _].
  apply selected_files_listed in I as (date & D & R & F).
  cbn [weather_reader list_dates list_files_by_date] in D, F.
  rewrite list_files_by_date_in_run in F.
  destruct (date_path client date) as [path |]; [|destruct F]. cbn [fst] in F.
  apply (Permutation_in _ (sorted_by_perm file_time _)) in F.
  apply in_flat_map in F as (obj & _ & F).
  destruct (entry_of_spec _ _ _ _ F) as (hour & minute & _ & _ & _ & _ & Lh & Lm & Tm).
  exists date, hour, minute. auto.
Qed.

Lemma run_frame_times_witness :
  Forall (fun fr =>
            exists date hour minute,
              In date (fst (list_dates_in "weather/" DemoBucket.client)) /\
              in_range None None date = true /\
              String.length hour = 2 /\ String.length minute = 2 /\
              frame_time fr = date ++ "T" ++ hour ++ ":" ++ minute ++ ":00+08:00")
         (DemoRun.frames_by DemoBucket.run).
Proof.
  apply (@run_frame_times plane_interpolator mean DemoBucket.client DemoBucket.documents
           None None 720 DemoRun.start (snd DemoBucket.run) (DemoRun.frames_by DemoBucket.run)).
  exact (returned_run DemoBucket.run bucket_run_returned).
Defined.

(** ** The environment file *)

Lemma free_of_append (p : ascii -> bool) (a b : string) :
  free_of p (a ++ b) = free_of p a && free_of p b.
Proof. induction a as [| c a IH]; cbn; trivial. now rewrite IH, andb_assoc. Qed.

Lemma lstrip_all (p : ascii -> bool) (a x : string) :
  all_of p a = true -> lstrip_if p (a ++ x) = lstrip_if p x.
Proof.
  induction a as [| c a IH]; cbn; trivial. intros H. apply andb_prop in H as [-> H]. auto.
Qed.

Lemma lstrip_free (p : ascii -> bool) (x : string) :
  free_of p x = true -> lstrip_if p x = x.
Proof.
  destruct x as [| c x]; cbn; trivial. intros H. apply andb_prop in H as [H _].
  now destruct (p c).
Qed.

Lemma rstrip_free (p : ascii -> bool) (x : string) :
  free_of p x = true -> rstrip_if p x = x.
Proof.
  induction x as [| c x IH]; cbn; trivial. intros H. apply andb_prop in H as [Hc Hx].
  rewrite (IH Hx). destruct x; [now destruct (p c) | reflexivity].
Qed.

Lemma rstrip_all (p : ascii -> bool) (b : string) :
  all_of p b = true -> rstrip_if p b = EmptyString.
Proof.
  induction b as [| c b IH]; cbn; trivial. intros H. apply andb_prop in H as [-> H].
  now rewrite (IH H).
Qed.

Lemma rstrip_tail (p : ascii -> bool) (x b : string) :
  all_of p b = true -> rstrip_if p (x ++ b) = rstrip_if p x.
Proof.
  intros H. induction x as [| c x IH]; cbn [append rstrip_if]; [now apply rstrip_all|].
  now rewrite IH.
Qed.

Lemma lstrip_only (p : ascii -> bool) (b : string) :
  all_of p b = true -> lstrip_if p b = EmptyString.
Proof.
  induction b as [| c b IH]; cbn; trivial. intros H. apply andb_prop in H as [-> H]. auto.
Qed.

(** Stripping a string that is free of the characters stripped, wrapped in
    such characters, gives the string. *)
Lemma strip_wrapped (p : ascii -> bool) (a x b : string) :
  all_of p a = true -> all_of p b = true -> free_of p x = true ->
  strip_if p (a ++ x ++ b) = x.
Proof.
  intros A B X. unfold strip_if. rewrite (lstrip_all _ _ _ A).
  destruct x as [| c x].
  - cbn [append]. now rewrite (lstrip_only _ _ B).
  - pose proof X as X'. cbn in X. apply andb_prop in X as [Hc _].
    cbn [append lstrip_if]. destruct (p c); [discriminate|].
    change (String c (x ++ b)) with (String c x ++ b).
    rewrite (rstrip_tail _ _ _ B). now apply rstrip_free.
Qed.

Lemma strip_free (p : ascii -> bool) (x : string) :
  free_of p x = true -> strip_if p x = x.
Proof. intros H. unfold strip_if. now rewrite (lstrip_free _ _ H), (rstrip_free _ _ H). Qed.

Lemma split1_absent (sep : ascii) (key value : string) :
  occurs sep key = false -> split1 sep (key ++ String sep value) = (key, value).
Proof.
  induction key as [| c key IH]; cbn [occurs append split1]; intros H.
  - now rewrite Ascii.eqb_refl.
  - apply orb_false_elim in H as [Hc Hk]. now rewrite Hc, (IH Hk).
Qed.

Lemma plain_char_spec (c : ascii) :
  plain_char c = true ->
  isspace c = false /\ isquote c = false /\ (c =? "=")%char = false /\
  (c =? "#")%char = false /\ (c =? Ascii.zero)%char = false.
Proof.
  unfold plain_char. rewrite negb_true_iff. intros H.
  apply orb_false_elim in H as [H H5]. apply orb_false_elim in H as [H H4].
  apply orb_false_elim in H as [H H3]. apply orb_false_elim in H as [H1 H2]. auto.
Qed.

Lemma plain_spec (s : string) :
  plain s = true ->
  free_of isspace s = true /\ free_of isquote s = true /\
  occurs "=" s = false /\ occurs Ascii.zero s = false.
Proof.
  induction s as [| c s IH]; cbn; [auto|]. intros H. apply andb_prop in H as [Hc Hs].
  destruct (IH Hs) as (I1 & I2 & I3 & I4).
  destruct (plain_char_spec _ Hc) as (C1 & C2 & C3 & _ & C5).
  now rewrite C1, C2, C3, C5, I1, I2, I3, I4.
Qed.

Lemma quotes_free_of_space (q : string) : all_of isquote q = true -> free_of isspace q = true.
Proof.
  induction q as [| c q IH]; cbn; trivial. intros H. apply andb_prop in H as [Hc Hq].
  rewrite (IH Hq), andb_true_r. unfold isquote in Hc.
  apply orb_prop in Hc as [Hc | Hc]; apply Ascii.eqb_eq in Hc; subst c; reflexivity.
Qed.

(** A line [<name>=<value>] written plainly, with or without quotes around
    the value, indented or followed by whitespace. *)
Lemma parse_plain_line (indent name q1 value q2 trailing : string) :
  all_of isspace indent = true -> all_of isspace trailing = true ->
  all_of isquote q1 = true -> all_of isquote q2 = true ->
  plain name = true -> name <> EmptyString -> plain value = true ->
  parse_line (indent ++ (name ++ "=" ++ q1 ++ value ++ q2) ++ trailing) = Some (name, value).
Proof.
  intros I T Q1 Q2 N NE V. unfold parse_line. cbv zeta.
  destruct (plain_spec _ N) as (N1 & N2 & N3 & N4).
  destruct (plain_spec _ V) as (V1 & V2 & V3 & V4).
  pose proof (quotes_free_of_space _ Q1) as S1. pose proof (quotes_free_of_space _ Q2) as S2.
  assert (free_of isspace (q1 ++ value ++ q2) = true) as FR
    by now rewrite !free_of_append, S1, V1, S2.
  rewrite (strip_wrapped isspace indent _ trailing I T).
  2:{ rewrite !free_of_append, N1, S1, V1, S2. reflexivity. }
  destruct name as [| c name]; [congruence|].
  cbn in N. apply andb_prop in N as [Nc _].
  destruct (plain_char_spec _ Nc) as (_ & _ & _ & C4 & _).
  assert (startswith (String c name ++ "=" ++ q1 ++ value ++ q2) "#" = false) as ->.
  { unfold startswith. cbn [append String.prefix].
    destruct (ascii_dec "#" c) as [<- |]; trivial.
    now rewrite Ascii.eqb_refl in C4. }
  assert (occurs "=" (String c name ++ "=" ++ q1 ++ value ++ q2) = true) as ->.
  { rewrite occurs_append. cbn [append occurs]. rewrite Ascii.eqb_refl. cbn.
    now rewrite orb_true_r. }
  cbn [String.eqb append negb andb].
  change (String c (name ++ String "=" (q1 ++ value ++ q2)))
    with (String c name ++ String "=" (q1 ++ value ++ q2)).
  rewrite (split1_absent "=" (String c name) _ N3).
  rewrite (strip_free _ _ N1), (strip_free _ _ FR).
  now rewrite (strip_wrapped isquote q1 value q2 Q1 Q2 V2).
Qed.

Lemma getenv_app (name : string) (a b : environ) :
  getenv name (a ++ b)%list = match getenv name a with
                              | Some v => Some v
                              | None => getenv name b
                              end.
Proof.
  induction a as [| [k v] a IH]; cbn; trivial. now destruct (k =? name)%string.
Qed.

(** The loop over the lines: the names it assigns are put in front of the
    environment, line after line. *)
Lemma load_lines_returned (lines : list string) : forall env env' : environ,
  load_lines lines env = (Ok tt, env') ->
  exists added : environ,
    env' = (added ++ env)%list /\
    map fst added = rev (assigned lines) /\
    forall line name value before after,
      lines = (before ++ line :: after)%list ->
      parse_line line = Some (name, value) ->
      ~ In name (assigned after) ->
      getenv name added = Some value.
Proof.
  induction lines as [| line lines IH]; intros env env' H.
  - cbn in H. injection H as <-. exists []. split; [reflexivity|]. split; [reflexivity|].
    intros ? ? ? [| ? ?] ? E; discriminate.
  - cbn [load_lines] in H. unfold and_then in H.
    destruct (parse_line line) as [[key value] |] eqn:P.
    + unfold setenv in H.
      destruct (occurs Ascii.zero key || occurs Ascii.zero value); [discriminate|].
      destruct (key =? EmptyString)%string; [discriminate|].
      destruct (IH _ _ H) as (added & -> & M & K).
      exists (added ++ [(key, value)])%list.
      split; [now rewrite <- app_assoc|].
      split; [unfold assigned in *; cbn [flat_map]; rewrite P; cbn [app rev];
              rewrite map_app, M; reflexivity|].
      intros l name v before after E Pl NI. rewrite getenv_app.
      destruct before as [| b before]; cbn [app] in E; injection E as -> ->.
      * rewrite P in Pl. injection Pl as -> ->.
        assert (getenv name added = None) as ->.
        { destruct (getenv name added) as [x |] eqn:G; trivial. exfalso. apply NI.
          apply in_rev. rewrite <- M. clear - G.
          induction added as [| [k w] added IH]; [discriminate|]. cbn in *.
          destruct (String.eqb_spec k name); [now left | right; auto]. }
        cbn. now rewrite String.eqb_refl.
      * now rewrite (K l name v before after eq_refl Pl NI).
    + unfold done at 1 in H. destruct (IH _ _ H) as (added & -> & M & K).
      exists added. split; [reflexivity|].
      split; [unfold assigned in *; cbn [flat_map]; now rewrite P|].
      intros l name v before after E Pl NI.
      destruct before as [| b before]; cbn [app] in E; injection E as -> ->.
      * congruence.
      * exact (K l name v before after eq_refl Pl NI).
Qed.

Lemma getenv_None (name : string) (added : environ) :
  ~ In name (map fst added) -> getenv name added = None.
Proof.
  induction added as [| [k v] added IH]; cbn; trivial. intros H.
  destruct (String.eqb_spec k name) as [-> |]; [tauto | auto].
Qed.

(** ** Properties of the environment file *)

Import DemoEnv.

(** X22.  A plain line of the environment file: a line [<name>=<value>],
    the value bare or wrapped in quote characters, the line indented or not
    and with its line end, assigns the value to the name, when the name and the
    value hold no whitespace, quote, [=], [#] or NUL and the name is not
    empty.  Comments, blank lines and lines without [=] assign nothing. *)
Theorem plain_line_parsed (indent name q1 value q2 trailing : string) :
  all_of isspace indent = true -> all_of isspace trailing = true ->
  all_of isquote q1 = true -> all_of isquote q2 = true ->
  plain name = true -> name <> EmptyString -> plain value = true ->
  parse_line (indent ++ (name ++ "=" ++ q1 ++ value ++ q2) ++ trailing) = Some (name, value) /\
  parse_line (indent ++ trailing) = None /\
  parse_line (indent ++ ("#" ++ name ++ "=" ++ value) ++ trailing) = None /\
  parse_line (indent ++ name ++ trailing) = None.
Proof.
  intros I T Q1 Q2 N NE V. split; [now apply parse_plain_line|].
  destruct (plain_spec _ N) as (N1 & N2 & N3 & N4).
  destruct (plain_spec _ V) as (V1 & V2 & V3 & V4).
  split; [|split].
  - pose proof (strip_wrapped isspace indent EmptyString trailing I T eq_refl) as E.
    cbn [append] in E. unfold parse_line. cbv zeta. rewrite E. reflexivity.
  - unfold parse_line. cbv zeta. rewrite (strip_wrapped isspace indent _ trailing I T).
    + cbn [append]. unfold startswith. cbn [String.prefix].
      destruct (ascii_dec "#" "#") as [_ | Ne]; [|congruence].
      assert (String.prefix EmptyString (name ++ String "=" value) = true) as ->
        by now destruct (name ++ String "=" value).
      cbn [negb]. now rewrite andb_false_r.
    + cbn [append free_of]. rewrite !free_of_append, N1. cbn [free_of]. now rewrite V1.
  - unfold parse_line. cbv zeta.
    rewrite (strip_wrapped isspace indent name trailing I T N1).
    rewrite N3. now rewrite !andb_false_r.
Qed.

Lemma plain_line_parsed_witness :
  parse_line ("  " ++ ("S3_REGION" ++ "=" ++ "'" ++ "ap-east-1" ++ "'") ++ newline)
  = Some ("S3_REGION", "ap-east-1") /\
  parse_line ("  " ++ newline) = None /\
  parse_line ("  " ++ ("#" ++ "S3_REGION" ++ "=" ++ "ap-east-1") ++ newline) = None /\
  parse_line ("  " ++ "S3_REGION" ++ newline) = None.
Proof.
  apply (@plain_line_parsed "  " "S3_REGION" "'" "ap-east-1" "'" newline);
    try reflexivity. discriminate.
Defined.

(** X23.  The file wins over the environment, and its last line wins:
    without [python-dotenv], after [load_env_file] has returned, a name that
    the file assigns holds the value of the last line that assigns it,
    whatever the environment held before, and every other name holds what it
    held; the configuration returned is read from that environment, with the
    default region only when [S3_REGION] is not set at all. *)
Theorem env_file_overrides
    (load_dotenv : option (list string) -> environ -> environ)
    (lines : list string) (env env' : environ) (config : s3_config) :
  load_env_file false load_dotenv (Some lines) env = (Ok config, env') ->
  (forall line name value before after,
     lines = (before ++ line :: after)%list ->
     parse_line line = Some (name, value) ->
     ~ In name (assigned after) ->
     getenv name env' = Some value) /\
  (forall name, ~ In name (assigned lines) -> getenv name env' = getenv name env) /\
  S3_BUCKET config = getenv "S3_BUCKET" env' /\
  S3_ACCESS_KEY config = getenv "S3_ACCESS_KEY" env' /\
  S3_SECRET_KEY config = getenv "S3_SECRET_KEY" env' /\
  S3_ENDPOINT config = getenv "S3_ENDPOINT" env' /\
  S3_REGION config = match getenv "S3_REGION" env' with
                     | Some region => Some region
                     | None => Some "ap-northeast-1"
                     end.
Proof.
  unfold load_env_file, and_then. intros H.
  destruct (load_lines lines env) as [[[] | e] env1] eqn:L; [|discriminate].
  injection H as <- <-.
  destruct (@load_lines_returned lines env env1 L) as (added & -> & M & K).
  split; [|split; [|cbn; auto 6]].
  - intros line name value before after E P NI. rewrite getenv_app.
    now rewrite (K line name value before after E P NI).
  - intros name NI. rewrite getenv_app, getenv_None; trivial.
    rewrite M. now rewrite <- in_rev.
Qed.

Lemma env_file_overrides_witness :
  (forall line name value before after,
     DemoEnv.lines = (before ++ line :: after)%list ->
     parse_line line = Some (name, value) ->
     ~ In name (assigned after) ->
     getenv name (snd (load_env_file false no_dotenv (Some DemoEnv.lines) environment))
     = Some value) /\
  (forall name, ~ In name (assigned DemoEnv.lines) ->
     getenv name (snd (load_env_file false no_dotenv (Some DemoEnv.lines) environment))
     = getenv name environment) /\
  S3_BUCKET (mkConfig (Some "weather-data") None None (Some "ap-east-1") None)
  = getenv "S3_BUCKET" (snd (load_env_file false no_dotenv (Some DemoEnv.lines) environment)) /\
  S3_ACCESS_KEY (mkConfig (Some "weather-data") None None (Some "ap-east-1") None)
  = getenv "S3_ACCESS_KEY"
      (snd (load_env_file false no_dotenv (Some DemoEnv.lines) environment)) /\
  S3_SECRET_KEY (mkConfig (Some "weather-data") None None (Some "ap-east-1") None)
  = getenv "S3_SECRET_KEY"
      (snd (load_env_file false no_dotenv (Some DemoEnv.lines) environment)) /\
  S3_ENDPOINT (mkConfig (Some "weather-data") None None (Some "ap-east-1") None)
  = getenv "S3_ENDPOINT"
      (snd (load_env_file false no_dotenv (Some DemoEnv.lines) environment)) /\
  S3_REGION (mkConfig (Some "weather-data") None None (Some "ap-east-1") None)
  = match getenv "S3_REGION"
            (snd (load_env_file false no_dotenv (Some DemoEnv.lines) environment)) with
    | Some region => Some region
    | None => Some "ap-northeast-1"
    end.
Proof.
  apply (@env_file_overrides no_dotenv DemoEnv.lines environment
           (snd (load_env_file false no_dotenv (Some DemoEnv.lines) environment))
           (mkConfig (Some "weather-data") None None (Some "ap-east-1") None)).
  reflexivity.
Defined.

(** X24.  A line without name stops the script: when a line of the file has
    [=] with nothing but whitespace before it, [load_env_file] (without
    [python-dotenv]) raises; no configuration is returned. *)
Theorem env_file_empty_name_raises
    (load_dotenv : option (list string) -> environ -> environ)
    (lines : list string) (line value : string) (env : environ) :
  In line lines -> parse_line line = Some (EmptyString, value) ->
  exists e env', load_env_file false load_dotenv (Some lines) env = (Raise e, env').
Proof.
  intros I P. unfold load_env_file, and_then.
  assert (exists e env', load_lines lines env = (Raise e, env')) as (e & env' & ->); [|eauto].
  revert env. induction lines as [| l lines IH]; intros env; [destruct I|].
  cbn [load_lines]. unfold and_then.
  destruct I as [-> | I].
  - rewrite P. unfold setenv. cbn [occurs orb String.eqb].
    destruct (occurs Ascii.zero value); eauto.
  - destruct (parse_line l) as [[k v] |].
    + destruct (setenv k v env) as [[[] | e] env1]; [apply IH; trivial | eauto].
    + unfold done. now apply IH.
Qed.

Lemma env_file_empty_name_raises_witness :
  exists e env',
    load_env_file false no_dotenv (Some broken_lines) environment = (Raise e, env').
Proof.
  apply (@env_file_empty_name_raises no_dotenv broken_lines ("=oops" ++ newline) "oops"
           environment).
  - right. now left.
  - reflexivity.
Defined.

